(** * The study-plan scheduler of [src/screens/UserDashboard.tsx]

    A shallow embedding of [expandCycleItems], [isSimuladoCompleted] and
    [generateSchedule], followed by the properties of the agenda they
    produce.  The helpers and handlers of the dashboard around the
    scheduler (clock and calendar texts, the flashcard viewer, grading and
    ranking of an exam, progress and plan actions) and
    [generateFlashcardsFromPDF] of [src/services/ai.ts] are embedded after
    it, with their properties at the end.

    Conventions of the embedding.
    - JavaScript numbers that count minutes, orders and targets are
      integers ([Z]); array indices and queue pointers are [nat].
    - JavaScript objects used as dictionaries ([disciplineQueues],
      [disciplinePointers], [routine.days], the returned agenda) are
      [gmap string _].  A lookup that yields [undefined] is [None].
    - An optional string property is an [option string]; the test
      [if (x)] on it is [truthy], which also rejects the empty string.
    - [calculateGoalDuration] is imported from [../constants]; it is a
      parameter of the development.
    - A [Date] is an instant counted in minutes since the epoch.  A
      calendar date is the number of days since 1970-01-01.  The host zone
      is a function [tz] of the local calendar day: [tz d] is the value of
      [getTimezoneOffset()] at local midnight of day [d], in minutes,
      positive west of Greenwich.  It may change from day to day, as it
      does where daylight saving time is kept; local midnight is taken to
      exist on every day. *)

From Stdlib Require Import ZArith List String Ascii Bool Lia.
From stdpp Require Import base option list gmap strings pretty.

Local Open Scope string_scope.
Local Open Scope nat_scope.

(** ** Data model *)

Inductive UserLevel := iniciante | intermediario | avancado.

Inductive CycleSystem := continuo | rotativo.

Module Goal.
Record t := mk { id : string; type : string; title : string; order : Z }.
End Goal.

Module Subject.
Record t := mk { name : string; order : Z; goals : list Goal.t }.
End Subject.

Module Discipline.
Record t := mk
  { id : string; name : string; folderId : option string; order : Z;
    subjects : list Subject.t }.
End Discipline.

Module CycleItem.
Record t := mk
  { folderId : option string; disciplineId : option string;
    simuladoId : option string; subjectsCount : Z }.
End CycleItem.

Module Cycle.
Record t := mk { id : string; items : list CycleItem.t }.
End Cycle.

Module StudyPlan.
Record t := mk
  { disciplines : list Discipline.t; cycles : list Cycle.t;
    cycleSystem : option CycleSystem }.
End StudyPlan.

Module Routine.
Record t := mk { days : gmap string Z }.
End Routine.

Module Simulado.
Record t := mk { id : string; title : string; totalQuestions : Z }.
End Simulado.

Module SimuladoAttempt.
Record t := mk { simuladoId : string }.
End SimuladoAttempt.

(** A goal as it sits in a discipline queue: the goal object together with
    the two properties [_subjectName] and [_disciplineName] that
    [generateSchedule] writes onto it while flattening. *)
Module QueuedGoal.
Record t := mk
  { goal : Goal.t; _subjectName : string; _disciplineName : string }.
End QueuedGoal.

Module ScheduledItem.
Record t := mk
  { uniqueId : string; date : string; goalId : string; goalType : string;
    title : string; disciplineName : string; subjectName : string;
    duration : Z; isRevision : bool; completed : bool;
    originalGoal : option QueuedGoal.t;
    simuladoData : option Simulado.t }.
End ScheduledItem.

Abbreviation Agenda := (gmap string (list ScheduledItem.t)).

(** ** JavaScript helpers *)

(** [if (s)] on an optional string: present and not empty. *)
Definition truthy (o : option string) : option string :=
  match o with
  | Some s => if String.eqb s "" then None else Some s
  | None => None
  end.

(** [s || dflt] on a string. *)
Definition orElse (s dflt : string) : string :=
  if String.eqb s "" then dflt else s.

(** [[...l].sort((a, b) => a.order - b.order)]: a stable sort on the key. *)
Fixpoint insertBy {A} (key : A → Z) (x : A) (l : list A) : list A :=
  match l with
  | [] => [x]
  | y :: l' => if (key y <? key x)%Z then y :: insertBy key x l' else x :: l
  end.

Definition sortBy {A} (key : A → Z) (l : list A) : list A :=
  foldr (insertBy key) [] l.

(** ** Dates *)

(** Days since the epoch to (year, month, day) of the proleptic Gregorian
    calendar. *)
Definition civilFromDays (z : Z) : Z * Z * Z :=
  (let z := z + 719468 in
   let era := z / 146097 in
   let doe := z - era * 146097 in
   let yoe := (doe - doe / 1460 + doe / 36524 - doe / 146096) / 365 in
   let doy := doe - (365 * yoe + yoe / 4 - yoe / 100) in
   let mp := (5 * doy + 2) / 153 in
   let d := doy - (153 * mp + 2) / 5 + 1 in
   let m := if mp <? 10 then mp + 3 else mp - 9 in
   (if m <=? 2 then yoe + era * 400 + 1 else yoe + era * 400, m, d))%Z.

Definition pad2 (n : Z) : string :=
  if (n <? 10)%Z then "0" +:+ pretty n else pretty n.

Definition pad4 (n : Z) : string :=
  if (n <? 10)%Z then "000" +:+ pretty n
  else if (n <? 100)%Z then "00" +:+ pretty n
  else if (n <? 1000)%Z then "0" +:+ pretty n
  else pretty n.

(** [toISOString().split('T')[0]] of an instant on the given UTC day. *)
Definition isoDate (day : Z) : string :=
  let '(y, m, d) := civilFromDays day in
  pad4 y +:+ "-" +:+ pad2 m +:+ "-" +:+ pad2 d.

Definition dayMap : list string :=
  ["domingo"; "segunda"; "terca"; "quarta"; "quinta"; "sexta"; "sabado"].

(** [getDayName]: the date string is re-read at local noon, so the weekday
    is that of the calendar date itself; 1970-01-01 was a Thursday. *)
Definition getDayName (day : Z) : string :=
  default "" (dayMap !! Z.to_nat ((day + 4) `mod` 7)).

(** [new Date(startDateStr + 'T00:00:00')]: local midnight of a day, as
    an instant in minutes. *)
Definition localMidnight (day : Z) (tz : Z → Z) : Z :=
  (day * 1440 + tz day)%Z.

(** The UTC calendar day of an instant, which is what [toISOString]
    prints. *)
Definition utcDay (instant : Z) : Z := (instant / 1440)%Z.

(** The day printed for [dayOffset]: [setDate(getDate() + dayOffset)] moves
    the local date by [dayOffset] days and keeps the local time, so the
    instant is local midnight of that day, taken with the offset of that
    day. *)
Definition dateOfOffset (startDay : Z) (tz : Z → Z) (dayOffset : nat) : Z :=
  utcDay (localMidnight (startDay + Z.of_nat dayOffset) tz).

(** ** expandCycleItems and isSimuladoCompleted *)

Definition expandCycleItems (cycle : Cycle.t) (plan : StudyPlan.t)
  : list CycleItem.t :=
  flat_map (λ item,
    match truthy (CycleItem.folderId item) with
    | Some f =>
        map (λ d, CycleItem.mk None (Some (Discipline.id d)) None
                    (CycleItem.subjectsCount item))
          (sortBy Discipline.order
             (List.filter
                (λ d, bool_decide (Discipline.folderId d = Some f))
                (StudyPlan.disciplines plan)))
    | None =>
        match truthy (CycleItem.disciplineId item) with
        | Some _ => [item]
        | None =>
            match truthy (CycleItem.simuladoId item) with
            | Some _ => [item]
            | None => []
            end
        end
    end) (Cycle.items cycle).

Definition isSimuladoCompleted (simuladoId : string)
    (attempts : list SimuladoAttempt.t) : bool :=
  existsb (λ a, String.eqb (SimuladoAttempt.simuladoId a) simuladoId) attempts.

(** ** generateSchedule *)

(** The cursor of the walk and the pointer table, which live for the whole
    run, and the three variables of the current day. *)
Record LoopState := mkLoopState
  { currentCycleIndex : nat;
    currentItemIndex : nat;
    disciplinePointers : gmap string nat;
    minutesAvailable : Z;
    dayItems : list ScheduledItem.t;
    itemsProcessedToday : nat }.

(** The variables local to one visit of a discipline item. *)
Record SlotState := mkSlotState
  { pointer : nat;
    scheduledInThisSlot : Z;
    lastSubName : string;
    processedSomething : bool }.

(** What an iteration of the day's [while] does next: go round again
    ([continue], or the end of the body) or leave the loop ([break]). *)
Inductive Flow := Next | Stop.

Definition MAX_DAYS : nat := 90.
Definition SAFETY_LIMIT : nat := 500.

Section Scheduler.

Variable calculateGoalDuration : Goal.t → UserLevel → Z.
Variable tz : Z → Z.
Variable plan : StudyPlan.t.
Variable routine : Routine.t.
Variable startDay : Z.
Variable completedGoals : list string.
Variable userLevel : UserLevel.
Variable allSimulados : list Simulado.t.
Variable userAttempts : list SimuladoAttempt.t.

Definition cycleSystem : CycleSystem :=
  default continuo (StudyPlan.cycleSystem plan).

Definition isRotativo : bool :=
  match cycleSystem with rotativo => true | continuo => false end.

Definition hasAvailability : bool :=
  existsb (λ kv, (0 <? kv.2)%Z) (map_to_list (Routine.days routine)).

(** The flattened queue of one discipline. *)
Definition flatGoals (d : Discipline.t) : list QueuedGoal.t :=
  flat_map (λ s,
    map (λ g, QueuedGoal.mk g (Subject.name s) (Discipline.name d))
      (sortBy Goal.order (Subject.goals s)))
    (sortBy Subject.order (Discipline.subjects d)).

Definition disciplineQueues : gmap string (list QueuedGoal.t) :=
  foldl (λ m d, <[Discipline.id d := flatGoals d]> m) ∅
    (StudyPlan.disciplines plan).

Definition initialPointers : gmap string nat :=
  foldl (λ m d, <[Discipline.id d := 0]> m) ∅ (StudyPlan.disciplines plan).

(** One item of a cycle has no work left.  A pointer that is [undefined]
    compares false against any length. *)
Definition itemExhausted (ptrs : gmap string nat) (item : CycleItem.t)
  : bool :=
  match truthy (CycleItem.simuladoId item) with
  | Some sid => isSimuladoCompleted sid userAttempts
  | None =>
      match truthy (CycleItem.disciplineId item) with
      | Some did =>
          match ptrs !! did with
          | Some ptr => length (default [] (disciplineQueues !! did)) <=? ptr
          | None => false
          end
      | None => true
      end
  end.

Definition isCycleExhausted (ptrs : gmap string nat) (cIndex : nat) : bool :=
  match StudyPlan.cycles plan !! cIndex with
  | None => true
  | Some c => forallb (itemExhausted ptrs) (expandCycleItems c plan)
  end.

(** The [while] that skips the cycles already exhausted at the start; it
    runs at most once per cycle. *)
Fixpoint skipExhausted (fuel cIndex : nat) : nat :=
  match fuel with
  | 0 => cIndex
  | S fuel' =>
      if (cIndex <? length (StudyPlan.cycles plan))
         && isCycleExhausted initialPointers cIndex
      then skipExhausted fuel' (S cIndex)
      else cIndex
  end.

Definition initialCycleIndex : nat :=
  match cycleSystem with
  | continuo => skipExhausted (length (StudyPlan.cycles plan)) 0
  | rotativo => 0
  end.

(** Duration of a goal, with the two floors for a rule that yields 0. *)
Definition resolveDuration (g : Goal.t) : Z :=
  let duration := calculateGoalDuration g userLevel in
  let duration :=
    if (duration =? 0)%Z && negb (String.eqb (Goal.type g) "AULA")
    then 15%Z else duration in
  if (duration =? 0)%Z then 30%Z else duration.

Definition simuladoItem (dateStr : string) (simulado : Simulado.t)
  : ScheduledItem.t :=
  ScheduledItem.mk
    (dateStr +:+ "_SIM_" +:+ Simulado.id simulado)
    dateStr (Simulado.id simulado) "SIMULADO"
    ("SIMULADO: " +:+ Simulado.title simulado)
    "AVALIAÇÃO"
    (pretty (Simulado.totalQuestions simulado) +:+ " Questões")
    (Simulado.totalQuestions simulado * 3)%Z
    false false None (Some simulado).

Definition goalItem (dateStr cycleId disciplineId : string)
    (g : QueuedGoal.t) : ScheduledItem.t :=
  ScheduledItem.mk
    (dateStr +:+ "_" +:+ cycleId +:+ "_" +:+ disciplineId +:+ "_"
       +:+ Goal.id (QueuedGoal.goal g))
    dateStr (Goal.id (QueuedGoal.goal g)) (Goal.type (QueuedGoal.goal g))
    (Goal.title (QueuedGoal.goal g))
    (orElse (QueuedGoal._disciplineName g) "Disciplina")
    (orElse (QueuedGoal._subjectName g) "Assunto")
    (resolveDuration (QueuedGoal.goal g))
    false false (Some g) None.

Definition isCompletedGoal (g : QueuedGoal.t) : bool :=
  existsb (String.eqb (Goal.id (QueuedGoal.goal g))) completedGoals.

(** [pointer++; disciplinePointers[id] = pointer], the two assignments
    that close both the skip of a completed goal and a placement. *)
Definition advancePointer (disciplineId : string) (st : LoopState)
    (sl : SlotState) : LoopState :=
  mkLoopState (currentCycleIndex st) (currentItemIndex st)
    (<[disciplineId := S (pointer sl)]> (disciplinePointers st))
    (minutesAvailable st) (dayItems st) (itemsProcessedToday st).

Definition skipGoal (sl : SlotState) : SlotState :=
  mkSlotState (S (pointer sl)) (scheduledInThisSlot sl) (lastSubName sl)
    (processedSomething sl).

(** [lastSubName && goal._subjectName === lastSubName] *)
Definition isSameSub (g : QueuedGoal.t) (sl : SlotState) : bool :=
  negb (String.eqb (lastSubName sl) "")
  && String.eqb (QueuedGoal._subjectName g) (lastSubName sl).

(** The placement of a goal: the push onto [dayItems] and the updates
    that follow it. *)
Definition placeGoal (dateStr cycleId disciplineId : string)
    (g : QueuedGoal.t) (st : LoopState) (sl : SlotState) : LoopState :=
  mkLoopState (currentCycleIndex st) (currentItemIndex st)
    (<[disciplineId := S (pointer sl)]> (disciplinePointers st))
    (minutesAvailable st - resolveDuration (QueuedGoal.goal g))%Z
    (dayItems st ++ [goalItem dateStr cycleId disciplineId g])
    (S (itemsProcessedToday st)).

Definition placedSlot (g : QueuedGoal.t) (sl : SlotState) : SlotState :=
  mkSlotState (S (pointer sl))
    (if isSameSub g sl then scheduledInThisSlot sl
     else (scheduledInThisSlot sl + 1)%Z)
    (if isSameSub g sl then lastSubName sl else QueuedGoal._subjectName g)
    true.

Definition withMinutes (m : Z) (st : LoopState) : LoopState :=
  mkLoopState (currentCycleIndex st) (currentItemIndex st)
    (disciplinePointers st) m (dayItems st) (itemsProcessedToday st).

(** The inner [while] of a discipline visit.  [rest] is the part of the
    queue from the pointer on, so [pointer < queue.length] is
    [rest ≠ []]. *)
Fixpoint visitQueue (dateStr cycleId disciplineId : string)
    (subjectsCount : Z) (rest : list QueuedGoal.t)
    (st : LoopState) (sl : SlotState) : LoopState * SlotState :=
  match rest with
  | [] => (st, sl)
  | g :: rest' =>
      if (scheduledInThisSlot sl <? subjectsCount)%Z then
        if isCompletedGoal g then
          visitQueue dateStr cycleId disciplineId subjectsCount rest'
            (advancePointer disciplineId st sl) (skipGoal sl)
        else if (resolveDuration (QueuedGoal.goal g) <=? minutesAvailable st)%Z
                || (itemsProcessedToday st =? 0)
        then
          visitQueue dateStr cycleId disciplineId subjectsCount rest'
            (placeGoal dateStr cycleId disciplineId g st sl)
            (placedSlot g sl)
        else (withMinutes 0 st, sl)
      else (st, sl)
  end.

Definition withCursor (c i : nat) (st : LoopState) : LoopState :=
  mkLoopState c i (disciplinePointers st) (minutesAvailable st)
    (dayItems st) (itemsProcessedToday st).

Definition nextItem (st : LoopState) : LoopState :=
  withCursor (currentCycleIndex st) (S (currentItemIndex st)) st.

(** The placement of an exam: it takes what is left of the day. *)
Definition placeSimulado (dateStr : string) (s : Simulado.t)
    (st : LoopState) : LoopState :=
  mkLoopState (currentCycleIndex st) (S (currentItemIndex st))
    (disciplinePointers st) 0%Z
    (dayItems st ++ [simuladoItem dateStr s])
    (S (itemsProcessedToday st)).

(** Branch 1 of the body: the current item is an exam. *)
Definition processSimulado (dateStr sid : string) (st : LoopState)
  : Flow * LoopState :=
  let simulado :=
    List.find (λ s, String.eqb (Simulado.id s) sid) allSimulados in
  if isSimuladoCompleted sid userAttempts then (Next, nextItem st)
  else
    match simulado with
    | Some s =>
        if (itemsProcessedToday st =? 0) || (60 <? minutesAvailable st)%Z
        then
          (Next, placeSimulado dateStr s st)
        else (Stop, withMinutes 0 st)
    | None => (Next, nextItem st)
    end.

(** Branch 2 of the body: the current item is a discipline. *)
Definition processDisciplina (dateStr cycleId did : string)
    (subjectsCount : Z) (st : LoopState) : Flow * LoopState :=
  match disciplineQueues !! did with
  | None => (Next, nextItem st)
  | Some queue =>
      match disciplinePointers st !! did with
      | None =>
          (* an undefined pointer fails every comparison *)
          if (subjectsCount <=? 0)%Z then (Next, nextItem st) else (Next, st)
      | Some ptr =>
          if length queue <=? ptr then (Next, nextItem st)
          else
            let '(st', sl) :=
              visitQueue dateStr cycleId did subjectsCount (drop ptr queue)
                st (mkSlotState ptr 0%Z "" false) in
            if (subjectsCount <=? scheduledInThisSlot sl)%Z
               || (length queue <=? pointer sl)
            then (Next, nextItem st')
            else if negb (processedSomething sl)
                    && (minutesAvailable st' <=? 0)%Z
            then (Stop, st')
            else (Next, st')
      end
  end.

(** One pass through the body of the day's [while]. *)
Definition step (dateStr : string) (st : LoopState) : Flow * LoopState :=
  let ncycles := length (StudyPlan.cycles plan) in
  if (ncycles <=? currentCycleIndex st) && negb isRotativo then (Stop, st)
  else
    let c := if ncycles <=? currentCycleIndex st then 0
             else currentCycleIndex st in
    let st := withCursor c (currentItemIndex st) st in
    match StudyPlan.cycles plan !! c with
    | None => (Stop, st)
    | Some cycle =>
        let activeItems := expandCycleItems cycle plan in
        match activeItems !! currentItemIndex st with
        | None =>
            match cycleSystem with
            | continuo =>
                if isCycleExhausted (disciplinePointers st) c
                then (Next, withCursor (S c) 0 st)
                else (Next, withCursor c 0 st)
            | rotativo => (Next, withCursor (S c) 0 st)
            end
        | Some cycleItem =>
            match truthy (CycleItem.simuladoId cycleItem) with
            | Some sid => processSimulado dateStr sid st
            | None =>
                match truthy (CycleItem.disciplineId cycleItem) with
                | Some did =>
                    processDisciplina dateStr (Cycle.id cycle) did
                      (CycleItem.subjectsCount cycleItem) st
                | None => (Next, st)
                end
            end
        end
    end.

(** The day's [while (minutesAvailable > 0 && safetyLoop < 500)]; [fuel]
    is what is left of the safety counter. *)
Fixpoint dayLoop (dateStr : string) (fuel : nat) (st : LoopState)
  : LoopState :=
  match fuel with
  | 0 => st
  | S fuel' =>
      if (0 <? minutesAvailable st)%Z then
        match step dateStr st with
        | (Stop, st') => st'
        | (Next, st') => dayLoop dateStr fuel' st'
        end
      else st
  end.

(** The state in which a day starts: the cursor and pointers of the day
    before, a fresh budget and an empty list. *)
Definition startOfDay (minutes : Z) (st : LoopState) : LoopState :=
  mkLoopState (currentCycleIndex st) (currentItemIndex st)
    (disciplinePointers st) minutes [] 0.

Definition minutesOf (day : Z) : Z :=
  default 0%Z (Routine.days routine !! getDayName day).

(** The body of the [for] over the days. *)
Definition runDay (acc : LoopState * Agenda) (dayOffset : nat)
  : LoopState * Agenda :=
  let day := dateOfOffset startDay tz dayOffset in
  let dateStr := isoDate day in
  let minutes := minutesOf day in
  if (minutes =? 0)%Z then acc
  else
    let st := dayLoop dateStr SAFETY_LIMIT (startOfDay minutes acc.1) in
    (st,
     match dayItems st with
     | [] => acc.2
     | _ :: _ => <[dateStr := dayItems st]> acc.2
     end).

Definition initialState : LoopState :=
  mkLoopState initialCycleIndex 0 initialPointers 0%Z [] 0.

(** The run over the first [n] days. *)
Definition runDays (n : nat) : LoopState * Agenda :=
  foldl runDay (initialState, ∅) (seq 0 n).

(** What [generateSchedule] does once past its three early returns. *)
Definition scheduleDays : Agenda := (runDays MAX_DAYS).2.

End Scheduler.

Arguments dayLoop : simpl never.
Opaque SAFETY_LIMIT.

Definition generateSchedule (calculateGoalDuration : Goal.t → UserLevel → Z)
    (tz : Z → Z) (plan : option StudyPlan.t) (routine : Routine.t)
    (startDay : Z) (completedGoals : list string) (userLevel : UserLevel)
    (isPaused : bool) (allSimulados : list Simulado.t)
    (userAttempts : list SimuladoAttempt.t) : Agenda :=
  if isPaused then ∅
  else
    match plan with
    | None => ∅
    | Some plan =>
        if length (StudyPlan.cycles plan) =? 0 then ∅
        else if negb (hasAvailability routine) then ∅
        else
          scheduleDays calculateGoalDuration tz plan routine startDay
            completedGoals userLevel allSimulados userAttempts
    end.

(** ** Sample data *)

Module Sample.

Definition rule30 : Goal.t → UserLevel → Z := λ _ _, 30%Z.

Definition goals3 : list Goal.t :=
  [Goal.mk "g1" "AULA" "Aula 1" 1; Goal.mk "g2" "AULA" "Aula 2" 2;
   Goal.mk "g3" "AULA" "Aula 3" 3].

Definition matematica : Discipline.t :=
  Discipline.mk "d1" "Matemática" None 1
    [Subject.mk "Álgebra" 1 goals3].

Definition cycle1 : Cycle.t :=
  Cycle.mk "c1" [CycleItem.mk None (Some "d1") None 1].

Definition plan1 : StudyPlan.t :=
  StudyPlan.mk [matematica] [cycle1] (Some continuo).

Definition mondays60 : Routine.t :=
  Routine.mk (list_to_map [("segunda", 60%Z)]).

(** 2024-01-01, a Monday. *)
Definition monday : Z := 19723.

(** The host zone of the deployment, UTC-03:00 all year. *)
Definition brasilia : Z → Z := λ _, 180%Z.

(** A host at UTC. *)
Definition utc : Z → Z := λ _, 0%Z.

Definition queued (g : Goal.t) : QueuedGoal.t :=
  QueuedGoal.mk g "Álgebra" "Matemática".

Definition g1 : Goal.t := Goal.mk "g1" "AULA" "Aula 1" 1.
Definition g2 : Goal.t := Goal.mk "g2" "AULA" "Aula 2" 2.
Definition g3 : Goal.t := Goal.mk "g3" "AULA" "Aula 3" 3.

(** A cycle that visits the discipline and then holds an exam, on a
    routine of 100 minutes every Monday. *)
Definition simulado1 : Simulado.t := Simulado.mk "s1" "Simulado 1" 20.

Definition cycle2 : Cycle.t :=
  Cycle.mk "c2"
    [CycleItem.mk None (Some "d1") None 1;
     CycleItem.mk None None (Some "s1") 0].

Definition plan2 : StudyPlan.t :=
  StudyPlan.mk [matematica] [cycle2] (Some continuo).

Definition mondays100 : Routine.t :=
  Routine.mk (list_to_map [("segunda", 100%Z)]).

Definition agenda2 : Agenda :=
  generateSchedule rule30 brasilia (Some plan2) mondays100 monday []
    iniciante false [simulado1] [].

Definition goalThenExam : list ScheduledItem.t :=
  [goalItem rule30 iniciante "2024-01-01" "c2" "d1" (queued g1);
   simuladoItem "2024-01-01" simulado1].

(** A discipline in which a goal was duplicated together with its id. *)
Definition g1copy : Goal.t := Goal.mk "g1" "AULA" "Aula 1 (cópia)" 2.

Definition duplicada : Discipline.t :=
  Discipline.mk "d1" "Matemática" None 1
    [Subject.mk "Álgebra" 1 [g1; g1copy]].

Definition plan3 : StudyPlan.t :=
  StudyPlan.mk [duplicada] [cycle1] (Some continuo).

Definition agenda3 : Agenda :=
  generateSchedule rule30 brasilia (Some plan3) mondays60 monday []
    iniciante false [] [].

Definition sundays60 : Routine.t :=
  Routine.mk (list_to_map [("domingo", 60%Z)]).

(** A host one hour east of Greenwich: [getTimezoneOffset()] is -60. *)
Definition lisbonSummer : Z → Z := λ _, (-60)%Z.

Definition idle : Routine.t :=
  Routine.mk (list_to_map [("segunda", 0%Z); ("terca", 0%Z)]).

(** A routine with a negative entry, as the routine form stores it
    when a negative number is typed in. *)
Definition mondays60tuesdaysNegative : Routine.t :=
  Routine.mk (list_to_map [("segunda", 60%Z); ("terca", (-30)%Z)]).

(** A first cycle on a discipline without goals, exhausted from the
    start, and a second cycle on the discipline with the three goals. *)
Definition vazia : Discipline.t := Discipline.mk "d0" "Física" None 0 [].

Definition cycle0 : Cycle.t :=
  Cycle.mk "c0" [CycleItem.mk None (Some "d0") None 1].

Definition plan4 (mode : CycleSystem) : StudyPlan.t :=
  StudyPlan.mk [vazia; matematica] [cycle0; cycle1] (Some mode).

(** A cycle whose only item is an exam that the catalogue lacks. *)
Definition cycleExam : Cycle.t :=
  Cycle.mk "c3" [CycleItem.mk None None (Some "s1") 0].

Definition plan5 : StudyPlan.t :=
  StudyPlan.mk [matematica] [cycleExam] (Some continuo).

(** A cycle of 500 items on an exam already taken, then the discipline:
    one more thing to pass than the loop of a day has iterations. *)
Definition cycleLong : Cycle.t :=
  Cycle.mk "c4"
    (replicate 500 (CycleItem.mk None None (Some "s1") 0)
     ++ [CycleItem.mk None (Some "d1") None 1]).

Definition plan6 : StudyPlan.t :=
  StudyPlan.mk [matematica] [cycleLong] (Some rotativo).

(** Two disciplines whose ids and goal ids join to the same text. *)
Definition plan7 : StudyPlan.t :=
  StudyPlan.mk
    [Discipline.mk "x" "Direito" None 1
       [Subject.mk "Parte geral" 1 [Goal.mk "y_z" "AULA" "Aula" 1]];
     Discipline.mk "x_y" "Direito II" None 2
       [Subject.mk "Parte especial" 1 [Goal.mk "z" "AULA" "Aula" 1]]]
    [Cycle.mk "c5"
       [CycleItem.mk None (Some "x") None 1;
        CycleItem.mk None (Some "x_y") None 1]]
    (Some continuo).

Definition agenda1 : Agenda :=
  generateSchedule rule30 brasilia (Some plan1) mondays60 monday []
    iniciante false [] [].

End Sample.


(** ** Vocabulary of the properties *)

(** An exam item is one that carries the exam payload, [simuladoData];
    goal items carry [originalGoal] in its place. *)
Definition isSimuladoItem (it : ScheduledItem.t) : bool :=
  match ScheduledItem.simuladoData it with Some _ => true | None => false end.

Definition totalDuration (l : list ScheduledItem.t) : Z :=
  foldr (λ it acc, (ScheduledItem.duration it + acc)%Z) 0%Z l.

(** The shape of the list of a day that started with [m] minutes: goal
    items, their cost charged to the budget unless the budget was zeroed
    on the way out of a visit, then at most one exam, which closes the day
    and stands either alone or where more than 60 minutes were left. *)
Definition DayShape (m : Z) (st : LoopState) : Prop :=
  itemsProcessedToday st = length (dayItems st)
  ∧ ((Forall (λ it, isSimuladoItem it = false) (dayItems st)
      ∧ (minutesAvailable st = (m - totalDuration (dayItems st))%Z
         ∨ minutesAvailable st = 0%Z))
     ∨ (∃ gs e, dayItems st = (gs ++ [e])%list
          ∧ Forall (λ it, isSimuladoItem it = false) gs
          ∧ isSimuladoItem e = true
          ∧ minutesAvailable st = 0%Z
          ∧ (gs = [] ∨ (60 < m - totalDuration gs)%Z))).

(** Exam exclusivity, as the specification words it: a day that holds an
    exam holds nothing else. *)
Definition ExamExclusive (agenda : Agenda) : Prop :=
  ∀ k items, agenda !! k = Some items →
    (∃ it, it ∈ items ∧ isSimuladoItem it = true) → length items = 1.

(** Identifiers that the pieces of a [uniqueId] can be read back from: the
    separator does not occur in them. *)
Fixpoint noUnderscore (s : string) : bool :=
  match s with
  | EmptyString => true
  | String c s' => negb (Ascii.eqb c "_") && noUnderscore s'
  end.

(** Identifiers as the editor hands them out: no separator in the ids of
    cycles, disciplines and exams, and no goal id twice in a discipline. *)
Definition WellFormedIds (plan : StudyPlan.t) (allSimulados : list Simulado.t)
  : Prop :=
  Forall (λ c, noUnderscore (Cycle.id c) = true) (StudyPlan.cycles plan)
  ∧ Forall (λ d, noUnderscore (Discipline.id d) = true)
      (StudyPlan.disciplines plan)
  ∧ Forall (λ s, noUnderscore (Simulado.id s) = true) allSimulados
  ∧ Forall (λ d, NoDup (map Goal.id
                          (flat_map Subject.goals (Discipline.subjects d))))
      (StudyPlan.disciplines plan).

(** No two items of a day under one [uniqueId], as the specification
    words it. *)
Definition UniqueIdsPerDay (agenda : Agenda) : Prop :=
  ∀ k items, agenda !! k = Some items →
    NoDup (map ScheduledItem.uniqueId items).

(** In continuous mode the cycle index starts at [cmin] and never goes
    back; in rotating mode it wraps to 0. *)
Definition lowerBound (plan : StudyPlan.t) (cmin : nat) : nat :=
  if isRotativo plan then 0 else cmin.

(** Where an item of the agenda comes from: a goal that is not completed,
    at a position [p] that the pointer of its discipline has passed, in
    the queue of a discipline named by an item of a cycle; or an exam of
    the catalogue without an attempt, named by an item of a cycle.  The
    cycle has index [cmin] at least. *)
Inductive Origin (calculateGoalDuration : Goal.t → UserLevel → Z)
    (userLevel : UserLevel) (plan : StudyPlan.t)
    (completedGoals : list string) (allSimulados : list Simulado.t)
    (userAttempts : list SimuladoAttempt.t) (dateStr : string) (cmin : nat)
    (ptrs : gmap string nat) : ScheduledItem.t → Prop :=
  | origin_goal c cycle ci did queue p q ptr :
      cmin ≤ c →
      StudyPlan.cycles plan !! c = Some cycle →
      ci ∈ expandCycleItems cycle plan →
      truthy (CycleItem.disciplineId ci) = Some did →
      disciplineQueues plan !! did = Some queue →
      queue !! p = Some q →
      isCompletedGoal completedGoals q = false →
      ptrs !! did = Some ptr → p < ptr →
      Origin calculateGoalDuration userLevel plan completedGoals allSimulados
        userAttempts dateStr cmin ptrs
        (goalItem calculateGoalDuration userLevel dateStr (Cycle.id cycle)
           did q)
  | origin_simulado c cycle ci s :
      cmin ≤ c →
      StudyPlan.cycles plan !! c = Some cycle →
      ci ∈ expandCycleItems cycle plan →
      truthy (CycleItem.simuladoId ci) = Some (Simulado.id s) →
      s ∈ allSimulados →
      isSimuladoCompleted (Simulado.id s) userAttempts = false →
      Origin calculateGoalDuration userLevel plan completedGoals allSimulados
        userAttempts dateStr cmin ptrs (simuladoItem dateStr s).

(** What the day's loop keeps true of its state: the cycle index stays
    above its bound, an exam in the list means the budget is spent, every
    item has an origin, and under well-formed ids no [uniqueId] occurs
    twice. *)
Definition Provenance (calculateGoalDuration : Goal.t → UserLevel → Z)
    (userLevel : UserLevel) (plan : StudyPlan.t)
    (completedGoals : list string) (allSimulados : list Simulado.t)
    (userAttempts : list SimuladoAttempt.t) (dateStr : string) (cmin : nat)
    (st : LoopState) : Prop :=
  lowerBound plan cmin ≤ currentCycleIndex st
  ∧ (∀ it, it ∈ dayItems st → isSimuladoItem it = true →
       minutesAvailable st = 0%Z)
  ∧ Forall (Origin calculateGoalDuration userLevel plan completedGoals
              allSimulados userAttempts dateStr (lowerBound plan cmin)
              (disciplinePointers st)) (dayItems st)
  ∧ (WellFormedIds plan allSimulados →
       NoDup (map ScheduledItem.uniqueId (dayItems st))).

(** ** The walk towards the next piece of content *)

Section Walk.

Variable plan : StudyPlan.t.
Variable completedGoals : list string.
Variable allSimulados : list Simulado.t.
Variable userAttempts : list SimuladoAttempt.t.

(** An item of a cycle from which the body of the loop places
    something on a day that is still empty: an exam of the catalogue
    without an attempt, or a discipline with a positive target and a goal
    not yet completed at or after its pointer. *)
Definition placeable (ptrs : gmap string nat) (ci : CycleItem.t) : bool :=
  match truthy (CycleItem.simuladoId ci) with
  | Some sid =>
      negb (isSimuladoCompleted sid userAttempts)
      && match List.find (λ s, String.eqb (Simulado.id s) sid) allSimulados
         with Some _ => true | None => false end
  | None =>
      match truthy (CycleItem.disciplineId ci) with
      | Some did =>
          match disciplineQueues plan !! did, ptrs !! did with
          | Some queue, Some ptr =>
              (0 <? CycleItem.subjectsCount ci)%Z
              && existsb (λ g, negb (isCompletedGoal completedGoals g))
                   (drop ptr queue)
          | _, _ => false
          end
      | None => false
      end
  end.

(** The cycle the cursor stands in, once wrapped in rotating mode. *)
Definition cursorCycle (st : LoopState) : nat :=
  if length (StudyPlan.cycles plan) <=? currentCycleIndex st then 0
  else currentCycleIndex st.

Definition planComplete (st : LoopState) : bool :=
  (length (StudyPlan.cycles plan) <=? currentCycleIndex st)
  && negb (isRotativo plan).

(** The item under the cursor, if the cursor is on one. *)
Definition cursorItem (st : LoopState) : option CycleItem.t :=
  if planComplete st then None
  else
    cycle ← StudyPlan.cycles plan !! cursorCycle st;
    expandCycleItems cycle plan !! currentItemIndex st.

Definition placeableNow (st : LoopState) : bool :=
  match cursorItem st with
  | Some ci => placeable (disciplinePointers st) ci
  | None => false
  end.

Definition withPointers (ptrs : gmap string nat) (st : LoopState)
  : LoopState :=
  mkLoopState (currentCycleIndex st) (currentItemIndex st) ptrs
    (minutesAvailable st) (dayItems st) (itemsProcessedToday st).

(** Where the walk goes from a cursor with nothing to place: past the
    end of a list to the next cycle (in continuous mode only from an
    exhausted cycle, otherwise back to the head of the list); past an
    exam; past a discipline, draining what is left of its queue when
    that is completed goals only.  An item that names neither exam nor
    discipline holds the cursor where it is.  [None] when the plan is
    complete. *)
Definition passOver (st : LoopState) : option LoopState :=
  if planComplete st then None
  else
    let c := cursorCycle st in
    let i := currentItemIndex st in
    cycle ← StudyPlan.cycles plan !! c;
    match expandCycleItems cycle plan !! i with
    | None =>
        Some (withCursor
                (if isRotativo plan then S c
                 else if isCycleExhausted plan userAttempts
                           (disciplinePointers st) c
                      then S c else c)
                0 st)
    | Some ci =>
        match truthy (CycleItem.simuladoId ci) with
        | Some _ => Some (withCursor c (S i) st)
        | None =>
            match truthy (CycleItem.disciplineId ci) with
            | Some did =>
                match disciplineQueues plan !! did with
                | None => Some (withCursor c (S i) st)
                | Some queue =>
                    match disciplinePointers st !! did with
                    | None =>
                        Some (withCursor c
                                (if (CycleItem.subjectsCount ci <=? 0)%Z
                                 then S i else i) st)
                    | Some ptr =>
                        if (length queue <=? ptr)
                           || (CycleItem.subjectsCount ci <=? 0)%Z
                        then Some (withCursor c (S i) st)
                        else
                          Some (withCursor c (S i)
                                  (withPointers
                                     (<[did := length queue]>
                                        (disciplinePointers st)) st))
                    end
                end
            | None => Some (withCursor c i st)
            end
        end
    end.

(** The walk reaches content within [n] iterations of the loop. *)
Fixpoint contentWithin (n : nat) (st : LoopState) : bool :=
  match n with
  | 0 => false
  | S n' =>
      placeableNow st
      || match passOver st with
         | Some st' => contentWithin n' st'
         | None => false
         end
  end.

End Walk.

(** At least one item per day, as the specification words it: on every
    day of the horizon whose weekday has minutes other than zero, content
    within reach of the walk puts an item in the agenda. *)
Definition AtLeastOnePerDay (calculateGoalDuration : Goal.t → UserLevel → Z)
    (tz : Z → Z) (plan : StudyPlan.t) (routine : Routine.t)
    (startDay : Z)
    (completedGoals : list string) (userLevel : UserLevel)
    (allSimulados : list Simulado.t) (userAttempts : list SimuladoAttempt.t)
  : Prop :=
  ∀ off, off < MAX_DAYS →
    let day := dateOfOffset startDay tz off in
    minutesOf routine day ≠ 0%Z →
    contentWithin plan completedGoals allSimulados userAttempts SAFETY_LIMIT
      (startOfDay (minutesOf routine day)
         (runDays calculateGoalDuration tz plan routine startDay
            completedGoals userLevel allSimulados userAttempts off).1)
    = true →
    ∃ items,
      generateSchedule calculateGoalDuration tz (Some plan) routine startDay
        completedGoals userLevel false allSimulados userAttempts
      !! isoDate day = Some items
      ∧ items ≠ [].

(** An item of the agenda drawn from a given cycle: a goal item filed
    under the id of the cycle for a discipline that an item of the cycle
    names, or an exam that an item of the cycle names. *)
Definition DrawnFrom (calculateGoalDuration : Goal.t → UserLevel → Z)
    (userLevel : UserLevel) (plan : StudyPlan.t) (cycle : Cycle.t)
    (it : ScheduledItem.t) : Prop :=
  ∃ dateStr ci, ci ∈ expandCycleItems cycle plan
    ∧ ((∃ did q, truthy (CycleItem.disciplineId ci) = Some did
          ∧ it = goalItem calculateGoalDuration userLevel dateStr
                   (Cycle.id cycle) did q)
       ∨ (∃ s, truthy (CycleItem.simuladoId ci) = Some (Simulado.id s)
            ∧ it = simuladoItem dateStr s)).

(** Every discipline that has a queue has a pointer. *)
Definition Covered (plan : StudyPlan.t) (ptrs : gmap string nat) : Prop :=
  ∀ did, is_Some (disciplineQueues plan !! did) → is_Some (ptrs !! did).

(** An item that names an exam or a discipline. *)
Definition named (ci : CycleItem.t) : Prop :=
  is_Some (truthy (CycleItem.simuladoId ci))
  ∨ is_Some (truthy (CycleItem.disciplineId ci)).

(** ** Vocabulary of further properties of the scheduler *)

(** The goal items of a list, in order. *)
Definition goalItemsOf (l : list ScheduledItem.t) : list ScheduledItem.t :=
  List.filter (λ it, negb (isSimuladoItem it)) l.

(** What the day's loop keeps true of the budget of a day of [m] minutes:
    either the one item of the day costs more than the day has, or the
    goal items fit and the minutes left are no more than what they
    leave. *)
Definition Budget (m : Z) (st : LoopState) : Prop :=
  itemsProcessedToday st = length (dayItems st)
  ∧ ((∃ it, dayItems st = [it] ∧ isSimuladoItem it = false
        ∧ (m < ScheduledItem.duration it)%Z
        ∧ (minutesAvailable st ≤ 0)%Z)
     ∨ ((totalDuration (goalItemsOf (dayItems st)) ≤ m)%Z
        ∧ (minutesAvailable st
           ≤ m - totalDuration (goalItemsOf (dayItems st)))%Z)).

(** Every pointer of the first table is in the second, no smaller. *)
Definition PointersGrow (ptrs ptrs' : gmap string nat) : Prop :=
  ∀ did ptr, ptrs !! did = Some ptr →
    ∃ ptr', ptrs' !! did = Some ptr' ∧ ptr ≤ ptr'.

(** Every pointer stands inside its queue or at its end. *)
Definition PointersBounded (plan : StudyPlan.t) (ptrs : gmap string nat)
  : Prop :=
  ∀ did ptr, ptrs !! did = Some ptr →
    ∃ queue, disciplineQueues plan !! did = Some queue ∧ ptr ≤ length queue.

(** The cycles behind the cursor have no work left. *)
Definition CyclesBehindExhausted (plan : StudyPlan.t)
    (userAttempts : list SimuladoAttempt.t) (st : LoopState) : Prop :=
  ∀ c, c < currentCycleIndex st →
    isCycleExhausted plan userAttempts (disciplinePointers st) c = true.

(** * The helpers and handlers around the scheduler *)

(** ** Clock texts *)

(** [s.padStart(2, '0')] *)
Definition padStart2 (s : string) : string :=
  match String.length s with
  | 0 => "00"
  | 1 => "0" +:+ s
  | _ => s
  end.

(** [formatStopwatch]; [%] is the remainder that takes the sign of the
    dividend, [Math.floor] of a quotient is the floored division. *)
Definition formatStopwatch (seconds : Z) : string :=
  let h := padStart2 (pretty (seconds / 3600)%Z) in
  let m := padStart2 (pretty (Z.rem seconds 3600 / 60)%Z) in
  let s := padStart2 (pretty (Z.rem seconds 60)) in
  h +:+ ":" +:+ m +:+ ":" +:+ s.

(** ** Calendar helpers *)

(** [getWeekDays]: the base date is read at local noon, moved back to the
    Sunday of its week, and the seven days from there are printed in
    UTC.  Here [tz] is the value of [getTimezoneOffset()] at local noon. *)
Definition getWeekDays (tz baseDay : Z) : list string :=
  let date := (baseDay * 1440 + 720 + tz)%Z in
  let day := ((baseDay + 4) `mod` 7)%Z in
  let sunday := (date - day * 1440)%Z in
  map (λ i, isoDate (utcDay (sunday + Z.of_nat i * 1440))) (seq 0 7).

(** (year, month, day) to days since the epoch; the month counts from 1. *)
Definition daysFromCivil (y m d : Z) : Z :=
  (let y := if m <=? 2 then y - 1 else y in
   let era := y / 400 in
   let yoe := y - era * 400 in
   let doy := (153 * (if 2 <? m then m - 3 else m + 9) + 2) / 5 + d - 1 in
   let doe := yoe * 365 + yoe / 4 - yoe / 100 + doy in
   era * 146097 + doe - 719468)%Z.

(** [generateMonthGrid] of the calendar view.  [new Date(selectedDate)]
    reads a date without a time as midnight UTC; the year and the month
    are then taken in local time, with [tzSelected], the value of
    [getTimezoneOffset()] at that instant.  The first of that month is
    built at local midnight, moved back to the Sunday on or before it,
    and the 42 local midnights from there, each with the offset of its
    own day, are printed in UTC. *)
Definition generateMonthGrid (tzSelected : Z) (tz : Z → Z) (selectedDay : Z)
  : list string :=
  let localDay := utcDay (selectedDay * 1440 - tzSelected) in
  let '(year, month, _) := civilFromDays localDay in
  let firstDay := daysFromCivil year month 1 in
  let startDay := ((firstDay + 4) `mod` 7)%Z in
  let startDate := (firstDay - startDay)%Z in
  map (λ i, isoDate (utcDay (localMidnight (startDate + Z.of_nat i) tz)))
    (seq 0 42).

(** ** The flashcard viewer *)

(** The viewer renders nothing for an empty deck, so [len], the number
    of cards, is at least 1 when the handlers run. *)

(** [nextCard]: the index set when the timer of a press fires, 300 ms
    after the press.  The handler tests [currentIndex], the index of the
    render in which the button was pressed, and the update [prev => prev +
    1] adds to [prev], the index at the moment the timer fires.  The two
    are the same when the press is made alone; they differ when an earlier
    press has not yet taken effect. *)
Definition nextCard (currentIndex prev len : nat) : nat :=
  if currentIndex <? len - 1 then prev + 1 else 0.

(** [prevCard], for a press made alone: the index of the render and the
    index when the timer fires are the same. *)
Definition prevCard (currentIndex len : nat) : nat :=
  if 0 <? currentIndex then currentIndex + 1 else len - 1.

(** ** Grading an exam *)

(** The fields of a [Simulado] that [finishSimulado] reads.  Points are
    whole numbers. *)
Module AnswerKey.
Record t := mk
  { totalQuestions : nat;
    correctAnswers : gmap nat string;
    questionValues : gmap nat Z;
    hasPenalty : bool }.
End AnswerKey.

(** [simulado.questionValues[i] || 1] *)
Definition questionValue (key : AnswerKey.t) (i : nat) : Z :=
  match AnswerKey.questionValues key !! i with
  | Some v => if (v =? 0)%Z then 1%Z else v
  | None => 1%Z
  end.

(** The answer given to question [i], when there is one: [null], a
    missing entry and the empty text all fail the test [userAns &&]. *)
Definition givenAnswer (answers : gmap nat string) (i : nat) : option string :=
  truthy (answers !! i).

(** The body of the loop over the questions. *)
Definition gradeQuestion (key : AnswerKey.t) (answers : gmap nat string)
    (score : Z) (i : nat) : Z :=
  match givenAnswer answers i with
  | Some userAns =>
      if bool_decide (AnswerKey.correctAnswers key !! i = Some userAns)
      then (score + questionValue key i)%Z
      else if AnswerKey.hasPenalty key then (score - questionValue key i)%Z
      else score
  | None => score
  end.

(** The [score] that [finishSimulado] records. *)
Definition finishScore (key : AnswerKey.t) (answers : gmap nat string) : Z :=
  let score :=
    foldl (gradeQuestion key answers) 0%Z
      (seq 1 (AnswerKey.totalQuestions key)) in
  if (score <? 0)%Z then 0%Z else score.

(** [Object.values(questionValues).reduce(...) || totalQuestions] *)
Definition totalPoints (key : AnswerKey.t) : Z :=
  let sum :=
    foldr (λ kv acc, (kv.2 + acc)%Z) 0%Z
      (map_to_list (AnswerKey.questionValues key)) in
  if (sum =? 0)%Z then Z.of_nat (AnswerKey.totalQuestions key) else sum.

(** ** The ranking of an exam *)

(** The fields of a [SimuladoAttempt] that the ranking reads. *)
Module Attempt.
Record t := mk
  { id : string; userId : string; simuladoId : string; score : Z }.
End Attempt.

Module UserInfo.
Record t := mk { nickname : string; name : string }.
End UserInfo.

Module RankRow.
Record t := mk
  { rank : nat; userId : string; name : string; score : Z;
    isCurrentUser : bool }.
End RankRow.

(** [name.split(' ')[0]] *)
Fixpoint firstWord (s : string) : string :=
  match s with
  | EmptyString => EmptyString
  | String c s' =>
      if Ascii.eqb c " " then EmptyString else String c (firstWord s')
  end.

(** [if (!existing || a.score > existing.score) best[a.userId] = a], on an
    object whose keys keep the order in which they came in (user ids are
    not texts of integers). *)
Fixpoint updateBest (best : list (string * Attempt.t)) (a : Attempt.t)
  : list (string * Attempt.t) :=
  match best with
  | [] => [(Attempt.userId a, a)]
  | (u, existing) :: rest =>
      if String.eqb u (Attempt.userId a) then
        if (Attempt.score existing <? Attempt.score a)%Z
        then (u, a) :: rest else best
      else (u, existing) :: updateBest rest a
  end.

Definition displayName (allUsersMap : gmap string UserInfo.t)
    (userId : string) : string :=
  match allUsersMap !! userId with
  | Some u => orElse (UserInfo.nickname u) (firstWord (UserInfo.name u))
  | None => "Usuário"
  end.

(** The attempts that enter the ranking: those on the exam, and the
    attempt on display when it is not among them. *)
Definition finalAttempts (allAttempts : list Attempt.t) (simuladoId : string)
    (attempt : option Attempt.t) : list Attempt.t :=
  let relevantAttempts :=
    List.filter (λ a, String.eqb (Attempt.simuladoId a) simuladoId)
      allAttempts in
  match attempt with
  | Some at' =>
      if existsb (λ a, String.eqb (Attempt.id a) (Attempt.id at'))
           relevantAttempts
      then relevantAttempts else relevantAttempts ++ [at']
  | None => relevantAttempts
  end.

(** The [ranking] memo of the exam runner. *)
Definition ranking (showResult : bool) (allAttempts : list Attempt.t)
    (simuladoId : string) (attempt : option Attempt.t) (userId : string)
    (allUsersMap : gmap string UserInfo.t) : list RankRow.t :=
  if negb showResult then []
  else
    let best := foldl updateBest [] (finalAttempts allAttempts simuladoId attempt) in
    imap (λ index a,
            RankRow.mk (index + 1) (Attempt.userId a)
              (displayName allUsersMap (Attempt.userId a))
              (Attempt.score a)
              (String.eqb (Attempt.userId a) userId))
      (sortBy (λ a, (- Attempt.score a)%Z) (map snd best)).

(** ** Progress and plan handlers *)

(** [toggleGoalComplete]: a completed goal is taken out at once; one that
    is not completed is added when the dialog is confirmed. *)
Definition toggleGoalComplete (completedGoalIds : list string)
    (gid : string) (confirmed : bool) : list string :=
  if existsb (String.eqb gid) completedGoalIds
  then List.filter (λ id, negb (String.eqb id gid)) completedGoalIds
  else if confirmed then completedGoalIds ++ [gid] else completedGoalIds.

Module Progress.
Record t := mk
  { completedGoalIds : list string;
    totalStudySeconds : Z;
    planStudySeconds : gmap string Z }.
End Progress.

(** [saveStudyTime]: the progress it stores.  The plan-less key is the
    empty text. *)
Definition saveStudyTime (progress : Progress.t) (timerSeconds : Z)
    (currentPlanId activeGoalId : option string) (comp : bool)
  : Progress.t :=
  let planKey := default "" (truthy currentPlanId) in
  let newTotal := (Progress.totalStudySeconds progress + timerSeconds)%Z in
  let planTotal :=
    (default 0%Z (Progress.planStudySeconds progress !! planKey)
     + timerSeconds)%Z in
  Progress.mk
    (match truthy activeGoalId with
     | Some gid =>
         if comp
            && negb (existsb (String.eqb gid)
                       (Progress.completedGoalIds progress))
         then Progress.completedGoalIds progress ++ [gid]
         else Progress.completedGoalIds progress
     | None => Progress.completedGoalIds progress
     end)
    newTotal
    (<[planKey := planTotal]> (Progress.planStudySeconds progress)).

(** The configuration of a plan.  [startDate] is the day number of the
    stored date text; the handlers only ever store [getTodayStr()]. *)
Module PlanConfig.
Record t := mk { startDate : Z; isPaused : bool }.
End PlanConfig.

Inductive PlanAction := pause | reschedule | restart.

(** [handlePlanAction]: the plan configurations and the completed goals it
    stores; [today] is the day of [getTodayStr()]. *)
Definition handlePlanAction (today : Z) (currentPlan : option string)
    (action : PlanAction)
    (planConfigs : gmap string PlanConfig.t) (completedGoalIds : list string)
  : gmap string PlanConfig.t * list string :=
  match currentPlan with
  | None => (planConfigs, completedGoalIds)
  | Some id =>
      let config :=
        default (PlanConfig.mk today false) (planConfigs !! id) in
      match action with
      | restart => (<[id := PlanConfig.mk today false]> planConfigs, [])
      | pause =>
          (<[id := PlanConfig.mk (PlanConfig.startDate config)
                     (negb (PlanConfig.isPaused config))]> planConfigs,
           completedGoalIds)
      | reschedule =>
          (<[id := PlanConfig.mk today false]> planConfigs, completedGoalIds)
      end
  end.

(** [executePlanSwitch]: the plan configurations and the current plan it
    stores; [plans] holds the ids of the plans the user may open. *)
Definition executePlanSwitch (today : Z) (plans : list string)
    (currentPlan : option string) (newPlanId : string)
    (planConfigs : gmap string PlanConfig.t) (currentPlanId : option string)
  : gmap string PlanConfig.t * option string :=
  if negb (existsb (String.eqb newPlanId) plans)
  then (planConfigs, currentPlanId)
  else
    let paused :=
      match truthy currentPlan with
      | Some old =>
          <[old := PlanConfig.mk
                     (PlanConfig.startDate
                        (default (PlanConfig.mk today false)
                           (planConfigs !! old)))
                     true]> planConfigs
      | None => planConfigs
      end in
    let active :=
      match paused !! newPlanId with
      | None => <[newPlanId := PlanConfig.mk today false]> paused
      | Some c =>
          <[newPlanId := PlanConfig.mk (PlanConfig.startDate c) false]> paused
      end in
    (active, Some newPlanId).

(** [handleSetupSave]: the plan configurations and the current plan it
    stores. *)
Definition handleSetupSave (today : Z) (currentPlan : option string)
    (planConfigs : gmap string PlanConfig.t) (currentPlanId : option string)
  : gmap string PlanConfig.t * option string :=
  match currentPlan with
  | Some id =>
      (match planConfigs !! id with
       | None => <[id := PlanConfig.mk today false]> planConfigs
       | Some _ => planConfigs
       end, Some id)
  | None => (planConfigs, currentPlanId)
  end.

(** [P] on the [n] integers from [k] on. *)
Fixpoint allFrom (P : Z → bool) (k : Z) (n : nat) : bool :=
  match n with
  | 0 => true
  | S n' => P k && allFrom P (k + 1)%Z n'
  end.

(** The points of the questions of [l]. *)
Definition pointsOf (key : AnswerKey.t) (l : list nat) : Z :=
  foldr (λ i acc, (questionValue key i + acc)%Z) 0%Z l.

(** The value table gives a positive value to each question of the exam
    and to nothing else. *)
Definition CompleteKey (key : AnswerKey.t) : Prop :=
  (∀ i, is_Some (AnswerKey.questionValues key !! i)
        ↔ 1 ≤ i ≤ AnswerKey.totalQuestions key)
  ∧ ∀ i v, AnswerKey.questionValues key !! i = Some v → (0 < v)%Z.

(** Every question of the exam got the answer of the key. *)
Definition PerfectSheet (key : AnswerKey.t) (answers : gmap nat string)
  : Prop :=
  ∀ i, 1 ≤ i ≤ AnswerKey.totalQuestions key →
    ∃ a, a ≠ "" ∧ answers !! i = Some a
      ∧ AnswerKey.correctAnswers key !! i = Some a.

Module SampleExam.
(** Two questions worth 2 and 3 points, with penalty. *)
Definition key : AnswerKey.t :=
  AnswerKey.mk 2 {[ 1 := "A"; 2 := "B" ]} {[ 1 := 2%Z; 2 := 3%Z ]} true.
Definition allRight : gmap nat string := {[ 1 := "A"; 2 := "B" ]}.
Definition oneWrong : gmap nat string := {[ 1 := "A"; 2 := "C" ]}.
(** The same exam with no value for the second question. *)
Definition partialKey : AnswerKey.t :=
  AnswerKey.mk 2 {[ 1 := "A"; 2 := "B" ]} {[ 1 := 2%Z ]} true.
End SampleExam.

(** [best] holds, for each user with an attempt in [l], one attempt of
    that user in [l] that no other attempt of theirs in [l] beats. *)
Definition BestOf (l : list Attempt.t) (best : list (string * Attempt.t))
  : Prop :=
  NoDup (map fst best)
  ∧ (∀ u e, (u, e) ∈ best → Attempt.userId e = u ∧ e ∈ l)
  ∧ ∀ a, a ∈ l →
      ∃ e, (Attempt.userId a, e) ∈ best
        ∧ (Attempt.score a ≤ Attempt.score e)%Z.

Module SampleRanking.
Definition a1 : Attempt.t := Attempt.mk "t1" "ana" "s1" 7.
Definition a2 : Attempt.t := Attempt.mk "t2" "bia" "s1" 9.
Definition a3 : Attempt.t := Attempt.mk "t3" "ana" "s1" 8.
Definition a4 : Attempt.t := Attempt.mk "t4" "caio" "s2" 10.
Definition allAttempts : list Attempt.t := [a1; a2; a4].
Definition users : gmap string UserInfo.t :=
  {[ "ana" := UserInfo.mk "" "Ana Lima"; "bia" := UserInfo.mk "Bi" "Bia" ]}.
Definition rows : list RankRow.t :=
  ranking true allAttempts "s1" (Some a3) "ana" users.
End SampleRanking.

(** No element has a smaller key than an element before it. *)
Fixpoint Ascending {A} (key : A → Z) (l : list A) : Prop :=
  match l with
  | [] => True
  | x :: l' => Forall (λ y, (key x ≤ key y)%Z) l' ∧ Ascending key l'
  end.

(** The effect that fills the agenda of the dashboard: it calls
    [generateSchedule] on the current plan (given with its id), with the
    start date and the pause flag of the plan's configuration. *)
Definition dashboardSchedule (calculateGoalDuration : Goal.t → UserLevel → Z)
    (tz : Z → Z) (today : Z) (currentPlan : option (string * StudyPlan.t))
    (routine : Routine.t) (planConfigs : gmap string PlanConfig.t)
    (completedGoalIds : list string) (level : option UserLevel)
    (simuladoClasses : list (list Simulado.t))
    (attempts : list SimuladoAttempt.t) : Agenda :=
  match currentPlan with
  | Some (id, plan) =>
      if hasAvailability routine then
        let config := planConfigs !! id in
        generateSchedule calculateGoalDuration tz (Some plan) routine
          (default today (PlanConfig.startDate <$> config))
          completedGoalIds (default iniciante level)
          (default false (PlanConfig.isPaused <$> config))
          (concat simuladoClasses) attempts
      else ∅
  | None => ∅
  end.

(** Among the plans with a configuration, only [current] may be running. *)
Definition OnlyCurrentRuns (planConfigs : gmap string PlanConfig.t)
    (current : string) : Prop :=
  ∀ id c, planConfigs !! id = Some c → id ≠ current →
    PlanConfig.isPaused c = true.

Module SampleDashboard.
Definition configs : gmap string PlanConfig.t :=
  {[ "p1" := PlanConfig.mk Sample.monday false ]}.
(** The agenda of the sample plan once its first goal is marked. *)
Definition agenda : Agenda :=
  dashboardSchedule Sample.rule30 Sample.brasilia Sample.monday
    (Some ("p1", Sample.plan1)) Sample.mondays60 configs
    (toggleGoalComplete [] "g1" true) None [] [].
End SampleDashboard.

(** ** Late goals *)

(** [dateStr < todayStr && items.some(i => !i.completed)], the test of the
    calendar views; texts compare by their characters from the left. *)
Definition hasLateGoals (dateStr todayStr : string)
    (items : list ScheduledItem.t) : bool :=
  String.ltb dateStr todayStr
  && existsb (λ i, negb (ScheduledItem.completed i)) items.

(** [lateItems] of the daily view, on the entries of the agenda. *)
Definition lateItems (entries : list (string * list ScheduledItem.t))
    (todayStr : string) : list ScheduledItem.t :=
  flat_map (λ e, List.filter (λ item, negb (ScheduledItem.completed item)) e.2)
    (List.filter (λ e, String.ltb e.1 todayStr) entries).

Module SampleFolder.
(** Two disciplines of one folder, listed against their order, and a
    cycle made of the folder and an exam. *)
Definition direito : Discipline.t :=
  Discipline.mk "d2" "Direito" (Some "f1") 2 [].
Definition portugues : Discipline.t :=
  Discipline.mk "d3" "Português" (Some "f1") 1 [].
Definition cycle : Cycle.t :=
  Cycle.mk "c1"
    [CycleItem.mk (Some "f1") None None 2;
     CycleItem.mk None None (Some "s1") 0].
Definition plan : StudyPlan.t :=
  StudyPlan.mk [direito; portugues] [cycle] None.
End SampleFolder.

Module SampleZone.
(** Europe/London in 2024: summer time runs from 31 March to 27 October
    and changes at 01:00 UTC, so the local midnights from 1 April
    (day 19814) to 27 October (day 20023) are an hour ahead of UTC. *)
Definition london2024 : Z → Z :=
  λ d, if ((19814 <=? d) && (d <=? 20023))%Z then (-60)%Z else 0%Z.
(** Europe/Berlin in 2024, an hour further east on every day. *)
Definition berlin2024 : Z → Z := λ d, (london2024 d - 60)%Z.
End SampleZone.

(** ** Placements *)

(** No two goals of the plan share an id. *)
Definition DistinctGoalIds (plan : StudyPlan.t) : Prop :=
  NoDup (map Goal.id
           (flat_map (λ d, flat_map Subject.goals (Discipline.subjects d))
              (StudyPlan.disciplines plan))).

(** The item is the goal at position [w.2] of the queue of discipline
    [w.1]. *)
Definition PlacedAt (calculateGoalDuration : Goal.t → UserLevel → Z)
    (userLevel : UserLevel) (plan : StudyPlan.t) (dateStr : string)
    (it : ScheduledItem.t) (w : string * nat) : Prop :=
  ∃ queue q cid,
    disciplineQueues plan !! w.1 = Some queue ∧ queue !! w.2 = Some q
    ∧ it = goalItem calculateGoalDuration userLevel dateStr cid w.1 q.

(** Every pointer of [ptrs] was a pointer of [ptrs0], not above it. *)
Definition PointersFrom (ptrs0 ptrs : gmap string nat) : Prop :=
  ∀ did ptr, ptrs !! did = Some ptr →
    ∃ ptr0, ptrs0 !! did = Some ptr0 ∧ ptr0 ≤ ptr.

(** The goal items of the day sit at queue positions that are all
    different, each between the pointer of its discipline when the day
    began, [ptrs0], and the pointer now. *)
Definition PlacedToday (calculateGoalDuration : Goal.t → UserLevel → Z)
    (userLevel : UserLevel) (plan : StudyPlan.t) (dateStr : string)
    (ptrs0 : gmap string nat) (st : LoopState) : Prop :=
  PointersFrom ptrs0 (disciplinePointers st)
  ∧ ∃ ws,
      Forall2 (PlacedAt calculateGoalDuration userLevel plan dateStr)
        (goalItemsOf (dayItems st)) ws
      ∧ NoDup ws
      ∧ ∀ did p, (did, p) ∈ ws →
          ∃ ptr0 ptr, ptrs0 !! did = Some ptr0
            ∧ disciplinePointers st !! did = Some ptr ∧ ptr0 ≤ p < ptr.

(** ** Completed goals and exhausted cycles *)

(** No item of the agenda carries an id of the completed list, as the
    specification words it. *)
Definition CompletedNeverReferenced (agenda : Agenda)
    (completedGoals : list string) : Prop :=
  ∀ g k items it,
    g ∈ completedGoals → agenda !! k = Some items → it ∈ items →
    ScheduledItem.goalId it ≠ g.

(** Every item of the day is drawn from [cycle], and no pointer is below
    where it started. *)
Definition FromCycle (calculateGoalDuration : Goal.t → UserLevel → Z)
    (userLevel : UserLevel) (plan : StudyPlan.t) (cycle : Cycle.t)
    (st : LoopState) : Prop :=
  Forall (DrawnFrom calculateGoalDuration userLevel plan cycle) (dayItems st)
  ∧ PointersGrow (initialPointers plan) (disciplinePointers st).

Module SampleFolderCycle.
(** A discipline saved without an id, in a folder, and a first cycle
    made of that folder: its one expanded item names neither an exam
    nor a discipline. *)
Definition semId : Discipline.t :=
  Discipline.mk "" "Sem id" (Some "f1") 0 [].
Definition cycleFolder : Cycle.t :=
  Cycle.mk "c0" [CycleItem.mk (Some "f1") None None 1].
Definition plan (mode : CycleSystem) : StudyPlan.t :=
  StudyPlan.mk [semId; Sample.matematica] [cycleFolder; Sample.cycle1]
    (Some mode).
End SampleFolderCycle.

(** * Flashcards from a PDF (services/ai.ts) *)

Module RawCard.
Record t := mk { question : string; answer : string }.
End RawCard.

Module Flashcard.
Record t := mk { id : string; question : string; answer : string }.
End Flashcard.

(** A computation that throws or rejects with a message, or returns. *)
Definition Result (A : Type) : Type := string + A.

Definition emptyReplyMessage : string :=
  "Não foi possível gerar flashcards (resposta vazia).".

Definition failureMessage : string :=
  "Falha ao processar o arquivo com IA. Verifique se o PDF contém texto selecionável.".

(** [base64Pdf.replace(/^data:application\/pdf;base64,/, "")] *)
Definition cleanBase64 (base64Pdf : string) : string :=
  let header := "data:application/pdf;base64," in
  if String.prefix header base64Pdf
  then String.substring (String.length header)
         (String.length base64Pdf - String.length header) base64Pdf
  else base64Pdf.

(** [rawCards.map(card => ({ id: uuid(), ... }))]; the [n]-th call of
    [uuid()] returns [uuid n], and the count of calls is threaded. *)
Fixpoint toFlashcards (uuid : nat → string) (rawCards : list RawCard.t)
    (n : nat) : list Flashcard.t * nat :=
  match rawCards with
  | [] => ([], n)
  | card :: rest =>
      let id := uuid n in
      let '(cards, n') := toFlashcards uuid rest (S n) in
      (Flashcard.mk id (RawCard.question card) (RawCard.answer card) :: cards,
       n')
  end.

Section Flashcards.

(** The model call, resolved to [response.text] (which may be missing)
    or rejected; [JSON.parse(jsonText.trim())] read as a list of cards,
    or thrown; the ids that [uuid()] hands out. *)
Variable generateContent : string → Result (option string).
Variable parseCards : string → Result (list RawCard.t).
Variable uuid : nat → string.

(** The body of the [try]. *)
Definition requestFlashcards (base64Pdf : string) (n : nat)
  : Result (list Flashcard.t * nat) :=
  match generateContent (cleanBase64 base64Pdf) with
  | inl e => inl e
  | inr response =>
      match truthy response with
      | None => inl emptyReplyMessage
      | Some jsonText =>
          match parseCards jsonText with
          | inl e => inl e
          | inr rawCards => inr (toFlashcards uuid rawCards n)
          end
      end
  end.

(** [generateFlashcardsFromPDF]: the [catch] replaces whatever was
    thrown. *)
Definition generateFlashcardsFromPDF (base64Pdf : string) (n : nat)
  : Result (list Flashcard.t * nat) :=
  match requestFlashcards base64Pdf n with
  | inl _ => inl failureMessage
  | inr r => inr r
  end.

End Flashcards.

Module SampleReply.
Definition generateContent : string → Result (option string) :=
  λ _, inr (Some "[{}]").
Definition parseCards : string → Result (list RawCard.t) :=
  λ _, inr [RawCard.mk "Prazo?" "30 dias"; RawCard.mk "Regra?" "Geral"].
Definition uuid : nat → string := λ n, "id" +:+ pretty n.
End SampleReply.

(** * Properties *)

(** ** Reading a [uniqueId] back *)

Lemma append_cancel_l (d x y : string) : d +:+ x = d +:+ y → x = y.
Proof.
  induction d as [|c d IH]; simpl; [done|]. intros H. apply IH.
  by injection H.
Qed.

Lemma noUnderscore_cons c s :
  noUnderscore (String c s) = true → c ≠ "_"%char ∧ noUnderscore s = true.
Proof.
  simpl. intros [Hc Hs]%andb_true_iff. split; [|done].
  intros ->. by rewrite Ascii.eqb_refl in Hc.
Qed.

(** Up to the first separator a joined string has one reading. *)
Lemma join_inj (a a' r r' : string) :
  noUnderscore a = true → noUnderscore a' = true →
  a +:+ "_" +:+ r = a' +:+ "_" +:+ r' → a = a' ∧ r = r'.
Proof.
  revert a'. induction a as [|c a IH]; intros [|c' a'] Ha Ha' H; simpl in H.
  - split; [done|]. by injection H.
  - apply noUnderscore_cons in Ha' as [Hc _]. injection H as H _. by subst.
  - apply noUnderscore_cons in Ha as [Hc _]. injection H as H _. by subst.
  - apply noUnderscore_cons in Ha as [_ Ha].
    apply noUnderscore_cons in Ha' as [_ Ha'].
    injection H as -> H. destruct (IH a' Ha Ha' H) as [-> ->]. done.
Qed.

Lemma noUnderscore_join (a r : string) : noUnderscore (a +:+ "_" +:+ r) = false.
Proof.
  induction a as [|c a IH]; simpl; [done|].
  rewrite IH. apply andb_false_r.
Qed.

Lemma goal_uniqueId_inj calc level d cid did q cid' did' q' :
  noUnderscore cid = true → noUnderscore cid' = true →
  noUnderscore did = true → noUnderscore did' = true →
  ScheduledItem.uniqueId (goalItem calc level d cid did q)
  = ScheduledItem.uniqueId (goalItem calc level d cid' did' q') →
  cid = cid' ∧ did = did'
  ∧ Goal.id (QueuedGoal.goal q) = Goal.id (QueuedGoal.goal q').
Proof.
  intros Hc Hc' Hd Hd' H. simpl in H.
  apply append_cancel_l in H. simpl in H. injection H as H.
  apply join_inj in H as [-> H]; [|done..].
  apply join_inj in H as [-> H]; done.
Qed.

Lemma goal_simulado_uniqueId calc level d cid did q s :
  noUnderscore cid = true → noUnderscore (Simulado.id s) = true →
  ScheduledItem.uniqueId (goalItem calc level d cid did q)
  ≠ ScheduledItem.uniqueId (simuladoItem d s).
Proof.
  intros Hc Hs H. simpl in H.
  apply append_cancel_l in H. simpl in H. injection H as H.
  change ("SIM_" +:+ Simulado.id s) with ("SIM" +:+ "_" +:+ Simulado.id s) in H.
  apply join_inj in H as [_ H]; [|done..].
  rewrite <- H, noUnderscore_join in Hs. done.
Qed.

(** ** The discipline queues *)

Lemma insertBy_perm {A} (key : A → Z) x l : insertBy key x l ≡ₚ x :: l.
Proof.
  induction l as [|y l IH]; simpl; [done|].
  destruct (key y <? key x)%Z; [|done].
  rewrite IH. apply perm_swap.
Qed.

Lemma sortBy_perm {A} (key : A → Z) (l : list A) : sortBy key l ≡ₚ l.
Proof.
  induction l as [|x l IH]; simpl; [done|].
  unfold sortBy in *. simpl. by rewrite insertBy_perm, IH.
Qed.

Lemma flat_map_goal_ids sn dn (ss : list Subject.t) :
  map (λ g, Goal.id (QueuedGoal.goal g))
    (flat_map (λ s, map (λ g, QueuedGoal.mk g (sn s) dn)
                      (sortBy Goal.order (Subject.goals s))) ss)
  ≡ₚ map Goal.id (flat_map Subject.goals ss).
Proof.
  induction ss as [|s ss IH]; simpl; [done|].
  rewrite !map_app, IH, map_map. simpl.
  by rewrite (sortBy_perm Goal.order (Subject.goals s)).
Qed.

Lemma flatGoals_ids d :
  map (λ g, Goal.id (QueuedGoal.goal g)) (flatGoals d)
  ≡ₚ map Goal.id (flat_map Subject.goals (Discipline.subjects d)).
Proof.
  unfold flatGoals. rewrite flat_map_goal_ids.
  apply Permutation_map, Permutation_flat_map, sortBy_perm.
Qed.

Lemma foldl_insert_lookup {A V} (key : A → string) (val : A → V)
    (l : list A) (m : gmap string V) k v :
  foldl (λ m x, <[key x := val x]> m) m l !! k = Some v →
  m !! k = Some v ∨ ∃ x, x ∈ l ∧ key x = k ∧ v = val x.
Proof.
  revert m. induction l as [|x l IH]; intros m H; simpl in H; [by left|].
  apply IH in H as [H|(y & ? & ? & ?)].
  - rewrite lookup_insert in H. case_decide; [|by left].
    simplify_eq. right. exists x. split; [left|done].
  - right. exists y. split; [by right|done].
Qed.

Lemma disciplineQueues_lookup plan did queue :
  disciplineQueues plan !! did = Some queue →
  ∃ d, d ∈ StudyPlan.disciplines plan ∧ Discipline.id d = did
    ∧ queue = flatGoals d.
Proof.
  intros [H|H]%foldl_insert_lookup; [by rewrite lookup_empty in H|done].
Qed.

(** In a plan with well-formed ids a queue holds no goal id twice, and is
    filed under an id without separator. *)
Lemma queue_wellFormed plan sims did queue :
  WellFormedIds plan sims →
  disciplineQueues plan !! did = Some queue →
  noUnderscore did = true
  ∧ NoDup (map (λ g, Goal.id (QueuedGoal.goal g)) queue).
Proof.
  intros (_ & Hd & _ & Hg) (d & Hin & <- & ->)%disciplineQueues_lookup.
  rewrite Forall_forall in Hd. rewrite Forall_forall in Hg. split; [by apply Hd|].
  rewrite flatGoals_ids. by apply Hg.
Qed.

(** ** The run, one day at a time *)

Section Facts.

Context (calculateGoalDuration : Goal.t → UserLevel → Z) (tz : Z → Z)
  (plan : StudyPlan.t) (routine : Routine.t) (startDay : Z)
  (completedGoals : list string) (userLevel : UserLevel)
  (allSimulados : list Simulado.t) (userAttempts : list SimuladoAttempt.t).

Local Abbreviation stepC :=
  (step calculateGoalDuration plan completedGoals userLevel allSimulados
     userAttempts).
Local Abbreviation dayLoopC :=
  (dayLoop calculateGoalDuration plan completedGoals userLevel allSimulados
     userAttempts).
Local Abbreviation visitQueueC :=
  (visitQueue calculateGoalDuration completedGoals userLevel).
Local Abbreviation processDisciplinaC :=
  (processDisciplina calculateGoalDuration plan completedGoals userLevel).
Local Abbreviation processSimuladoC :=
  (processSimulado allSimulados userAttempts).
Local Abbreviation runDayC :=
  (runDay calculateGoalDuration tz plan routine startDay completedGoals
     userLevel allSimulados userAttempts).
Local Abbreviation runDaysC :=
  (runDays calculateGoalDuration tz plan routine startDay completedGoals
     userLevel allSimulados userAttempts).
Local Abbreviation placeGoalC := (placeGoal calculateGoalDuration userLevel).
Local Abbreviation goalItemC := (goalItem calculateGoalDuration userLevel).
Local Abbreviation isCompletedC := (isCompletedGoal completedGoals).
Local Abbreviation durationC := (resolveDuration calculateGoalDuration userLevel).

Lemma runDays_S n : runDaysC (S n) = runDayC (runDaysC n) n.
Proof. unfold runDays. by rewrite seq_S, foldl_app. Qed.

Lemma dayLoop_S dateStr fuel st :
  dayLoopC dateStr (S fuel) st
  = if (0 <? minutesAvailable st)%Z then
      match stepC dateStr st with
      | (Stop, st') => st'
      | (Next, st') => dayLoopC dateStr fuel st'
      end
    else st.
Proof. done. Qed.

(** An invariant of the loop body is an invariant of the day's loop. *)
Lemma dayLoop_inv (I : LoopState → Prop) dateStr :
  (∀ st flow st', I st → (0 < minutesAvailable st)%Z →
     stepC dateStr st = (flow, st') → I st') →
  ∀ fuel st, I st → I (dayLoopC dateStr fuel st).
Proof.
  intros Hstep fuel. induction fuel as [|fuel IH]; intros st Hst; [done|].
  rewrite dayLoop_S. destruct (0 <? minutesAvailable st)%Z eqn:Hm; [|done].
  apply Z.ltb_lt in Hm.
  destruct (stepC dateStr st) as [[] st'] eqn:Hs; eauto.
Qed.

(** An invariant of the two moves of a discipline visit, the skip of a
    completed goal and a placement, holds when the visit ends, up to the
    zeroing of the budget on the way out.  The goal under the pointer is
    the head of what is left of the queue. *)
Lemma visitQueue_inv (J : LoopState → SlotState → Prop)
    dateStr cycleId did count (queue : list QueuedGoal.t) :
  (∀ st sl g, J st sl → queue !! pointer sl = Some g →
     isCompletedC g = true → (scheduledInThisSlot sl < count)%Z →
     J (advancePointer did st sl) (skipGoal sl)) →
  (∀ st sl g, J st sl → queue !! pointer sl = Some g →
     isCompletedC g = false → (scheduledInThisSlot sl < count)%Z →
     (durationC (QueuedGoal.goal g) ≤ minutesAvailable st)%Z
     ∨ itemsProcessedToday st = 0 →
     J (placeGoalC dateStr cycleId did g st sl) (placedSlot g sl)) →
  ∀ rest st sl st' sl',
    rest = drop (pointer sl) queue → J st sl →
    visitQueueC dateStr cycleId did count rest st sl = (st', sl') →
    ∃ st0, J st0 sl' ∧ (st' = st0 ∨ st' = withMinutes 0 st0).
Proof.
  intros Hskip Hplace rest.
  induction rest as [|g rest IH]; intros st sl st' sl' Hrest HJ Hv.
  - simpl in Hv. simplify_eq. eauto.
  - assert (queue !! pointer sl = Some g) as Hg.
    { pose proof (lookup_drop queue (pointer sl) 0) as H.
      rewrite <- Hrest, Nat.add_0_r in H. by rewrite <- H. }
    assert (rest = drop (S (pointer sl)) queue) as Hrest'.
    { rewrite (drop_S _ _ _ Hg) in Hrest. by simplify_eq. }
    simpl in Hv.
    destruct (scheduledInThisSlot sl <? count)%Z eqn:Hcount;
      [|simplify_eq; eauto].
    apply Z.ltb_lt in Hcount.
    destruct (isCompletedC g) eqn:Hc.
    + eapply IH; [| |exact Hv]; [done|]. by eapply Hskip.
    + destruct ((durationC (QueuedGoal.goal g) <=? minutesAvailable st)%Z
                || (itemsProcessedToday st =? 0)) eqn:Hfit.
      * eapply IH; [| |exact Hv]; [done|]. eapply Hplace; eauto.
        apply orb_true_iff in Hfit as [H|H]; [left; lia|right].
        by apply Nat.eqb_eq in H.
      * simplify_eq. eauto.
Qed.

Lemma find_simulado sid s :
  List.find (λ s, String.eqb (Simulado.id s) sid) allSimulados = Some s →
  s ∈ allSimulados ∧ Simulado.id s = sid.
Proof.
  intros H. apply find_some in H as [Hin Heq].
  split; [by apply list_elem_of_In|]. by apply String.eqb_eq.
Qed.

(** The body of the day's loop, move by move: a property kept by every
    move of the cursor, by the zeroing of the budget, by the placement of
    an exam and by a discipline visit is kept by the body.  In
    continuous mode the cycle index never goes back, and a discipline is
    visited only on an item without an exam id. *)
Lemma step_inv_strict (I : LoopState → Prop) dateStr :
  (∀ st c i, I st →
     (isRotativo plan = false → currentCycleIndex st ≤ c) →
     I (withCursor c i st)) →
  (∀ st, I st → I (withMinutes 0 st)) →
  (∀ st s cycle ci, I st → (0 < minutesAvailable st)%Z →
     StudyPlan.cycles plan !! currentCycleIndex st = Some cycle →
     expandCycleItems cycle plan !! currentItemIndex st = Some ci →
     truthy (CycleItem.simuladoId ci) = Some (Simulado.id s) →
     s ∈ allSimulados →
     isSimuladoCompleted (Simulado.id s) userAttempts = false →
     itemsProcessedToday st = 0 ∨ (60 < minutesAvailable st)%Z →
     I (placeSimulado dateStr s st)) →
  (∀ st cycle ci did queue ptr st' sl', I st →
     (0 < minutesAvailable st)%Z →
     StudyPlan.cycles plan !! currentCycleIndex st = Some cycle →
     expandCycleItems cycle plan !! currentItemIndex st = Some ci →
     truthy (CycleItem.simuladoId ci) = None →
     truthy (CycleItem.disciplineId ci) = Some did →
     disciplineQueues plan !! did = Some queue →
     disciplinePointers st !! did = Some ptr →
     ptr < length queue →
     visitQueueC dateStr (Cycle.id cycle) did (CycleItem.subjectsCount ci)
       (drop ptr queue) st (mkSlotState ptr 0 "" false) = (st', sl') →
     I st') →
  ∀ st flow st', I st → (0 < minutesAvailable st)%Z →
    stepC dateStr st = (flow, st') → I st'.
Proof.
  intros Hmove Hzero Hsim Hvisit st flow st' HI Hmin Hstep.
  unfold step in Hstep.
  destruct ((length (StudyPlan.cycles plan) <=? currentCycleIndex st)
            && negb (isRotativo plan)) eqn:Hend; [by simplify_eq|].
  set (c := if length (StudyPlan.cycles plan) <=? currentCycleIndex st
            then 0 else currentCycleIndex st) in *.
  assert (isRotativo plan = false → currentCycleIndex st ≤ c) as Hc.
  { intros Hr. subst c. rewrite Hr in Hend. simpl in Hend.
    rewrite andb_true_r in Hend. by rewrite Hend. }
  set (st0 := withCursor c (currentItemIndex st) st) in *.
  assert (I st0) as HI0 by (by apply Hmove).
  assert (∀ c' i', (isRotativo plan = false → c ≤ c') →
            I (withCursor c' i' st0)) as Hmove0.
  { intros c' i' Hc'. by apply (Hmove st0). }
  destruct (StudyPlan.cycles plan !! c) as [cycle|] eqn:Hcycle;
    [|by simplify_eq].
  destruct (expandCycleItems cycle plan !! currentItemIndex st0)
    as [ci|] eqn:Hci.
  - destruct (truthy (CycleItem.simuladoId ci)) as [sid|] eqn:Hsid.
    + unfold processSimulado in Hstep.
      destruct (isSimuladoCompleted sid userAttempts) eqn:Hdone.
      { simplify_eq. by apply Hmove0. }
      destruct (List.find _ allSimulados) as [s|] eqn:Hfind.
      * apply find_simulado in Hfind as [Hin <-].
        destruct ((itemsProcessedToday st0 =? 0)
                  || (60 <? minutesAvailable st0)%Z) eqn:Hfit.
        -- simplify_eq. eapply (Hsim st0); eauto.
           apply orb_true_iff in Hfit as [H|H];
             [left; by apply Nat.eqb_eq in H|right; lia].
        -- simplify_eq. by apply Hzero.
      * simplify_eq. by apply Hmove0.
    + destruct (truthy (CycleItem.disciplineId ci)) as [did|] eqn:Hdid;
        [|by simplify_eq].
      unfold processDisciplina in Hstep.
      destruct (disciplineQueues plan !! did) as [queue|] eqn:Hq;
        [|simplify_eq; by apply Hmove0].
      destruct (disciplinePointers st0 !! did) as [ptr|] eqn:Hp.
      * destruct (length queue <=? ptr) eqn:Hlen;
          [simplify_eq; by apply Hmove0|].
        apply Nat.leb_gt in Hlen.
        destruct (visitQueueC _ _ _ _ _ _ _) as [st1 sl] eqn:Hv.
        assert (I st1) as HI1 by (eapply (Hvisit st0); eauto).
        destruct ((CycleItem.subjectsCount ci <=? scheduledInThisSlot sl)%Z
                  || (length queue <=? pointer sl)).
        -- simplify_eq. apply (Hmove st1). done. lia.
        -- destruct (negb (processedSomething sl)
                     && (minutesAvailable st1 <=? 0)%Z); by simplify_eq.
      * destruct (CycleItem.subjectsCount ci <=? 0)%Z; simplify_eq;
          [by apply Hmove0|done].
  - destruct (cycleSystem plan) eqn:Hsys.
    + destruct (isCycleExhausted plan userAttempts _ c);
        simplify_eq; apply Hmove0; lia.
    + simplify_eq. apply Hmove0. lia.
Qed.

(** The same, without the test on the exam id. *)
Lemma step_inv (I : LoopState → Prop) dateStr :
  (∀ st c i, I st →
     (isRotativo plan = false → currentCycleIndex st ≤ c) →
     I (withCursor c i st)) →
  (∀ st, I st → I (withMinutes 0 st)) →
  (∀ st s cycle ci, I st → (0 < minutesAvailable st)%Z →
     StudyPlan.cycles plan !! currentCycleIndex st = Some cycle →
     expandCycleItems cycle plan !! currentItemIndex st = Some ci →
     truthy (CycleItem.simuladoId ci) = Some (Simulado.id s) →
     s ∈ allSimulados →
     isSimuladoCompleted (Simulado.id s) userAttempts = false →
     itemsProcessedToday st = 0 ∨ (60 < minutesAvailable st)%Z →
     I (placeSimulado dateStr s st)) →
  (∀ st cycle ci did queue ptr st' sl', I st →
     (0 < minutesAvailable st)%Z →
     StudyPlan.cycles plan !! currentCycleIndex st = Some cycle →
     expandCycleItems cycle plan !! currentItemIndex st = Some ci →
     truthy (CycleItem.disciplineId ci) = Some did →
     disciplineQueues plan !! did = Some queue →
     disciplinePointers st !! did = Some ptr →
     ptr < length queue →
     visitQueueC dateStr (Cycle.id cycle) did (CycleItem.subjectsCount ci)
       (drop ptr queue) st (mkSlotState ptr 0 "" false) = (st', sl') →
     I st') →
  ∀ st flow st', I st → (0 < minutesAvailable st)%Z →
    stepC dateStr st = (flow, st') → I st'.
Proof.
  intros Hmove Hzero Hsim Hvisit.
  apply step_inv_strict; [exact Hmove|exact Hzero|exact Hsim|].
  intros st cycle ci did queue ptr st' sl' HI Hmin Hcycle Hci _.
  by apply Hvisit.
Qed.

(** What [runDay] adds to the agenda. *)
Lemma runDay_lookup acc off k items :
  (runDayC acc off).2 !! k = Some items →
  acc.2 !! k = Some items
  ∨ (let day := dateOfOffset startDay tz off in
     k = isoDate day ∧ minutesOf routine day ≠ 0%Z ∧ items ≠ [] ∧
     items = dayItems (dayLoopC k SAFETY_LIMIT
               (startOfDay (minutesOf routine day) acc.1))).
Proof.
  unfold runDay.
  destruct (minutesOf routine (dateOfOffset startDay tz off) =? 0)%Z
    eqn:Hm; [by left|].
  apply Z.eqb_neq in Hm. cbn [fst snd].
  remember (dayLoopC (isoDate (dateOfOffset startDay tz off)) SAFETY_LIMIT
              (startOfDay (minutesOf routine (dateOfOffset startDay tz off))
                 acc.1)) as st' eqn:Hst'.
  destruct (dayItems st') as [|it its] eqn:Hitems; [by left|].
  rewrite lookup_insert. case_decide as Hk; [|by left].
  intros ?; simplify_eq. right. cbn zeta. by rewrite Hitems.
Qed.

(** Every entry of the agenda is the list of items of one day of the
    run, and is not empty. *)
Lemma runDays_lookup n k items :
  (runDaysC n).2 !! k = Some items →
  ∃ off, off < n ∧
    let day := dateOfOffset startDay tz off in
    k = isoDate day ∧ minutesOf routine day ≠ 0%Z ∧ items ≠ [] ∧
    items = dayItems (dayLoopC k SAFETY_LIMIT
              (startOfDay (minutesOf routine day) (runDaysC off).1)).
Proof.
  induction n as [|n IH]; [by cbn; rewrite lookup_empty|].
  rewrite runDays_S. intros [H|H]%runDay_lookup.
  - destruct (IH H) as (off & ? & ?). exists off. split; [lia|done].
  - exists n. split; [lia|done].
Qed.

Lemma totalDuration_snoc l it :
  totalDuration (l ++ [it])
  = (totalDuration l + ScheduledItem.duration it)%Z.
Proof. induction l as [|x l IH]; simpl; lia. Qed.

(** *** The shape of a day's list *)

Lemma dayShape_start m st : DayShape m (startOfDay m st).
Proof. split; [done|]. left. split; [constructor|]. left. simpl. lia. Qed.

Lemma dayShape_step m dateStr st flow st' :
  DayShape m st → (0 < minutesAvailable st)%Z →
  stepC dateStr st = (flow, st') → DayShape m st'.
Proof.
  apply step_inv.
  - intros s c i H _. exact H.
  - intros s [Hn [[Hg Hm]|(gs & e & ? & ? & ? & ? & ?)]]; split; try done.
    + left. split; [done|by right].
    + right. exists gs, e. done.
  - intros s x cycle ci [Hn [[Hg Hm]|(gs & e & ? & ? & ? & Hz & ?)]] Hpos
      _ _ _ _ _ Hfit; [|lia].
    split; [simpl; rewrite length_app; simpl; lia|].
    right. exists (dayItems s), (simuladoItem dateStr x).
    repeat split; try done.
    destruct Hfit as [H0|H60].
    + left. rewrite H0 in Hn. by destruct (dayItems s).
    + right. lia.
  - intros s cycle ci did queue ptr s' sl'
      [Hn [[Hg Hm]|(gs & e & ? & ? & ? & Hz & ?)]] Hpos _ _ _ _ _ _ Hv;
      [|lia].
    destruct Hm as [Hm|Hm]; [|lia].
    eapply (visitQueue_inv
              (λ s _, itemsProcessedToday s = length (dayItems s)
                      ∧ Forall (λ it, isSimuladoItem it = false) (dayItems s)
                      ∧ minutesAvailable s
                        = (m - totalDuration (dayItems s))%Z))
      in Hv as (s0 & (Hn0 & Hg0 & Hm0) & [->| ->]); try done.
    + split; [done|]. left. split; [done|by left].
    + split; [done|]. left. split; [done|by right].
    + intros s1 sl g (Hn1 & Hg1 & Hm1) _ _ _ _. simpl.
      rewrite length_app, totalDuration_snoc. simpl.
      split; [lia|]. split; [|lia].
      apply Forall_app. split; [done|]. by constructor.
Qed.

Lemma dayShape_dayLoop m dateStr fuel st :
  DayShape m (dayLoopC dateStr fuel (startOfDay m st)).
Proof.
  apply dayLoop_inv; [|apply dayShape_start].
  intros. by eapply dayShape_step.
Qed.

(** *** The origin of the items of a day *)

Local Abbreviation OriginC :=
  (Origin calculateGoalDuration userLevel plan completedGoals allSimulados
     userAttempts).
Local Abbreviation ProvenanceC :=
  (Provenance calculateGoalDuration userLevel plan completedGoals
     allSimulados userAttempts).

Lemma Origin_mono dateStr cmin ptrs ptrs' it :
  (∀ did ptr, ptrs !! did = Some ptr →
     ∃ ptr', ptrs' !! did = Some ptr' ∧ ptr ≤ ptr') →
  OriginC dateStr cmin ptrs it → OriginC dateStr cmin ptrs' it.
Proof.
  intros Hle [c cycle ci did queue p q ptr ? ? ? ? ? ? ? Hptr ?|].
  - destruct (Hle _ _ Hptr) as (ptr' & ? & ?).
    eapply origin_goal; eauto. lia.
  - eapply origin_simulado; eauto.
Qed.

Lemma pointers_grow (ptrs : gmap string nat) did ptr :
  ptrs !! did = Some ptr →
  ∀ did' ptr', ptrs !! did' = Some ptr' →
    ∃ ptr'', <[did := S ptr]> ptrs !! did' = Some ptr'' ∧ ptr' ≤ ptr''.
Proof.
  intros H did' ptr' H'. rewrite lookup_insert. case_decide.
  - simplify_eq. exists (S ptr). split; [done|lia].
  - by exists ptr'.
Qed.

Lemma fresh_goal_uniqueId dateStr cmin ptrs old c cycle did queue ptr q :
  WellFormedIds plan allSimulados →
  Forall (OriginC dateStr cmin ptrs) old →
  Forall (λ it, isSimuladoItem it = false) old →
  StudyPlan.cycles plan !! c = Some cycle →
  disciplineQueues plan !! did = Some queue →
  ptrs !! did = Some ptr → queue !! ptr = Some q →
  ¬ In (ScheduledItem.uniqueId (goalItemC dateStr (Cycle.id cycle) did q))
      (map ScheduledItem.uniqueId old).
Proof.
  intros Hwf Hold Hgoals Hcycle Hqueue Hptr Hq
    (it & Huid & Hin)%in_map_iff.
  rewrite Forall_forall in Hold. rewrite Forall_forall in Hgoals. apply list_elem_of_In in Hin.
  specialize (Hgoals _ Hin).
  destruct (Hold _ Hin)
    as [c' cycle' ci' did' queue' p' q' ptr' _ Hc' _ _ Hq' Hp' _ Hptr' Hlt|];
    [|done].
  destruct (queue_wellFormed _ _ _ _ Hwf Hqueue) as [Hdid Hnodup].
  destruct (queue_wellFormed _ _ _ _ Hwf Hq') as [Hdid' _].
  pose proof Hwf as (Hcycles & _). rewrite Forall_forall in Hcycles.
  apply goal_uniqueId_inj in Huid as (_ & -> & Hid);
    [|eauto using list_elem_of_lookup_2..].
  simplify_eq.
  assert (p' = ptr); [|lia].
  eapply (NoDup_lookup _ _ _ _ Hnodup).
  - change (map ?f ?l) with (f <$> l). by rewrite list_lookup_fmap, Hp'.
  - change (map ?f ?l) with (f <$> l). rewrite list_lookup_fmap, Hq.
    simpl. by rewrite Hid.
Qed.

Lemma fresh_simulado_uniqueId dateStr cmin ptrs old s :
  WellFormedIds plan allSimulados →
  Forall (OriginC dateStr cmin ptrs) old →
  Forall (λ it, isSimuladoItem it = false) old →
  s ∈ allSimulados →
  ¬ In (ScheduledItem.uniqueId (simuladoItem dateStr s))
      (map ScheduledItem.uniqueId old).
Proof.
  intros Hwf Hold Hgoals Hs (it & Huid & Hin)%in_map_iff.
  rewrite Forall_forall in Hold. rewrite Forall_forall in Hgoals. apply list_elem_of_In in Hin.
  specialize (Hgoals _ Hin).
  destruct (Hold _ Hin) as [c cycle ci did queue p q ptr _ Hc _ _ _ _ _ _ _|];
    [|done].
  pose proof Hwf as (Hcycles & _ & Hsims & _).
  rewrite Forall_forall in Hcycles. rewrite Forall_forall in Hsims.
  eapply goal_simulado_uniqueId; [| |exact Huid];
    eauto using list_elem_of_lookup_2.
Qed.

Lemma NoDup_snoc_uniqueId (old : list ScheduledItem.t) it :
  NoDup (map ScheduledItem.uniqueId old) →
  ¬ In (ScheduledItem.uniqueId it) (map ScheduledItem.uniqueId old) →
  NoDup (map ScheduledItem.uniqueId (old ++ [it])).
Proof.
  intros Hold Hnew. rewrite map_app. simpl.
  apply NoDup_app. split; [done|]. split; [|apply NoDup_singleton].
  intros x Hx Hx'. apply list_elem_of_singleton in Hx' as ->.
  by apply list_elem_of_In in Hx.
Qed.

Lemma no_exam_while_minutes st :
  (∀ it, it ∈ dayItems st → isSimuladoItem it = true →
     minutesAvailable st = 0%Z) →
  (0 < minutesAvailable st)%Z →
  Forall (λ it, isSimuladoItem it = false) (dayItems st).
Proof.
  intros H Hpos. apply Forall_forall. intros it Hin.
  destruct (isSimuladoItem it) eqn:Hit; [|done].
  specialize (H _ Hin Hit). lia.
Qed.

Lemma provenance_step dateStr cmin st flow st' :
  ProvenanceC dateStr cmin st → (0 < minutesAvailable st)%Z →
  stepC dateStr st = (flow, st') → ProvenanceC dateStr cmin st'.
Proof.
  apply step_inv.
  - intros s c i (Hc & Hex & Ho & Hu) Hle. split; [|done].
    simpl. unfold lowerBound in *. destruct (isRotativo plan); [lia|].
    specialize (Hle eq_refl). lia.
  - intros s (Hc & Hex & Ho & Hu). done.
  - intros s x cycle ci (Hc & Hex & Ho & Hu) Hpos Hcycle Hci Hsid Hin
      Hdone Hfit.
    pose proof (no_exam_while_minutes _ Hex Hpos) as Hgoals.
    split; [done|]. split; [done|]. split.
    + apply Forall_app. split; [done|]. constructor; [|done].
      eapply origin_simulado; eauto using list_elem_of_lookup_2.
    + intros Hwf. apply NoDup_snoc_uniqueId; [by apply Hu|].
      by eapply fresh_simulado_uniqueId.
  - intros s cycle ci did queue ptr s' sl' (Hc & Hex & Ho & Hu) Hpos
      Hcycle Hci Hdid Hqueue Hptr Hlt Hv.
    pose proof (no_exam_while_minutes _ Hex Hpos) as Hgoals.
    eapply (visitQueue_inv
              (λ s1 sl,
                 disciplinePointers s1 !! did = Some (pointer sl)
                 ∧ currentCycleIndex s1 = currentCycleIndex s
                 ∧ Forall (λ it, isSimuladoItem it = false) (dayItems s1)
                 ∧ Forall (OriginC dateStr (lowerBound plan cmin)
                             (disciplinePointers s1)) (dayItems s1)
                 ∧ (WellFormedIds plan allSimulados →
                      NoDup (map ScheduledItem.uniqueId (dayItems s1)))))
      in Hv as (s0 & (Hp0 & Hc0 & Hg0 & Ho0 & Hu0) & Hs'); try done.
    + assert (∀ it, it ∈ dayItems s0 → isSimuladoItem it = true →
                minutesAvailable s' = 0%Z) as Hex0.
      { intros it Hin Hit. rewrite Forall_forall in Hg0.
        specialize (Hg0 _ Hin). congruence. }
      destruct Hs' as [-> | ->]; split; simpl; try done; lia.
    + intros s1 sl g (Hp1 & Hc1 & Hg1 & Ho1 & Hu1) _ _ _. simpl.
      split; [by rewrite lookup_insert_eq|]. split; [done|].
      split; [done|]. split; [|done].
      eapply Forall_impl; [exact Ho1|]. intros it.
      apply Origin_mono. by apply pointers_grow.
    + intros s1 sl g (Hp1 & Hc1 & Hg1 & Ho1 & Hu1) Hg Hcompl _ _. simpl.
      split; [by rewrite lookup_insert_eq|]. split; [done|]. split.
      { apply Forall_app. split; [done|]. by constructor. }
      split.
      * apply Forall_app. split.
        { eapply Forall_impl; [exact Ho1|]. intros it.
          apply Origin_mono. by apply pointers_grow. }
        constructor; [|done].
        eapply origin_goal with (c := currentCycleIndex s)
          (p := pointer sl) (ptr := S (pointer sl));
          eauto using list_elem_of_lookup_2.
        by rewrite lookup_insert_eq.
      * intros Hwf. apply NoDup_snoc_uniqueId; [by apply Hu1|].
        by eapply fresh_goal_uniqueId.
Qed.

Lemma provenance_start dateStr cmin m st :
  lowerBound plan cmin ≤ currentCycleIndex st →
  ProvenanceC dateStr cmin (startOfDay m st).
Proof.
  intros Hc. split; [done|]. split; [|split].
  - intros it Hin. by apply elem_of_nil in Hin.
  - constructor.
  - intros _. constructor.
Qed.

Lemma provenance_dayLoop dateStr cmin m fuel st :
  lowerBound plan cmin ≤ currentCycleIndex st →
  ProvenanceC dateStr cmin (dayLoopC dateStr fuel (startOfDay m st)).
Proof.
  intros Hc. apply dayLoop_inv; [|by apply provenance_start].
  intros. by eapply provenance_step.
Qed.

(** In continuous mode the cycle index of the run never goes below the
    index it started from. *)
Lemma runDays_cycle_index n :
  lowerBound plan (initialCycleIndex plan userAttempts)
  ≤ currentCycleIndex (runDaysC n).1.
Proof.
  induction n as [|n IH].
  - simpl. unfold lowerBound. destruct (isRotativo plan); lia.
  - rewrite runDays_S. unfold runDay.
    destruct (minutesOf routine _ =? 0)%Z; [done|]. simpl.
    by apply provenance_dayLoop.
Qed.

End Facts.

(** ** From the agenda to the days of the run *)

Lemma generateSchedule_lookup calc tz plan routine startDay completedGoals
    userLevel isPaused allSimulados userAttempts k items :
  generateSchedule calc tz plan routine startDay completedGoals userLevel
    isPaused allSimulados userAttempts !! k = Some items →
  ∃ p off, plan = Some p ∧ off < MAX_DAYS ∧
    let day := dateOfOffset startDay tz off in
    k = isoDate day ∧ minutesOf routine day ≠ 0%Z ∧ items ≠ [] ∧
    items = dayItems
              (dayLoop calc p completedGoals userLevel allSimulados
                 userAttempts k SAFETY_LIMIT
                 (startOfDay (minutesOf routine day)
                    (runDays calc tz p routine startDay completedGoals
                       userLevel allSimulados userAttempts off).1)).
Proof.
  unfold generateSchedule.
  destruct isPaused; [by rewrite lookup_empty|].
  destruct plan as [p|]; [|by rewrite lookup_empty].
  destruct (length (StudyPlan.cycles p) =? 0); [by rewrite lookup_empty|].
  destruct (negb (hasAvailability routine)); [by rewrite lookup_empty|].
  unfold scheduleDays. intros H.
  apply runDays_lookup in H as (off & Hoff & H).
  exists p, off. split; [reflexivity|]. split; [exact Hoff|]. exact H.
Qed.

(** The list of every date of the agenda has the shape of a day. *)
Lemma agenda_shape calc tz plan routine startDay completedGoals userLevel
    isPaused allSimulados userAttempts k items :
  generateSchedule calc tz plan routine startDay completedGoals userLevel
    isPaused allSimulados userAttempts !! k = Some items →
  ∃ off, off < MAX_DAYS ∧ k = isoDate (dateOfOffset startDay tz off) ∧
    (Forall (λ it, isSimuladoItem it = false) items
     ∨ ∃ gs e, items = (gs ++ [e])%list
         ∧ Forall (λ it, isSimuladoItem it = false) gs
         ∧ isSimuladoItem e = true
         ∧ (gs = []
            ∨ (60 < minutesOf routine (dateOfOffset startDay tz off)
                    - totalDuration gs)%Z)).
Proof.
  intros (p & off & -> & Hoff & Hk & _ & _ & Hitems)%generateSchedule_lookup.
  exists off. split; [done|]. split; [done|].
  pose proof (dayShape_dayLoop calc p completedGoals userLevel allSimulados
    userAttempts (minutesOf routine (dateOfOffset startDay tz off)) k
    SAFETY_LIMIT
    (runDays calc tz p routine startDay completedGoals userLevel
       allSimulados userAttempts off).1) as [_ Hshape].
  rewrite <- Hitems in Hshape.
  destruct Hshape as [[Hg _]|(gs & e & ? & ? & ? & _ & ?)]; [by left|].
  right. by exists gs, e.
Qed.

(** ** Exams close their day *)

(** C10.  In every list of the agenda an exam item can only be the last
    element: its placement sets the minutes left to zero, and at zero the
    day's loop does not run again. *)
Theorem exam_item_is_last calc tz plan routine startDay completedGoals
    userLevel isPaused allSimulados userAttempts k items i it :
  generateSchedule calc tz plan routine startDay completedGoals userLevel
    isPaused allSimulados userAttempts !! k = Some items →
  items !! i = Some it →
  isSimuladoItem it = true →
  S i = length items
  ∧ (∀ dateStr s st, minutesAvailable (placeSimulado dateStr s st) = 0%Z)
  ∧ (∀ p dateStr fuel st, (minutesAvailable st ≤ 0)%Z →
       dayLoop calc p completedGoals userLevel allSimulados userAttempts
         dateStr fuel st = st).
Proof.
  intros Ha Hi Hexam. split; [|split].
  - apply agenda_shape in Ha as (off & _ & _ & [Hg|(gs & e & -> & Hg & _)]).
    + eapply Forall_lookup_1 in Hg; [|done]. congruence.
    + rewrite length_app. simpl.
      destruct (decide (i < length gs)) as [Hlt|Hge].
      * rewrite lookup_app_l in Hi by done.
        eapply Forall_lookup_1 in Hg; [|done]. congruence.
      * apply lookup_lt_Some in Hi. rewrite length_app in Hi. simpl in Hi.
        lia.
  - done.
  - intros p dateStr [|fuel] st Hm; [done|]. rewrite dayLoop_S.
    destruct (0 <? minutesAvailable st)%Z eqn:H; [lia|done].
Qed.

Lemma exam_item_is_last_witness :
  Sample.agenda2 !! "2024-01-01" = Some Sample.goalThenExam
  ∧ 2 = length Sample.goalThenExam.
Proof.
  split; [by vm_compute|].
  refine (proj1 (exam_item_is_last Sample.rule30 Sample.brasilia
            (Some Sample.plan2) Sample.mondays100 Sample.monday [] iniciante
            false [Sample.simulado1] [] "2024-01-01" Sample.goalThenExam 1
            (simuladoItem "2024-01-01" Sample.simulado1) _ _ _));
    by vm_compute.
Defined.

(** ** Exam exclusivity *)

(** C1, as stated, fails: with 100 minutes on a Monday the first goal
    leaves 70, more than the 60 the exam branch asks for, and the exam is
    placed behind it. *)
Lemma exam_day_with_a_goal : ¬ ExamExclusive Sample.agenda2.
Proof.
  intros H.
  specialize (H "2024-01-01" Sample.goalThenExam).
  assert (length Sample.goalThenExam = 1) as Hlen; [|done].
  apply H; [by vm_compute|].
  exists (simuladoItem "2024-01-01" Sample.simulado1).
  split; [|done]. apply list_elem_of_In. simpl. auto.
Qed.

(** C1, amended.  A list of the agenda that holds an exam item is made of
    goal items followed by that one exam; the exam stands alone unless the
    goals before it left more than 60 of the day's minutes. *)
Theorem exam_day_shape calc tz plan routine startDay completedGoals
    userLevel isPaused allSimulados userAttempts k items :
  generateSchedule calc tz plan routine startDay completedGoals userLevel
    isPaused allSimulados userAttempts !! k = Some items →
  (∃ it, it ∈ items ∧ isSimuladoItem it = true) →
  ∃ off gs e, off < MAX_DAYS ∧ k = isoDate (dateOfOffset startDay tz off)
    ∧ items = (gs ++ [e])%list
    ∧ Forall (λ it, isSimuladoItem it = false) gs
    ∧ isSimuladoItem e = true
    ∧ (gs = []
       ∨ (60 < minutesOf routine (dateOfOffset startDay tz off)
               - totalDuration gs)%Z).
Proof.
  intros Ha (it & Hin & Hexam).
  apply agenda_shape in Ha as (off & Hoff & Hk & [Hg|(gs & e & H)]).
  - rewrite Forall_forall in Hg. apply Hg in Hin. congruence.
  - exists off, gs, e. by destruct H as (? & ? & ? & ?).
Qed.

Lemma exam_day_shape_witness :
  ∃ off gs e, off < MAX_DAYS
    ∧ "2024-01-01" = isoDate (dateOfOffset Sample.monday Sample.brasilia off)
    ∧ Sample.goalThenExam = (gs ++ [e])%list
    ∧ Forall (λ it, isSimuladoItem it = false) gs
    ∧ isSimuladoItem e = true
    ∧ (gs = []
       ∨ (60 < minutesOf Sample.mondays100
                 (dateOfOffset Sample.monday Sample.brasilia off)
               - totalDuration gs)%Z).
Proof.
  apply (exam_day_shape Sample.rule30 Sample.brasilia (Some Sample.plan2)
           Sample.mondays100 Sample.monday [] iniciante false
           [Sample.simulado1] []).
  - by vm_compute.
  - exists (simuladoItem "2024-01-01" Sample.simulado1).
    split; [|done]. apply list_elem_of_In. simpl. auto.
Defined.

(** ** Where the items of the agenda come from *)

Lemma agenda_origin calc tz plan routine startDay completedGoals userLevel
    isPaused allSimulados userAttempts k items :
  generateSchedule calc tz plan routine startDay completedGoals userLevel
    isPaused allSimulados userAttempts !! k = Some items →
  ∃ p ptrs, plan = Some p
    ∧ Forall (Origin calc userLevel p completedGoals allSimulados
                userAttempts k
                (lowerBound p (initialCycleIndex p userAttempts)) ptrs) items
    ∧ (WellFormedIds p allSimulados →
         NoDup (map ScheduledItem.uniqueId items)).
Proof.
  intros (p & off & -> & Hoff & Hk & _ & _ & Hitems)%generateSchedule_lookup.
  pose proof (provenance_dayLoop calc p completedGoals userLevel allSimulados
    userAttempts k (initialCycleIndex p userAttempts)
    (minutesOf routine (dateOfOffset startDay tz off)) SAFETY_LIMIT
    (runDays calc tz p routine startDay completedGoals userLevel
       allSimulados userAttempts off).1
    (runDays_cycle_index calc tz p routine startDay completedGoals userLevel
       allSimulados userAttempts off)) as (_ & _ & Ho & Hu).
  rewrite <- Hitems in Ho, Hu. eauto.
Qed.

Lemma isCompletedGoal_false completedGoals q :
  isCompletedGoal completedGoals q = false →
  Goal.id (QueuedGoal.goal q) ∉ completedGoals.
Proof.
  unfold isCompletedGoal. intros H Hin.
  apply list_elem_of_In in Hin.
  assert (existsb (String.eqb (Goal.id (QueuedGoal.goal q))) completedGoals
          = true) as Ht; [|congruence].
  apply existsb_exists. eexists. split; [exact Hin|]. apply String.eqb_refl.
Qed.

(** ** Completed goals *)

(** C3, as stated, fails on an exam.  The item of an exam carries the id
    of the exam as its [goalId]; the daily view hands the [goalId] of any
    item to [toggleGoalComplete], so the id of an exam can be in the
    completed list; and the walk tests only the goals of a queue against
    that list.  With ["s1"] completed the exam [s1] is still scheduled on
    the first Monday, after the first goal. *)
Lemma completed_exam_is_scheduled :
  ¬ CompletedNeverReferenced
      (generateSchedule Sample.rule30 Sample.brasilia (Some Sample.plan2)
         Sample.mondays100 Sample.monday ["s1"] iniciante false
         [Sample.simulado1] [])
      ["s1"].
Proof.
  intros H.
  apply (H "s1" "2024-01-01" Sample.goalThenExam
           (simuladoItem "2024-01-01" Sample.simulado1)).
  - left.
  - vm_compute. reflexivity.
  - right. left.
  - reflexivity.
Qed.

(** C3, amended.  No goal item of the agenda, that is no item other than
    an exam, carries the id of a completed goal; and when the walk of a
    queue meets a completed goal, it moves the pointer of the discipline
    past it and goes on with the same minutes, the same list and the same
    count of items. *)
Theorem completed_goal_never_scheduled calc tz plan routine startDay
    completedGoals userLevel isPaused allSimulados userAttempts g k items it :
  g ∈ completedGoals →
  generateSchedule calc tz plan routine startDay completedGoals userLevel
    isPaused allSimulados userAttempts !! k = Some items →
  it ∈ items →
  isSimuladoItem it = false →
  ScheduledItem.goalId it ≠ g
  ∧ (∀ q, ScheduledItem.originalGoal it = Some q →
       Goal.id (QueuedGoal.goal q) ≠ g)
  ∧ (∀ dateStr cycleId did count q rest st sl,
       Goal.id (QueuedGoal.goal q) = g →
       (scheduledInThisSlot sl < count)%Z →
       visitQueue calc completedGoals userLevel dateStr cycleId did count
         (q :: rest) st sl
       = visitQueue calc completedGoals userLevel dateStr cycleId did count
           rest (advancePointer did st sl) (skipGoal sl)
       ∧ disciplinePointers (advancePointer did st sl) !! did
         = Some (S (pointer sl))
       ∧ minutesAvailable (advancePointer did st sl) = minutesAvailable st
       ∧ dayItems (advancePointer did st sl) = dayItems st
       ∧ itemsProcessedToday (advancePointer did st sl)
         = itemsProcessedToday st).
Proof.
  intros Hg Ha Hin Hgoal.
  apply agenda_origin in Ha as (p & ptrs & -> & Ho & _).
  rewrite Forall_forall in Ho. specialize (Ho _ Hin).
  destruct Ho as [c cycle ci did queue i q ptr _ _ _ _ _ _ Hq _ _|];
    [|done].
  apply isCompletedGoal_false in Hq.
  split; [|split].
  - simpl. by intros <-.
  - simpl. intros q' ?. simplify_eq. by intros <-.
  - intros dateStr cycleId did' count q' rest st sl Hid Hcount.
    split; [|split; [|done]].
    + simpl. apply Z.ltb_lt in Hcount. rewrite Hcount.
      assert (isCompletedGoal completedGoals q' = true) as ->; [|done].
      unfold isCompletedGoal. apply existsb_exists. exists g.
      split; [by apply list_elem_of_In|]. rewrite Hid. apply String.eqb_refl.
    + simpl. apply lookup_insert_eq.
Qed.

Lemma completed_goal_never_scheduled_witness :
  let agenda :=
    generateSchedule Sample.rule30 Sample.brasilia (Some Sample.plan1)
      Sample.mondays60 Sample.monday ["g1"] iniciante false [] [] in
  let it :=
    goalItem Sample.rule30 iniciante "2024-01-01" "c1" "d1"
      (Sample.queued Sample.g2) in
  agenda !! "2024-01-01"
  = Some [it; goalItem Sample.rule30 iniciante "2024-01-01" "c1" "d1"
                (Sample.queued Sample.g3)]
  ∧ ScheduledItem.goalId it ≠ "g1".
Proof.
  split; [by vm_compute|].
  refine (proj1 (completed_goal_never_scheduled Sample.rule30 Sample.brasilia
            (Some Sample.plan1) Sample.mondays60 Sample.monday ["g1"]
            iniciante false [] [] "g1" "2024-01-01" _ _ _ _ _ _)).
  - apply list_elem_of_In. simpl. auto.
  - by vm_compute.
  - apply list_elem_of_In. simpl. auto.
  - done.
Defined.

(** ** Durations *)

(** C5.  The duration recorded on a goal item is the one the external
    rule gives, unless that is 0: then it is 15 for a goal that is not a
    lesson, and 30 for a lesson. *)
Theorem zero_duration_floors calc tz plan routine startDay completedGoals
    userLevel isPaused allSimulados userAttempts k items it q :
  generateSchedule calc tz plan routine startDay completedGoals userLevel
    isPaused allSimulados userAttempts !! k = Some items →
  it ∈ items →
  ScheduledItem.originalGoal it = Some q →
  let g := QueuedGoal.goal q in
  (calc g userLevel = 0%Z → Goal.type g ≠ "AULA" →
     ScheduledItem.duration it = 15%Z)
  ∧ (calc g userLevel = 0%Z → Goal.type g = "AULA" →
       ScheduledItem.duration it = 30%Z)
  ∧ (calc g userLevel ≠ 0%Z →
       ScheduledItem.duration it = calc g userLevel).
Proof.
  intros Ha Hin Hq g.
  apply agenda_origin in Ha as (p & ptrs & -> & Ho & _).
  rewrite Forall_forall in Ho. specialize (Ho _ Hin).
  destruct Ho as [c cycle ci did queue i q' ptr _ _ _ _ _ _ _ _ _|];
    [|done].
  simpl in Hq. simplify_eq. simpl. unfold resolveDuration. fold g.
  split; [|split].
  - intros -> Htype. simpl.
    destruct (String.eqb_spec (Goal.type g) "AULA"); done.
  - intros -> ->. done.
  - intros Hnz. apply Z.eqb_neq in Hnz. rewrite Hnz. simpl. by rewrite Hnz.
Qed.

Lemma zero_duration_floors_witness :
  let zeroRule : Goal.t → UserLevel → Z := λ _ _, 0%Z in
  let it :=
    goalItem zeroRule iniciante "2024-01-01" "c1" "d1"
      (Sample.queued Sample.g1) in
  ScheduledItem.duration it = 30%Z.
Proof.
  intros zeroRule it.
  assert (generateSchedule zeroRule Sample.brasilia (Some Sample.plan1)
            Sample.mondays60 Sample.monday [] iniciante false [] []
            !! "2024-01-01"
          = Some [it; goalItem zeroRule iniciante "2024-01-01" "c1" "d1"
                        (Sample.queued Sample.g2)]) as Ha
    by (by vm_compute).
  assert (it ∈ [it; goalItem zeroRule iniciante "2024-01-01" "c1" "d1"
                      (Sample.queued Sample.g2)]) as Hin by left.
  exact (proj1 (proj2 (zero_duration_floors _ _ _ _ _ _ _ _ _ _ _ _ it
                         (Sample.queued Sample.g1) Ha Hin eq_refl))
           eq_refl eq_refl).
Defined.

(** ** Unique ids *)

(** C9, as stated, fails on a discipline that holds the same goal id
    twice: both goals fit in the first Monday and get one [uniqueId]. *)
Lemma duplicated_goal_id_repeats : ¬ UniqueIdsPerDay Sample.agenda3.
Proof.
  intros H.
  specialize (H "2024-01-01"
    [goalItem Sample.rule30 iniciante "2024-01-01" "c1" "d1"
       (Sample.queued Sample.g1);
     goalItem Sample.rule30 iniciante "2024-01-01" "c1" "d1"
       (Sample.queued Sample.g1copy)]).
  assert (Sample.agenda3 !! "2024-01-01" = Some
    [goalItem Sample.rule30 iniciante "2024-01-01" "c1" "d1"
       (Sample.queued Sample.g1);
     goalItem Sample.rule30 iniciante "2024-01-01" "c1" "d1"
       (Sample.queued Sample.g1copy)]) as Ha by (by vm_compute).
  specialize (H Ha). simpl in H.
  apply NoDup_cons in H as [H _]. apply H. left.
Qed.

(** The separator inside ids has the same effect: discipline [x] with
    goal [y_z] and discipline [x_y] with goal [z] meet on one day under one
    [uniqueId]. *)
Lemma underscore_ids_collide :
  ¬ UniqueIdsPerDay
      (generateSchedule Sample.rule30 Sample.brasilia (Some Sample.plan7)
         Sample.mondays60 Sample.monday [] iniciante false [] []).
Proof.
  intros H.
  pose (items :=
    [goalItem Sample.rule30 iniciante "2024-01-01" "c5" "x"
       (QueuedGoal.mk (Goal.mk "y_z" "AULA" "Aula" 1) "Parte geral"
          "Direito");
     goalItem Sample.rule30 iniciante "2024-01-01" "c5" "x_y"
       (QueuedGoal.mk (Goal.mk "z" "AULA" "Aula" 1) "Parte especial"
          "Direito II")]).
  specialize (H "2024-01-01" items).
  assert (NoDup (map ScheduledItem.uniqueId items)) as Hnd
    by (apply H; vm_compute; reflexivity).
  apply NoDup_cons in Hnd as [Hnd _]. apply Hnd. left.
Qed.

(** C9, amended.  When the ids of cycles, disciplines and exams hold no
    underscore and no discipline holds a goal id twice, the items of a
    date have pairwise different [uniqueId]s. *)
Theorem unique_ids_per_day calc tz plan routine startDay completedGoals
    userLevel isPaused allSimulados userAttempts k items :
  (∀ p, plan = Some p → WellFormedIds p allSimulados) →
  generateSchedule calc tz plan routine startDay completedGoals userLevel
    isPaused allSimulados userAttempts !! k = Some items →
  NoDup (map ScheduledItem.uniqueId items).
Proof.
  intros Hwf (p & ptrs & -> & _ & Hu)%agenda_origin. apply Hu. by apply Hwf.
Qed.

Lemma wellFormed_plan2 : WellFormedIds Sample.plan2 [Sample.simulado1].
Proof.
  repeat split; repeat constructor; simpl;
    rewrite ?list_elem_of_In; simpl; intuition congruence.
Qed.

Lemma unique_ids_per_day_witness :
  NoDup (map ScheduledItem.uniqueId Sample.goalThenExam).
Proof.
  apply (unique_ids_per_day Sample.rule30 Sample.brasilia (Some Sample.plan2)
           Sample.mondays100 Sample.monday [] iniciante false
           [Sample.simulado1] [] "2024-01-01").
  - intros p [= <-]. apply wellFormed_plan2.
  - by vm_compute.
Defined.

(** ** The early returns *)

Lemma hasAvailability_false routine :
  (∀ name v, Routine.days routine !! name = Some v → v = 0%Z) →
  hasAvailability routine = false.
Proof.
  intros Hzero. unfold hasAvailability.
  destruct (existsb _ _) eqn:H; [|done].
  apply existsb_exists in H as ([name v] & Hin & Hv).
  apply list_elem_of_In, elem_of_map_to_list in Hin.
  apply Hzero in Hin. simpl in Hv. subst. done.
Qed.

(** C4.  A paused plan, a plan without cycles and a routine whose every
    entry is zero each make [generateSchedule] return the empty mapping
    from one of its first three lines, before any queue is built or any
    day looked at; the function has no failing path. *)
Theorem early_return_is_empty calc tz plan routine startDay completedGoals
    userLevel isPaused allSimulados userAttempts :
  isPaused = true
  ∨ (∀ p, plan = Some p → StudyPlan.cycles p = [])
  ∨ (∀ name v, Routine.days routine !! name = Some v → v = 0%Z) →
  generateSchedule calc tz plan routine startDay completedGoals userLevel
    isPaused allSimulados userAttempts = ∅.
Proof.
  unfold generateSchedule. intros [->|[Hcycles|Hzero]]; [done|..].
  - destruct isPaused; [done|]. destruct plan as [p|]; [|done].
    by rewrite (Hcycles p eq_refl).
  - destruct isPaused; [done|]. destruct plan as [p|]; [|done].
    destruct (length (StudyPlan.cycles p) =? 0); [done|].
    by rewrite hasAvailability_false.
Qed.

Lemma early_return_is_empty_witness :
  generateSchedule Sample.rule30 Sample.brasilia (Some Sample.plan1)
    Sample.idle Sample.monday [] iniciante false [] [] = ∅.
Proof.
  apply early_return_is_empty. right. right.
  intros name v H. unfold Sample.idle in H. simpl in H.
  apply lookup_insert_Some in H as [[_ <-]|[_ H]]; [done|].
  apply lookup_insert_Some in H as [[_ <-]|[_ H]]; [done|].
  by rewrite lookup_empty in H.
Defined.

(** ** The horizon *)

Lemma dateOfOffset_west startDay tz off :
  (∀ d, 0 ≤ tz d < 1440)%Z →
  dateOfOffset startDay tz off = (startDay + Z.of_nat off)%Z.
Proof.
  intros Htz. unfold dateOfOffset, utcDay, localMidnight.
  specialize (Htz (startDay + Z.of_nat off)%Z).
  symmetry.
  apply Z.div_unique with (r := tz (startDay + Z.of_nat off)%Z); lia.
Qed.

Lemma dateOfOffset_east startDay tz off :
  (∀ d, -1440 ≤ tz d < 0)%Z →
  dateOfOffset startDay tz off = (startDay + Z.of_nat off - 1)%Z.
Proof.
  intros Htz. unfold dateOfOffset, utcDay, localMidnight.
  specialize (Htz (startDay + Z.of_nat off)%Z).
  symmetry.
  apply Z.div_unique with (r := (tz (startDay + Z.of_nat off) + 1440)%Z);
    lia.
Qed.

(** On a host at or west of Greenwich on every day the keys of the agenda are dates of
    the 90 days from the start date on, each with minutes in the routine
    and a list that is not empty. *)
Lemma horizon_bound_west calc tz plan routine startDay completedGoals
    userLevel isPaused allSimulados userAttempts k items :
  (∀ d, 0 ≤ tz d < 1440)%Z →
  generateSchedule calc tz plan routine startDay completedGoals userLevel
    isPaused allSimulados userAttempts !! k = Some items →
  ∃ day, (startDay ≤ day < startDay + 90)%Z ∧ k = isoDate day
    ∧ minutesOf routine day ≠ 0%Z ∧ items ≠ [].
Proof.
  intros Htz (p & off & _ & Hoff & Hk & Hm & Hne & _)%generateSchedule_lookup.
  rewrite dateOfOffset_west in Hk, Hm by done.
  exists (startDay + Z.of_nat off)%Z. unfold MAX_DAYS in Hoff.
  repeat split; try done; lia.
Qed.

(** East of Greenwich the same holds one day earlier. *)
Lemma horizon_bound_east calc tz plan routine startDay completedGoals
    userLevel isPaused allSimulados userAttempts k items :
  (∀ d, -1440 ≤ tz d < 0)%Z →
  generateSchedule calc tz plan routine startDay completedGoals userLevel
    isPaused allSimulados userAttempts !! k = Some items →
  ∃ day, (startDay - 1 ≤ day < startDay + 89)%Z ∧ k = isoDate day
    ∧ minutesOf routine day ≠ 0%Z ∧ items ≠ [].
Proof.
  intros Htz (p & off & _ & Hoff & Hk & Hm & Hne & _)%generateSchedule_lookup.
  rewrite dateOfOffset_east in Hk, Hm by done.
  exists (startDay + Z.of_nat off - 1)%Z. unfold MAX_DAYS in Hoff.
  repeat split; try done; lia.
Qed.

(** C6 on a host east of Greenwich: local midnight of the start date is
    still the day before in UTC, which is the day [toISOString] prints.
    With the start on Monday 2024-01-01 and minutes on Sundays only, the
    first key of the agenda is 2023-12-31. *)
Theorem key_before_start_date :
  isoDate (Sample.monday - 1) = "2023-12-31"
  ∧ generateSchedule Sample.rule30 Sample.lisbonSummer (Some Sample.plan1)
      Sample.sundays60 Sample.monday [] iniciante false [] []
    !! "2023-12-31"
    = Some [goalItem Sample.rule30 iniciante "2023-12-31" "c1" "d1"
              (Sample.queued Sample.g1);
            goalItem Sample.rule30 iniciante "2023-12-31" "c1" "d1"
              (Sample.queued Sample.g2)].
Proof. split; by vm_compute. Qed.

(** ** The scenario of the specification *)

Lemma runDay_west calc tz plan routine startDay completedGoals userLevel
    allSimulados userAttempts acc off :
  (∀ d, 0 ≤ tz d < 1440)%Z →
  runDay calc tz plan routine startDay completedGoals userLevel allSimulados
    userAttempts acc off
  = runDay calc Sample.utc plan routine startDay completedGoals userLevel
      allSimulados userAttempts acc off.
Proof.
  intros Htz. unfold runDay.
  rewrite (dateOfOffset_west startDay tz) by exact Htz.
  rewrite (dateOfOffset_west startDay Sample.utc)
    by (intros d; unfold Sample.utc; lia).
  reflexivity.
Qed.

Lemma runDays_west calc tz plan routine startDay completedGoals userLevel
    allSimulados userAttempts n :
  (∀ d, 0 ≤ tz d < 1440)%Z →
  runDays calc tz plan routine startDay completedGoals userLevel allSimulados
    userAttempts n
  = runDays calc Sample.utc plan routine startDay completedGoals userLevel
      allSimulados userAttempts n.
Proof.
  intros Htz. induction n as [|n IH]; [done|].
  by rewrite !runDays_S, IH, runDay_west.
Qed.

(** West of Greenwich the offset of the host plays no part. *)
Lemma generateSchedule_west calc tz plan routine startDay completedGoals
    userLevel isPaused allSimulados userAttempts :
  (∀ d, 0 ≤ tz d < 1440)%Z →
  generateSchedule calc tz plan routine startDay completedGoals userLevel
    isPaused allSimulados userAttempts
  = generateSchedule calc Sample.utc plan routine startDay completedGoals userLevel
      isPaused allSimulados userAttempts.
Proof.
  intros Htz. unfold generateSchedule, scheduleDays.
  destruct isPaused; [reflexivity|]. destruct plan as [p|]; [|reflexivity].
  destruct (length (StudyPlan.cycles p) =? 0); [reflexivity|].
  destruct (negb (hasAvailability routine)); [reflexivity|].
  rewrite runDays_west by exact Htz. reflexivity.
Qed.



(** ** At least one item per day *)

Section Reach.

Context (calculateGoalDuration : Goal.t → UserLevel → Z) (tz : Z → Z)
  (plan : StudyPlan.t) (routine : Routine.t) (startDay : Z)
  (completedGoals : list string) (userLevel : UserLevel)
  (allSimulados : list Simulado.t) (userAttempts : list SimuladoAttempt.t).

Local Abbreviation stepC :=
  (step calculateGoalDuration plan completedGoals userLevel allSimulados
     userAttempts).
Local Abbreviation dayLoopC :=
  (dayLoop calculateGoalDuration plan completedGoals userLevel allSimulados
     userAttempts).
Local Abbreviation visitQueueC :=
  (visitQueue calculateGoalDuration completedGoals userLevel).
Local Abbreviation runDayC :=
  (runDay calculateGoalDuration tz plan routine startDay completedGoals
     userLevel allSimulados userAttempts).
Local Abbreviation runDaysC :=
  (runDays calculateGoalDuration tz plan routine startDay completedGoals
     userLevel allSimulados userAttempts).
Local Abbreviation isCompletedC := (isCompletedGoal completedGoals).
Local Abbreviation passOverC := (passOver plan userAttempts).
Local Abbreviation placeableNowC :=
  (placeableNow plan completedGoals allSimulados userAttempts).
Local Abbreviation contentWithinC :=
  (contentWithin plan completedGoals allSimulados userAttempts).

(** A visit only adds to the list of the day. *)
Lemma visitQueue_keeps dateStr cycleId did count rest st sl :
  ∃ more,
    dayItems (visitQueueC dateStr cycleId did count rest st sl).1
    = (dayItems st ++ more)%list.
Proof.
  revert st sl. induction rest as [|g rest IH]; intros st sl; simpl.
  - exists []. by rewrite app_nil_r.
  - destruct (scheduledInThisSlot sl <? count)%Z;
      [|exists []; by rewrite app_nil_r].
    destruct (isCompletedC g).
    + destruct (IH (advancePointer did st sl) (skipGoal sl)) as [more ->].
      by exists more.
    + destruct (_ || _).
      * destruct (IH (placeGoal calculateGoalDuration userLevel dateStr
                        cycleId did g st sl) (placedSlot g sl))
          as [more ->].
        simpl. rewrite <- app_assoc. by eexists.
      * exists []. by rewrite app_nil_r.
Qed.

(** With the target met, a visit does nothing. *)
Lemma visitQueue_target_met dateStr cycleId did count rest st sl :
  (count ≤ scheduledInThisSlot sl)%Z →
  visitQueueC dateStr cycleId did count rest st sl = (st, sl).
Proof.
  intros H. destruct rest as [|g rest]; simpl; [done|].
  destruct (scheduledInThisSlot sl <? count)%Z eqn:Hlt; [lia|done].
Qed.

(** Over completed goals only, a visit moves the pointer to the end of
    what it was given and changes nothing else. *)
Lemma visitQueue_drain dateStr cycleId did count rest st sl :
  Forall (λ g, isCompletedC g = true) rest →
  (scheduledInThisSlot sl < count)%Z →
  visitQueueC dateStr cycleId did count rest st sl
  = (match rest with
     | [] => st
     | _ :: _ =>
         withPointers
           (<[did := pointer sl + length rest]> (disciplinePointers st)) st
     end,
     mkSlotState (pointer sl + length rest) (scheduledInThisSlot sl)
       (lastSubName sl) (processedSomething sl)).
Proof.
  intros Hall Hlt. revert st sl Hlt.
  induction rest as [|g rest IH]; intros st sl Hlt; simpl.
  - destruct sl. simpl. by rewrite Nat.add_0_r.
  - apply Forall_cons in Hall as [Hg Hall].
    apply Z.ltb_lt in Hlt as Hlt'. rewrite Hlt', Hg.
    rewrite IH by done. simpl. f_equal; [|f_equal; lia].
    destruct rest as [|g' rest]; unfold withPointers, advancePointer; simpl.
    + do 2 f_equal. lia.
    + rewrite insert_insert_eq. do 2 f_equal. lia.
Qed.

(** On a day that is still empty, a visit that meets a goal not yet
    completed places it, whatever it costs. *)
Lemma visitQueue_places dateStr cycleId did count rest st sl :
  existsb (λ g, negb (isCompletedC g)) rest = true →
  (scheduledInThisSlot sl < count)%Z →
  itemsProcessedToday st = 0 →
  dayItems (visitQueueC dateStr cycleId did count rest st sl).1 ≠ [].
Proof.
  revert st sl. induction rest as [|g rest IH]; intros st sl Hex Hlt Hzero;
    simpl in *; [done|].
  apply Z.ltb_lt in Hlt as Hlt'. rewrite Hlt'.
  destruct (isCompletedC g) eqn:Hg; simpl in Hex.
  - by apply IH.
  - rewrite Hzero. simpl. rewrite orb_true_r.
    destruct (visitQueue_keeps dateStr cycleId did count rest
                (placeGoal calculateGoalDuration userLevel dateStr cycleId
                   did g st sl) (placedSlot g sl)) as [more ->].
    simpl. by destruct (dayItems st).
Qed.

Lemma drop_length_lt {A} (l : list A) n :
  n < length l → n + length (drop n l) = length l.
Proof. intros H. rewrite length_drop. lia. Qed.

(** With nothing to place under the cursor, the body of the loop goes
    where [passOver] says, and does nothing else. *)
Lemma step_passOver dateStr st st2 :
  placeableNowC st = false →
  passOverC st = Some st2 →
  stepC dateStr st = (Next, st2).
Proof.
  unfold placeableNow, cursorItem, passOver, step.
  unfold planComplete, cursorCycle.
  destruct ((length (StudyPlan.cycles plan) <=? currentCycleIndex st)
            && negb (isRotativo plan)); [done|].
  set (c := if length (StudyPlan.cycles plan) <=? currentCycleIndex st
            then 0 else currentCycleIndex st).
  destruct (StudyPlan.cycles plan !! c) as [cycle|]; simpl; [|done].
  destruct (expandCycleItems cycle plan !! currentItemIndex st)
    as [ci|]; simpl.
  - unfold placeable.
    destruct (truthy (CycleItem.simuladoId ci)) as [sid|].
    { unfold processSimulado.
      destruct (isSimuladoCompleted sid userAttempts); simpl;
        [intros _ [= <-]; done|].
      destruct (List.find _ allSimulados); [done|].
      intros _ [= <-]. done. }
    destruct (truthy (CycleItem.disciplineId ci)) as [did|];
      [|intros _ [= <-]; done].
    unfold processDisciplina. simpl.
    destruct (disciplineQueues plan !! did) as [queue|];
      [|intros _ [= <-]; done].
    destruct (disciplinePointers st !! did) as [ptr|].
    + destruct (length queue <=? ptr) eqn:Hlen; simpl;
        [intros _ [= <-]; done|].
      apply Nat.leb_gt in Hlen.
      destruct (CycleItem.subjectsCount ci <=? 0)%Z eqn:Hcount.
      * intros _ [= <-].
        rewrite visitQueue_target_met by (simpl; lia). simpl.
        by rewrite Hcount.
      * assert ((0 <? CycleItem.subjectsCount ci)%Z = true) as ->
          by (apply Z.ltb_lt; lia).
        simpl. intros Hex [= <-].
        rewrite visitQueue_drain; [|..|simpl; lia].
        2:{ apply Forall_forall. intros g Hg.
            destruct (isCompletedC g) eqn:Hcompl; [done|].
            assert (existsb (λ g, negb (isCompletedC g)) (drop ptr queue)
                    = true) as Ht; [|congruence].
            apply existsb_exists. exists g.
            split; [by apply list_elem_of_In|]. by rewrite Hcompl. }
        simpl. rewrite (drop_length_lt queue ptr Hlen).
        rewrite Nat.leb_refl, orb_true_r.
        destruct (drop ptr queue) eqn:Hdrop; [|done].
        apply (f_equal length) in Hdrop. rewrite length_drop in Hdrop.
        simpl in Hdrop. lia.
    + destruct (CycleItem.subjectsCount ci <=? 0)%Z;
        intros _ [= <-]; done.
  - intros _ [= <-]. unfold isRotativo.
    destruct (cycleSystem plan); [|done].
    by destruct (isCycleExhausted _ _ _ _).
Qed.

(** With something to place under the cursor of a day that is still
    empty, the body of the loop places it. *)
Lemma step_places dateStr st :
  placeableNowC st = true →
  itemsProcessedToday st = 0 →
  dayItems (stepC dateStr st).2 ≠ [].
Proof.
  unfold placeableNow, cursorItem, step.
  unfold planComplete, cursorCycle.
  destruct ((length (StudyPlan.cycles plan) <=? currentCycleIndex st)
            && negb (isRotativo plan)); [done|].
  set (c := if length (StudyPlan.cycles plan) <=? currentCycleIndex st
            then 0 else currentCycleIndex st).
  destruct (StudyPlan.cycles plan !! c) as [cycle|]; simpl; [|done].
  destruct (expandCycleItems cycle plan !! currentItemIndex st)
    as [ci|]; simpl; [|done].
  unfold placeable.
  destruct (truthy (CycleItem.simuladoId ci)) as [sid|].
  { unfold processSimulado.
    destruct (isSimuladoCompleted sid userAttempts); simpl; [done|].
    destruct (List.find _ allSimulados); [|done].
    intros _ Hzero. simpl. rewrite Hzero. simpl.
    by destruct (dayItems st). }
  destruct (truthy (CycleItem.disciplineId ci)) as [did|]; [|done].
  unfold processDisciplina. simpl.
  destruct (disciplineQueues plan !! did) as [queue|]; [|done].
  destruct (disciplinePointers st !! did) as [ptr|]; [|done].
  intros [Hcount Hex]%andb_true_iff Hzero. apply Z.ltb_lt in Hcount.
  destruct (length queue <=? ptr) eqn:Hlen.
  { apply Nat.leb_le in Hlen. rewrite drop_ge in Hex by done. done. }
  pose proof (visitQueue_places dateStr (Cycle.id cycle) did
                (CycleItem.subjectsCount ci) (drop ptr queue)
                (withCursor c (currentItemIndex st) st)
                (mkSlotState ptr 0 "" false) Hex Hcount Hzero) as Hne.
  destruct (visitQueueC _ _ _ _ _ _ _) as [st1 sl1]. simpl in Hne.
  destruct (_ || _); [done|]. by destruct (_ && _).
Qed.

(** What is on the list of the day stays on it. *)
Lemma dayLoop_keeps dateStr fuel st :
  dayItems st ≠ [] → dayItems (dayLoopC dateStr fuel st) ≠ [].
Proof.
  apply (dayLoop_inv calculateGoalDuration plan completedGoals userLevel
           allSimulados userAttempts (λ s, dayItems s ≠ [])).
  apply step_inv; try done.
  - intros s x _ _ Hne _ _ _ _ _ _. simpl. by destruct (dayItems s).
  - intros s cycle ci did queue ptr s' sl' Hne _ _ _ _ _ _ _ Hv.
    destruct (visitQueue_keeps dateStr (Cycle.id cycle) did
                (CycleItem.subjectsCount ci) (drop ptr queue) s
                (mkSlotState ptr 0 "" false)) as [more Hmore].
    rewrite Hv in Hmore. simpl in Hmore. rewrite Hmore.
    by destruct (dayItems s).
Qed.

Lemma passOver_day st st2 :
  passOverC st = Some st2 →
  minutesAvailable st2 = minutesAvailable st
  ∧ itemsProcessedToday st2 = itemsProcessedToday st.
Proof.
  unfold passOver. destruct (planComplete plan st); [done|].
  destruct (StudyPlan.cycles plan !! _) as [cycle|]; simpl; [|done].
  repeat case_match; intros [= <-]; done.
Qed.

(** Content within reach of the walk, on a day that is still empty and
    has minutes, ends on the list of the day. *)
Lemma content_placed dateStr n st :
  contentWithinC n st = true →
  itemsProcessedToday st = 0 →
  (0 < minutesAvailable st)%Z →
  dayItems (dayLoopC dateStr n st) ≠ [].
Proof.
  revert st. induction n as [|n IH]; intros st Hreach Hzero Hmin; [done|].
  rewrite dayLoop_S. apply Z.ltb_lt in Hmin as Hmin'. rewrite Hmin'.
  simpl in Hreach.
  destruct (placeableNowC st) eqn:Hnow.
  - pose proof (step_places dateStr st Hnow Hzero) as Hne.
    destruct (stepC dateStr st) as [[] st']; simpl in Hne; [|done].
    by apply dayLoop_keeps.
  - simpl in Hreach.
    destruct (passOverC st) as [st2|] eqn:Hpass; [|done].
    rewrite (step_passOver dateStr st st2 Hnow Hpass).
    destruct (passOver_day st st2 Hpass) as [Hm Hi].
    apply IH; [done|congruence|lia].
Qed.

Lemma contentWithin_cycles n st :
  contentWithinC n st = true → StudyPlan.cycles plan ≠ [].
Proof.
  destruct n as [|n]; [done|]. simpl.
  unfold placeableNow, cursorItem, passOver.
  destruct (planComplete plan st); [done|].
  intros H Hnil. rewrite Hnil in H. simpl in H. done.
Qed.

Lemma minutes_hasAvailability day :
  (0 < minutesOf routine day)%Z → hasAvailability routine = true.
Proof.
  unfold minutesOf, hasAvailability. intros H.
  destruct (Routine.days routine !! getDayName day) as [v|] eqn:Hv;
    simpl in H; [|lia].
  apply existsb_exists. exists (getDayName day, v). split.
  - by apply list_elem_of_In, elem_of_map_to_list.
  - simpl. by apply Z.ltb_lt.
Qed.

(** A key of the agenda stays in it, with a list that is not empty. *)
Lemma runDays_keeps n n' k items :
  n ≤ n' → (runDaysC n).2 !! k = Some items → items ≠ [] →
  ∃ items', (runDaysC n').2 !! k = Some items' ∧ items' ≠ [].
Proof.
  intros Hle Hk Hne. induction Hle as [|n' Hle IH]; [eauto|].
  destruct IH as (items' & Hk' & Hne').
  rewrite runDays_S. unfold runDay.
  destruct (minutesOf routine _ =? 0)%Z; [eauto|]. cbn [fst snd].
  remember (dayLoopC _ _ _) as st' eqn:Hst'.
  destruct (dayItems st') as [|it its]; [eauto|].
  rewrite lookup_insert. case_decide; eauto.
Qed.

Lemma runDays_entry off :
  let day := dateOfOffset startDay tz off in
  (0 < minutesOf routine day)%Z →
  contentWithinC SAFETY_LIMIT
    (startOfDay (minutesOf routine day) (runDaysC off).1) = true →
  ∃ items, (runDaysC (S off)).2 !! isoDate day = Some items ∧ items ≠ [].
Proof.
  intros day Hmin Hreach.
  pose proof (content_placed (isoDate day) _ _ Hreach eq_refl Hmin) as Hne.
  rewrite runDays_S. unfold runDay. fold day.
  destruct (minutesOf routine day =? 0)%Z eqn:Hz; [lia|]. cbn [fst snd].
  remember (dayLoopC _ _ _) as st' eqn:Hst'.
  destruct (dayItems st') as [|it its]; [done|].
  rewrite lookup_insert_eq. eauto.
Qed.

End Reach.


(** Two more days that stay empty.  An exam that the catalogue lacks is
    passed over, so a plan made of it alone yields nothing; and what
    lies more than 500 iterations ahead of the cursor is out of reach of
    the first day, and placed on the next. *)
Lemma exam_outside_catalogue_is_passed :
  generateSchedule Sample.rule30 Sample.brasilia (Some Sample.plan5)
    Sample.mondays60 Sample.monday [] iniciante false [] [] = ∅.
Proof. vm_compute. reflexivity. Qed.

Lemma content_beyond_safety_limit :
  let agenda :=
    generateSchedule Sample.rule30 Sample.brasilia (Some Sample.plan6)
      Sample.mondays60 Sample.monday [] iniciante false [Sample.simulado1]
      [SimuladoAttempt.mk "s1"] in
  agenda !! "2024-01-01" = None
  ∧ agenda !! "2024-01-08"
    = Some [goalItem Sample.rule30 iniciante "2024-01-08" "c4" "d1"
              (Sample.queued Sample.g1)].
Proof. split; vm_compute; reflexivity. Qed.



(** ** Content ahead in the current cycle *)

Section Ahead.

Context (calculateGoalDuration : Goal.t → UserLevel → Z) (tz : Z → Z)
  (plan : StudyPlan.t) (routine : Routine.t) (startDay : Z)
  (completedGoals : list string) (userLevel : UserLevel)
  (allSimulados : list Simulado.t) (userAttempts : list SimuladoAttempt.t).

Local Abbreviation stepC :=
  (step calculateGoalDuration plan completedGoals userLevel allSimulados
     userAttempts).
Local Abbreviation dayLoopC :=
  (dayLoop calculateGoalDuration plan completedGoals userLevel allSimulados
     userAttempts).
Local Abbreviation runDaysC :=
  (runDays calculateGoalDuration tz plan routine startDay completedGoals
     userLevel allSimulados userAttempts).
Local Abbreviation passOverC := (passOver plan userAttempts).
Local Abbreviation placeableC :=
  (placeable plan completedGoals allSimulados userAttempts).
Local Abbreviation placeableNowC :=
  (placeableNow plan completedGoals allSimulados userAttempts).
Local Abbreviation contentWithinC :=
  (contentWithin plan completedGoals allSimulados userAttempts).

Lemma foldl_insert_is_Some {A V} (key : A → string) (val : A → V)
    (l : list A) (m : gmap string V) k :
  is_Some (m !! k) ∨ (∃ x, x ∈ l ∧ key x = k) →
  is_Some (foldl (λ m x, <[key x := val x]> m) m l !! k).
Proof.
  revert m. induction l as [|x l IH]; intros m H; simpl.
  - destruct H as [H|(x & Hx & _)]; [done|]. by apply elem_of_nil in Hx.
  - apply IH. destruct H as [H|(y & Hy & Hk)].
    + left. rewrite lookup_insert. case_decide; [eauto|done].
    + apply elem_of_cons in Hy as [->|Hy].
      * left. rewrite <- Hk, lookup_insert_eq. eauto.
      * right. eauto.
Qed.

Lemma covered_initial : Covered plan (initialPointers plan).
Proof.
  intros did [queue (d & Hd & Hid & _)%disciplineQueues_lookup].
  apply foldl_insert_is_Some. right. eauto.
Qed.

Lemma covered_insert ptrs did ptr :
  Covered plan ptrs → Covered plan (<[did := ptr]> ptrs).
Proof.
  intros H did' Hq. rewrite lookup_insert. case_decide; [eauto|].
  by apply H.
Qed.

Lemma covered_dayLoop dateStr fuel st :
  Covered plan (disciplinePointers st) →
  Covered plan (disciplinePointers (dayLoopC dateStr fuel st)).
Proof.
  apply (dayLoop_inv calculateGoalDuration plan completedGoals userLevel
           allSimulados userAttempts
           (λ s, Covered plan (disciplinePointers s))).
  apply step_inv; try done.
  intros s cycle ci did queue ptr s' sl' Hcov _ _ _ _ _ _ _ Hv.
  eapply (visitQueue_inv calculateGoalDuration completedGoals userLevel
            (λ s _, Covered plan (disciplinePointers s)))
    in Hv as (s0 & Hcov0 & [->| ->]); try done.
  - intros s1 sl g H1 _ _ _. by apply covered_insert.
  - intros s1 sl g H1 _ _ _ _. by apply covered_insert.
Qed.

(** All through the run every queue has its pointer. *)
Lemma covered_runDays n :
  Covered plan (disciplinePointers (runDaysC n).1).
Proof.
  induction n as [|n IH]; [apply covered_initial|].
  rewrite runDays_S. unfold runDay.
  destruct (minutesOf routine _ =? 0)%Z; [done|]. cbn [fst snd].
  by apply covered_dayLoop.
Qed.

Lemma contentWithin_mono n n' st :
  n ≤ n' → contentWithinC n st = true → contentWithinC n' st = true.
Proof.
  revert n' st. induction n as [|n IH]; intros n' st Hle H; [done|].
  destruct n' as [|n']; [lia|]. simpl in *.
  destruct (placeableNowC st); [done|]. simpl in *.
  destruct (passOverC st) as [st2|]; [|done]. apply IH; [lia|done].
Qed.

(** Passing over an item with nothing to place leaves every item as
    placeable as it was: the only pointer that moves is that of a queue
    with completed goals only from the pointer on. *)
Lemma passOver_item st ci :
  Covered plan (disciplinePointers st) →
  planComplete plan st = false →
  currentCycleIndex st < length (StudyPlan.cycles plan) →
  (∃ cycle, StudyPlan.cycles plan !! currentCycleIndex st = Some cycle
     ∧ expandCycleItems cycle plan !! currentItemIndex st = Some ci) →
  named ci →
  placeableC (disciplinePointers st) ci = false →
  ∃ st2, passOverC st = Some st2
    ∧ currentCycleIndex st2 = currentCycleIndex st
    ∧ currentItemIndex st2 = S (currentItemIndex st)
    ∧ Covered plan (disciplinePointers st2)
    ∧ ∀ cj, placeableC (disciplinePointers st2) cj
            = placeableC (disciplinePointers st) cj.
Proof.
  intros Hcov Hpc Hlt (cycle & Hcycle & Hci) Hnamed Hnp.
  unfold passOver. rewrite Hpc. unfold cursorCycle.
  apply Nat.leb_gt in Hlt as Hlt'. rewrite Hlt', Hcycle. simpl.
  rewrite Hci. unfold placeable in Hnp. unfold named in Hnamed.
  destruct (truthy (CycleItem.simuladoId ci)) as [sid|]; [by eexists|].
  destruct Hnamed as [[? [=]]|[did Hdid]]. rewrite Hdid in *.
  destruct (disciplineQueues plan !! did) as [queue|] eqn:Hq;
    [|by eexists].
  destruct (Hcov did) as [ptr Hptr]; [by rewrite Hq|].
  rewrite Hptr in *.
  destruct ((length queue <=? ptr) || (CycleItem.subjectsCount ci <=? 0)%Z)
    eqn:Hskip; [by eexists|].
  apply orb_false_iff in Hskip as [Hlen Hcount].
  apply Z.leb_gt in Hcount. apply Z.ltb_lt in Hcount as Hcount'.
  rewrite Hcount' in Hnp. simpl in Hnp.
  eexists. split; [done|]. simpl. repeat split; try done.
  { by apply covered_insert. }
  intros cj. unfold placeable.
  destruct (truthy (CycleItem.simuladoId cj)); [done|].
  destruct (truthy (CycleItem.disciplineId cj)) as [did'|]; [|done].
  destruct (disciplineQueues plan !! did') as [queue'|] eqn:Hq'; [|done].
  rewrite lookup_insert. case_decide as Hsame; [|done].
  subst did'. rewrite Hq in Hq'. injection Hq' as <-.
  rewrite Hptr, Hnp, drop_all. done.
Qed.

(** An item of the current cycle, at or after the cursor, with something
    to place, is within reach in as many iterations as there are items
    to pass, plus one. *)
Lemma content_ahead_in_reach cycle j cj n st :
  Covered plan (disciplinePointers st) →
  currentCycleIndex st < length (StudyPlan.cycles plan) →
  StudyPlan.cycles plan !! currentCycleIndex st = Some cycle →
  Forall named (expandCycleItems cycle plan) →
  expandCycleItems cycle plan !! j = Some cj →
  placeableC (disciplinePointers st) cj = true →
  currentItemIndex st ≤ j →
  j - currentItemIndex st < n →
  contentWithinC n st = true.
Proof.
  intros Hcov Hlt Hcycle Hnamed Hj Hplace Hle Hn.
  remember (j - currentItemIndex st) as k eqn:Hk.
  revert n st Hcov Hlt Hcycle Hplace Hle Hn Hk.
  induction k as [|k IH]; intros n st Hcov Hlt Hcycle Hplace Hle Hn Hk;
    (destruct n as [|n]; [lia|]); simpl.
  - assert (currentItemIndex st = j) as Hi by lia.
    unfold placeableNow, cursorItem, planComplete, cursorCycle.
    apply Nat.leb_gt in Hlt as ->. simpl. rewrite Hcycle. simpl.
    by rewrite Hi, Hj, Hplace.
  - destruct (placeableNowC st) eqn:Hnow; [done|]. simpl.
    destruct (lookup_lt_is_Some_2 (expandCycleItems cycle plan)
                (currentItemIndex st)) as [ci Hci].
    { apply lookup_lt_Some in Hj. lia. }
    assert (planComplete plan st = false) as Hpc.
    { unfold planComplete. apply Nat.leb_gt in Hlt as ->. done. }
    destruct (passOver_item st ci) as (st2 & -> & Hc2 & Hi2 & Hcov2 & Hsame);
      eauto.
    + rewrite Forall_forall in Hnamed.
      eapply Hnamed, list_elem_of_lookup_2, Hci.
    + unfold placeableNow, cursorItem, cursorCycle in Hnow.
      rewrite Hpc in Hnow. apply Nat.leb_gt in Hlt as Hlt'.
      rewrite Hlt', Hcycle in Hnow. simpl in Hnow. by rewrite Hci in Hnow.
    + apply IH; rewrite ?Hc2, ?Hi2, ?Hsame; try done; lia.
Qed.

End Ahead.

(** A day of the run whose loop places something has a list in the
    agenda, and the list is not empty. *)
Lemma day_items_give_entry calc tz plan routine startDay completedGoals
    userLevel allSimulados userAttempts off :
  let day := dateOfOffset startDay tz off in
  off < MAX_DAYS →
  (0 < minutesOf routine day)%Z →
  StudyPlan.cycles plan ≠ [] →
  dayItems
    (dayLoop calc plan completedGoals userLevel allSimulados userAttempts
       (isoDate day) SAFETY_LIMIT
       (startOfDay (minutesOf routine day)
          (runDays calc tz plan routine startDay completedGoals userLevel
             allSimulados userAttempts off).1)) ≠ [] →
  ∃ items,
    generateSchedule calc tz (Some plan) routine startDay completedGoals
      userLevel false allSimulados userAttempts
    !! isoDate day = Some items
    ∧ items ≠ [].
Proof.
  intros day Hoff Hmin Hcycles Hne.
  unfold generateSchedule, scheduleDays.
  destruct (StudyPlan.cycles plan) as [|c0 cs] eqn:Hc; [done|]. simpl.
  rewrite (minutes_hasAvailability routine day Hmin). simpl.
  assert (∃ items,
            (runDays calc tz plan routine startDay completedGoals userLevel
               allSimulados userAttempts (S off)).2 !! isoDate day
            = Some items ∧ items ≠ []) as (items & Hk & Hne').
  { rewrite runDays_S. unfold runDay. fold day.
    destruct (minutesOf routine day =? 0)%Z eqn:Hz; [lia|]. cbn [fst snd].
    remember (dayLoop _ _ _ _ _ _ _ _ _) as st' eqn:Hst'.
    destruct (dayItems st') as [|it its]; [done|].
    rewrite lookup_insert_eq. eauto. }
  eapply runDays_keeps; [|exact Hk|exact Hne']. lia.
Qed.

(** On a day with a positive number of minutes that starts with the
    cursor inside a cycle whose items all name an exam or a discipline, an
    item of that cycle at or after the cursor, fewer than 500 places
    ahead, with something to place, puts an item in the agenda of that
    day. *)
Lemma content_ahead_is_scheduled calc tz plan routine startDay completedGoals
    userLevel allSimulados userAttempts off cycle j cj :
  let st :=
    (runDays calc tz plan routine startDay completedGoals userLevel
       allSimulados userAttempts off).1 in
  let day := dateOfOffset startDay tz off in
  off < MAX_DAYS →
  (0 < minutesOf routine day)%Z →
  StudyPlan.cycles plan !! currentCycleIndex st = Some cycle →
  Forall named (expandCycleItems cycle plan) →
  expandCycleItems cycle plan !! j = Some cj →
  placeable plan completedGoals allSimulados userAttempts
    (disciplinePointers st) cj = true →
  currentItemIndex st ≤ j < currentItemIndex st + 500 →
  ∃ items,
    generateSchedule calc tz (Some plan) routine startDay completedGoals
      userLevel false allSimulados userAttempts
    !! isoDate day = Some items
    ∧ items ≠ [].
Proof.
  intros st day Hoff Hmin Hcycle Hnamed Hj Hplace Hrange.
  apply day_items_give_entry; [exact Hoff|exact Hmin| |].
  { intros Hnil. by rewrite Hnil in Hcycle. }
  apply content_placed; [|reflexivity|exact Hmin].
  apply (content_ahead_in_reach plan completedGoals allSimulados userAttempts
           cycle j cj).
  - apply covered_runDays.
  - simpl. by apply lookup_lt_Some in Hcycle.
  - done.
  - done.
  - done.
  - done.
  - simpl. fold st. lia.
  - simpl. fold st. change SAFETY_LIMIT with 500. lia.
Qed.

(** ** An exhausted first cycle, in the two modes *)

Section FirstCycle.

Context (calculateGoalDuration : Goal.t → UserLevel → Z)
  (plan : StudyPlan.t) (completedGoals : list string)
  (userLevel : UserLevel) (allSimulados : list Simulado.t)
  (userAttempts : list SimuladoAttempt.t).

Local Abbreviation stepC :=
  (step calculateGoalDuration plan completedGoals userLevel allSimulados
     userAttempts).
Local Abbreviation dayLoopC :=
  (dayLoop calculateGoalDuration plan completedGoals userLevel allSimulados
     userAttempts).

Lemma skipExhausted_ge fuel c :
  c ≤ skipExhausted plan userAttempts fuel c.
Proof.
  revert c. induction fuel as [|fuel IH]; intros c; simpl; [done|].
  destruct (_ && _); [|done]. specialize (IH (S c)). lia.
Qed.

(** Every item of an expanded cycle names an exam or a discipline, as
    long as no discipline has the empty id. *)
Lemma expandCycleItems_named cycle ci :
  Forall (λ d, Discipline.id d ≠ "") (StudyPlan.disciplines plan) →
  ci ∈ expandCycleItems cycle plan → named ci.
Proof.
  intros Hids Hin. unfold named. unfold expandCycleItems in Hin.
  apply list_elem_of_In, in_flat_map in Hin as (item & _ & Hin).
  destruct (truthy (CycleItem.folderId item)) as [f|].
  - apply in_map_iff in Hin as (d & <- & Hd). right. simpl.
    apply list_elem_of_In in Hd. rewrite sortBy_perm in Hd.
    apply list_elem_of_In, filter_In in Hd as [Hd _].
    rewrite Forall_forall in Hids.
    apply list_elem_of_In, Hids in Hd.
    destruct (String.eqb_spec (Discipline.id d) ""); [done|eauto].
  - destruct (truthy (CycleItem.disciplineId item)) eqn:Hdisc.
    + destruct Hin as [<-|[]]. right. rewrite Hdisc. eauto.
    + destruct (truthy (CycleItem.simuladoId item)) eqn:Hsim; [|done].
      destruct Hin as [<-|[]]. left. rewrite Hsim. eauto.
Qed.

(** Over an item without work left the body of the loop only moves the
    cursor on. *)
Lemma step_exhausted_item dateStr st cycle ci :
  currentCycleIndex st < length (StudyPlan.cycles plan) →
  StudyPlan.cycles plan !! currentCycleIndex st = Some cycle →
  expandCycleItems cycle plan !! currentItemIndex st = Some ci →
  itemExhausted plan userAttempts (disciplinePointers st) ci = true →
  named ci →
  stepC dateStr st = (Next, nextItem st).
Proof.
  intros Hlt Hcycle Hci Hex Hnamed. unfold named in Hnamed. unfold step.
  apply Nat.leb_gt in Hlt. rewrite Hlt. simpl. rewrite Hcycle, Hci.
  unfold itemExhausted in Hex.
  destruct (truthy (CycleItem.simuladoId ci)) as [sid|].
  - unfold processSimulado. rewrite Hex. by destruct st.
  - destruct Hnamed as [[? [=]]|[did Hdid]]. rewrite Hdid in *.
    unfold processDisciplina. simpl.
    destruct (disciplinePointers st !! did) as [ptr|]; [|done].
    destruct (disciplineQueues plan !! did) as [queue|];
      [|by destruct st].
    simpl in Hex. rewrite Hex. by destruct st.
Qed.

(** In rotating mode the end of a list of items leads to the next
    cycle. *)
Lemma step_end_of_items dateStr st cycle :
  cycleSystem plan = rotativo →
  currentCycleIndex st < length (StudyPlan.cycles plan) →
  StudyPlan.cycles plan !! currentCycleIndex st = Some cycle →
  expandCycleItems cycle plan !! currentItemIndex st = None →
  stepC dateStr st = (Next, withCursor (S (currentCycleIndex st)) 0 st).
Proof.
  intros Hrot Hlt Hcycle Hci. unfold step.
  apply Nat.leb_gt in Hlt. rewrite Hlt. simpl. rewrite Hcycle, Hci.
  by rewrite Hrot.
Qed.

(** The walk past an exhausted first cycle: one iteration for each item
    from the cursor on, and one for the end of the list. *)
Lemma walk_past_exhausted dateStr c0 fuel j st :
  cycleSystem plan = rotativo →
  StudyPlan.cycles plan !! 0 = Some c0 →
  Forall (λ ci, itemExhausted plan userAttempts (disciplinePointers st) ci
                = true
                ∧ named ci)
    (expandCycleItems c0 plan) →
  currentCycleIndex st = 0 →
  currentItemIndex st + j = length (expandCycleItems c0 plan) →
  (0 < minutesAvailable st)%Z →
  dayLoopC dateStr (j + 1 + fuel) st = dayLoopC dateStr fuel (withCursor 1 0 st).
Proof.
  intros Hrot Hc0 Hall. revert st Hall.
  induction j as [|j IH]; intros st Hall Hc Hi Hmin.
  - simpl. rewrite dayLoop_S.
    apply Z.ltb_lt in Hmin as ->.
    rewrite (step_end_of_items dateStr st c0); rewrite ?Hc; try done.
    + by apply lookup_lt_Some in Hc0.
    + apply lookup_ge_None. lia.
  - replace (S j + 1 + fuel) with (S (j + 1 + fuel)) by lia.
    rewrite dayLoop_S. apply Z.ltb_lt in Hmin as Hmin'. rewrite Hmin'.
    destruct (lookup_lt_is_Some_2 (expandCycleItems c0 plan)
                (currentItemIndex st)) as [ci Hci]; [lia|].
    rewrite Forall_forall in Hall.
    destruct (Hall ci (list_elem_of_lookup_2 _ _ _ Hci)) as [Hex Hnamed].
    rewrite (step_exhausted_item dateStr st c0 ci); rewrite ?Hc; try done.
    + rewrite IH; [done| |done|simpl; lia|done].
      by apply Forall_forall.
    + by apply lookup_lt_Some in Hc0.
Qed.

End FirstCycle.

(** * Further properties of the scheduler *)

Section Run.

Context (calculateGoalDuration : Goal.t → UserLevel → Z) (tz : Z → Z)
  (plan : StudyPlan.t) (routine : Routine.t) (startDay : Z)
  (completedGoals : list string) (userLevel : UserLevel)
  (allSimulados : list Simulado.t) (userAttempts : list SimuladoAttempt.t).

Local Abbreviation stepC :=
  (step calculateGoalDuration plan completedGoals userLevel allSimulados
     userAttempts).
Local Abbreviation dayLoopC :=
  (dayLoop calculateGoalDuration plan completedGoals userLevel allSimulados
     userAttempts).
Local Abbreviation visitQueueC :=
  (visitQueue calculateGoalDuration completedGoals userLevel).
Local Abbreviation runDaysC :=
  (runDays calculateGoalDuration tz plan routine startDay completedGoals
     userLevel allSimulados userAttempts).
Local Abbreviation durationC := (resolveDuration calculateGoalDuration userLevel).

(** *** The budget of a day *)

Lemma resolveDuration_pos g :
  (0 ≤ calculateGoalDuration g userLevel)%Z → (0 < durationC g)%Z.
Proof.
  intros H. unfold resolveDuration.
  destruct (Z.eqb_spec (calculateGoalDuration g userLevel) 0) as [->|Hnz];
    simpl.
  - destruct (String.eqb (Goal.type g) "AULA"); simpl; lia.
  - destruct (Z.eqb_spec (calculateGoalDuration g userLevel) 0); lia.
Qed.

Lemma goalItemsOf_snoc_goal l it :
  isSimuladoItem it = false → goalItemsOf (l ++ [it]) = (goalItemsOf l ++ [it])%list.
Proof. intros H. unfold goalItemsOf. rewrite List.filter_app. simpl. by rewrite H. Qed.

Lemma goalItemsOf_snoc_simulado l it :
  isSimuladoItem it = true → goalItemsOf (l ++ [it]) = goalItemsOf l.
Proof.
  intros H. unfold goalItemsOf. rewrite List.filter_app. simpl. rewrite H.
  simpl. by rewrite app_nil_r.
Qed.

Lemma budget_step m dateStr st flow st' :
  (∀ g, 0 ≤ calculateGoalDuration g userLevel)%Z →
  Budget m st → (0 < minutesAvailable st)%Z →
  stepC dateStr st = (flow, st') → Budget m st'.
Proof.
  intros Hcalc. apply step_inv.
  - intros s c i H _. exact H.
  - intros s [Hn [(it & ? & ? & ? & ?)|[HA Hm]]]; split; try done.
    + left. exists it. simpl. repeat split; try done.
    + right. simpl. split; [done|lia].
  - intros s x cycle ci [Hn [(it & ? & ? & ? & ?)|[HA Hm]]] Hpos
      _ _ _ _ _ _; [lia|].
    split; [simpl; rewrite length_app; simpl; lia|].
    right. simpl. rewrite goalItemsOf_snoc_simulado by done. lia.
  - intros s cycle ci did queue ptr s' sl' Hbud Hpos _ _ _ _ _ _ Hv.
    eapply (visitQueue_inv calculateGoalDuration completedGoals userLevel
              (λ s _, Budget m s))
      in Hv as (s0 & Hbud0 & [->| ->]); try done.
    + destruct Hbud0 as [Hn [(it & ? & ? & ? & ?)|[HA Hm]]]; split;
        try done.
      * left. exists it. simpl. repeat split; try done.
      * right. simpl. split; [done|lia].
    + intros s1 sl g [Hn [(it & Hit & ? & ? & ?)|[HA Hm]]] _ _ _ Hfit.
      { pose proof (resolveDuration_pos (QueuedGoal.goal g) (Hcalc _)).
        rewrite Hit in Hn. simpl in Hn. lia. }
      split; [simpl; rewrite length_app; simpl; lia|]. simpl.
      pose proof (resolveDuration_pos (QueuedGoal.goal g) (Hcalc _)) as Hd.
      destruct Hfit as [Hfit|Hzero].
      * right. rewrite goalItemsOf_snoc_goal, totalDuration_snoc by done.
        simpl. lia.
      * rewrite Hzero in Hn. destruct (dayItems s1) as [|? ?] eqn:Hl;
          [|done].
        simpl in *.
        destruct (decide (durationC (QueuedGoal.goal g) ≤ m)%Z).
        -- right. simpl. lia.
        -- left. eexists. repeat split; try done; simpl; lia.
Qed.

Lemma dayLoop_no_minutes dateStr fuel st :
  (minutesAvailable st ≤ 0)%Z → dayLoopC dateStr fuel st = st.
Proof.
  intros Hm. destruct fuel as [|fuel]; [done|]. rewrite dayLoop_S.
  destruct (0 <? minutesAvailable st)%Z eqn:H; [lia|done].
Qed.

Lemma budget_dayLoop m dateStr fuel st :
  (∀ g, 0 ≤ calculateGoalDuration g userLevel)%Z →
  dayItems (dayLoopC dateStr fuel (startOfDay m st)) ≠ [] →
  Budget m (dayLoopC dateStr fuel (startOfDay m st)).
Proof.
  intros Hcalc Hne.
  destruct (decide (0 < m)%Z) as [Hm|Hm].
  - apply dayLoop_inv.
    + intros. by eapply budget_step.
    + split; [done|]. right. simpl. lia.
  - rewrite dayLoop_no_minutes in Hne by (simpl; lia). done.
Qed.

(** *** The pointers *)

Lemma pointersGrow_refl ptrs : PointersGrow ptrs ptrs.
Proof. intros did ptr H. eauto. Qed.

Lemma pointersGrow_trans p1 p2 p3 :
  PointersGrow p1 p2 → PointersGrow p2 p3 → PointersGrow p1 p3.
Proof.
  intros H12 H23 did ptr H.
  destruct (H12 _ _ H) as (ptr2 & H2 & ?).
  destruct (H23 _ _ H2) as (ptr3 & H3 & ?).
  exists ptr3. split; [done|lia].
Qed.

Lemma pointersGrow_insert ptrs did ptr :
  ptrs !! did = Some ptr → PointersGrow ptrs (<[did := S ptr]> ptrs).
Proof. intros H did' ptr' H'. by apply pointers_grow with (ptr := ptr). Qed.

(** Over one iteration the cursor cycle and the item index of a visit
    stay, the pointers grow, and they stay inside their queues. *)
Lemma pointers_step dateStr st0 st flow st' :
  PointersGrow (disciplinePointers st0) (disciplinePointers st)
  ∧ PointersBounded plan (disciplinePointers st) →
  (0 < minutesAvailable st)%Z →
  stepC dateStr st = (flow, st') →
  PointersGrow (disciplinePointers st0) (disciplinePointers st')
  ∧ PointersBounded plan (disciplinePointers st').
Proof.
  apply (step_inv calculateGoalDuration plan completedGoals userLevel
           allSimulados userAttempts
           (λ s, PointersGrow (disciplinePointers st0) (disciplinePointers s)
                 ∧ PointersBounded plan (disciplinePointers s)));
    try done.
  intros s cycle ci did queue ptr s' sl' [Hg Hb] _ _ _ _ Hq Hp _ Hv.
  eapply (visitQueue_inv calculateGoalDuration completedGoals userLevel
            (λ s sl,
               (PointersGrow (disciplinePointers st0) (disciplinePointers s)
                ∧ PointersBounded plan (disciplinePointers s))
               ∧ disciplinePointers s !! did = Some (pointer sl)))
    in Hv as (s0 & [H0 _] & [->| ->]); try done.
  - intros s1 sl g [[Hg1 Hb1] Hp1] Hlook _ _. simpl.
    split; [|by rewrite lookup_insert_eq]. split.
    + eapply pointersGrow_trans; [exact Hg1|]. by apply pointersGrow_insert.
    + intros did' ptr'. rewrite lookup_insert. case_decide.
      * intros [= <-]. subst. exists queue. split; [done|].
        apply lookup_lt_Some in Hlook. lia.
      * apply Hb1.
  - intros s1 sl g [[Hg1 Hb1] Hp1] Hlook _ _ _. simpl.
    split; [|by rewrite lookup_insert_eq]. split.
    + eapply pointersGrow_trans; [exact Hg1|]. by apply pointersGrow_insert.
    + intros did' ptr'. rewrite lookup_insert. case_decide.
      * intros [= <-]. subst. exists queue. split; [done|].
        apply lookup_lt_Some in Hlook. lia.
      * apply Hb1.
Qed.

Lemma pointers_dayLoop dateStr fuel st :
  PointersBounded plan (disciplinePointers st) →
  PointersGrow (disciplinePointers st)
    (disciplinePointers (dayLoopC dateStr fuel st))
  ∧ PointersBounded plan (disciplinePointers (dayLoopC dateStr fuel st)).
Proof.
  intros Hb.
  apply (dayLoop_inv calculateGoalDuration plan completedGoals userLevel
           allSimulados userAttempts
           (λ s, PointersGrow (disciplinePointers st) (disciplinePointers s)
                 ∧ PointersBounded plan (disciplinePointers s))).
  - intros s flow s' H Hm Hs. by eapply pointers_step.
  - split; [apply pointersGrow_refl|done].
Qed.

Lemma pointersBounded_initial : PointersBounded plan (initialPointers plan).
Proof.
  intros did ptr [H|(d & Hd & Hid & ->)]%foldl_insert_lookup;
    [by rewrite lookup_empty in H|].
  destruct (foldl_insert_is_Some Discipline.id flatGoals
              (StudyPlan.disciplines plan) ∅ did) as [queue Hq].
  { right. eauto. }
  exists queue. split; [done|lia].
Qed.

Lemma pointers_runDay acc off :
  PointersBounded plan (disciplinePointers acc.1) →
  PointersGrow (disciplinePointers acc.1)
    (disciplinePointers
       (runDay calculateGoalDuration tz plan routine startDay
          completedGoals userLevel allSimulados userAttempts acc off).1)
  ∧ PointersBounded plan
      (disciplinePointers
         (runDay calculateGoalDuration tz plan routine startDay
            completedGoals userLevel allSimulados userAttempts acc off).1).
Proof.
  intros Hb. unfold runDay.
  destruct (minutesOf routine _ =? 0)%Z;
    [split; [apply pointersGrow_refl|done]|].
  cbn [fst snd]. by apply (pointers_dayLoop _ _ (startOfDay _ acc.1)).
Qed.

Lemma pointersBounded_runDays n :
  PointersBounded plan (disciplinePointers (runDaysC n).1).
Proof.
  induction n as [|n IH]; [apply pointersBounded_initial|].
  rewrite runDays_S. by apply pointers_runDay.
Qed.

Lemma pointersGrow_runDays n n' :
  n ≤ n' →
  PointersGrow (disciplinePointers (runDaysC n).1)
    (disciplinePointers (runDaysC n').1).
Proof.
  induction 1 as [|n' Hle IH]; [apply pointersGrow_refl|].
  eapply pointersGrow_trans; [exact IH|].
  rewrite runDays_S. apply pointers_runDay, pointersBounded_runDays.
Qed.

End Run.

(** ** Continuous mode finishes a cycle before it enters the next *)

Section Continuo.

Context (calculateGoalDuration : Goal.t → UserLevel → Z) (tz : Z → Z)
  (plan : StudyPlan.t) (routine : Routine.t) (startDay : Z)
  (completedGoals : list string) (userLevel : UserLevel)
  (allSimulados : list Simulado.t) (userAttempts : list SimuladoAttempt.t).

Local Abbreviation stepC :=
  (step calculateGoalDuration plan completedGoals userLevel allSimulados
     userAttempts).
Local Abbreviation dayLoopC :=
  (dayLoop calculateGoalDuration plan completedGoals userLevel allSimulados
     userAttempts).
Local Abbreviation visitQueueC :=
  (visitQueue calculateGoalDuration completedGoals userLevel).
Local Abbreviation runDaysC :=
  (runDays calculateGoalDuration tz plan routine startDay completedGoals
     userLevel allSimulados userAttempts).
Local Abbreviation exhaustedC := (isCycleExhausted plan userAttempts).

Lemma visitQueue_cursor dateStr cycleId did count rest st sl :
  currentCycleIndex
    (visitQueueC dateStr cycleId did count rest st sl).1
  = currentCycleIndex st.
Proof.
  revert st sl. induction rest as [|g rest IH]; intros st sl; simpl;
    [done|].
  destruct (_ <? _)%Z; [|done]. destruct (isCompletedGoal _ _).
  - by rewrite IH.
  - destruct (_ || _); [by rewrite IH|done].
Qed.

Lemma visitQueue_grow dateStr cycleId did count queue st ptr st' sl' :
  disciplinePointers st !! did = Some ptr →
  visitQueueC dateStr cycleId did count (drop ptr queue) st
    (mkSlotState ptr 0 "" false) = (st', sl') →
  PointersGrow (disciplinePointers st) (disciplinePointers st').
Proof.
  intros Hp Hv.
  eapply (visitQueue_inv calculateGoalDuration completedGoals userLevel
            (λ s sl,
               PointersGrow (disciplinePointers st) (disciplinePointers s)
               ∧ disciplinePointers s !! did = Some (pointer sl)))
    in Hv as (s0 & [H0 _] & [->| ->]); try done.
  - intros s1 sl g [Hg1 Hp1] _ _ _. simpl.
    split; [|by rewrite lookup_insert_eq].
    eapply pointersGrow_trans; [exact Hg1|]. by apply pointersGrow_insert.
  - intros s1 sl g [Hg1 Hp1] _ _ _ _. simpl.
    split; [|by rewrite lookup_insert_eq].
    eapply pointersGrow_trans; [exact Hg1|]. by apply pointersGrow_insert.
  - split; [apply pointersGrow_refl|done].
Qed.

Lemma itemExhausted_mono ptrs ptrs' ci :
  PointersGrow ptrs ptrs' →
  itemExhausted plan userAttempts ptrs ci = true →
  itemExhausted plan userAttempts ptrs' ci = true.
Proof.
  intros Hg. unfold itemExhausted.
  destruct (truthy (CycleItem.simuladoId ci)); [done|].
  destruct (truthy (CycleItem.disciplineId ci)) as [did|]; [|done].
  destruct (ptrs !! did) as [ptr|] eqn:Hp; [|done].
  destruct (Hg _ _ Hp) as (ptr' & -> & Hle).
  intros H%Nat.leb_le. apply Nat.leb_le. lia.
Qed.

Lemma isCycleExhausted_mono ptrs ptrs' c :
  PointersGrow ptrs ptrs' →
  exhaustedC ptrs c = true → exhaustedC ptrs' c = true.
Proof.
  intros Hg. unfold isCycleExhausted.
  destruct (StudyPlan.cycles plan !! c) as [cycle|]; [|done].
  rewrite !forallb_forall. intros H ci Hci.
  eapply itemExhausted_mono; eauto.
Qed.

(** In continuous mode one iteration either keeps the cycle, the
    pointers growing, or leaves an exhausted cycle for the next, the
    pointers as they were. *)
Lemma step_continuo dateStr st flow st' :
  cycleSystem plan = continuo →
  stepC dateStr st = (flow, st') →
  (currentCycleIndex st' = currentCycleIndex st
   ∧ PointersGrow (disciplinePointers st) (disciplinePointers st'))
  ∨ (currentCycleIndex st' = S (currentCycleIndex st)
     ∧ disciplinePointers st' = disciplinePointers st
     ∧ exhaustedC (disciplinePointers st) (currentCycleIndex st) = true).
Proof.
  intros Hsys. unfold step, isRotativo. rewrite Hsys. simpl.
  rewrite andb_true_r.
  destruct (length (StudyPlan.cycles plan) <=? currentCycleIndex st).
  { intros [= <- <-]. left. split; [done|apply pointersGrow_refl]. }
  destruct (StudyPlan.cycles plan !! currentCycleIndex st) as [cycle|];
    [|intros [= <- <-]; left; split; [done|apply pointersGrow_refl]].
  destruct (expandCycleItems cycle plan !! currentItemIndex st) as [ci|].
  - destruct (truthy (CycleItem.simuladoId ci)) as [sid|].
    { unfold processSimulado.
      repeat case_match; intros [= <- <-]; left;
        (split; [done|apply pointersGrow_refl]). }
    destruct (truthy (CycleItem.disciplineId ci)) as [did|];
      [|intros [= <- <-]; left; split; [done|apply pointersGrow_refl]].
    unfold processDisciplina. simpl.
    destruct (disciplineQueues plan !! did) as [queue|];
      [|intros [= <- <-]; left; split; [done|apply pointersGrow_refl]].
    destruct (disciplinePointers st !! did) as [ptr|] eqn:Hp;
      [|destruct (_ <=? _)%Z; intros [= <- <-]; left;
        (split; [done|apply pointersGrow_refl])].
    destruct (length queue <=? ptr);
      [intros [= <- <-]; left; split; [done|apply pointersGrow_refl]|].
    destruct (visitQueueC _ _ _ _ _ _ _) as [st1 sl1] eqn:Hv.
    pose proof (visitQueue_cursor dateStr (Cycle.id cycle) did
                  (CycleItem.subjectsCount ci) (drop ptr queue)
                  (withCursor (currentCycleIndex st) (currentItemIndex st)
                     st) (mkSlotState ptr 0 "" false)) as Hc.
    rewrite Hv in Hc. simpl in Hc.
    apply visitQueue_grow in Hv; [|done]. simpl in Hv.
    destruct (_ || _); [intros [= <- <-]; left; by split|].
    destruct (_ && _); intros [= <- <-]; left; by split.
  - destruct (exhaustedC _ _) eqn:Hex; intros [= <- <-].
    + right. done.
    + left. split; [done|apply pointersGrow_refl].
Qed.

Lemma cyclesBehind_step dateStr st flow st' :
  cycleSystem plan = continuo →
  CyclesBehindExhausted plan userAttempts st →
  stepC dateStr st = (flow, st') →
  CyclesBehindExhausted plan userAttempts st'.
Proof.
  intros Hsys Hst Hstep c Hc.
  destruct (step_continuo dateStr st flow st' Hsys Hstep)
    as [[Hsame Hg]|(Hnext & Hp & Hex)].
  - eapply isCycleExhausted_mono; [exact Hg|]. apply Hst. lia.
  - rewrite Hp. destruct (decide (c = currentCycleIndex st)) as [->|];
      [done|]. apply Hst. lia.
Qed.

Lemma skipExhausted_behind fuel c0 :
  (∀ c, c < c0 → exhaustedC (initialPointers plan) c = true) →
  ∀ c, c < skipExhausted plan userAttempts fuel c0 →
    exhaustedC (initialPointers plan) c = true.
Proof.
  revert c0. induction fuel as [|fuel IH]; intros c0 H0 c; simpl;
    [apply H0|].
  destruct (_ <? _); simpl; [|apply H0].
  destruct (exhaustedC (initialPointers plan) c0) eqn:Hex; [|apply H0].
  apply IH. intros c' Hc'.
  destruct (decide (c' = c0)) as [->|]; [done|]. apply H0. lia.
Qed.

Lemma cyclesBehind_runDays n :
  cycleSystem plan = continuo →
  CyclesBehindExhausted plan userAttempts (runDaysC n).1.
Proof.
  intros Hsys. induction n as [|n IH].
  - intros c. simpl. unfold initialCycleIndex. rewrite Hsys.
    apply skipExhausted_behind. lia.
  - rewrite runDays_S. unfold runDay.
    destruct (minutesOf routine _ =? 0)%Z; [done|]. cbn [fst snd].
    apply (dayLoop_inv calculateGoalDuration plan completedGoals userLevel
             allSimulados userAttempts
             (CyclesBehindExhausted plan userAttempts)); [|done].
    intros s flow s' Hs _ Hstep. by eapply cyclesBehind_step.
Qed.

End Continuo.

(** ** An exhausted first cycle contributes nothing *)

Section Second.

Context (calculateGoalDuration : Goal.t → UserLevel → Z) (tz : Z → Z)
  (plan : StudyPlan.t) (routine : Routine.t) (startDay : Z)
  (completedGoals : list string) (userLevel : UserLevel)
  (allSimulados : list Simulado.t) (userAttempts : list SimuladoAttempt.t)
  (c0 c1 : Cycle.t).

Hypothesis Hcycles : StudyPlan.cycles plan = [c0; c1].
Hypothesis Hexhausted :
  isCycleExhausted plan userAttempts (initialPointers plan) 0 = true.

Local Abbreviation stepC :=
  (step calculateGoalDuration plan completedGoals userLevel allSimulados
     userAttempts).
Local Abbreviation dayLoopC :=
  (dayLoop calculateGoalDuration plan completedGoals userLevel allSimulados
     userAttempts).
Local Abbreviation runDaysC :=
  (runDays calculateGoalDuration tz plan routine startDay completedGoals
     userLevel allSimulados userAttempts).
Local Abbreviation FromSecond :=
  (FromCycle calculateGoalDuration userLevel plan c1).

(** The items of the first cycle stay exhausted as the pointers grow. *)
Lemma first_cycle_stays_exhausted ptrs ci :
  PointersGrow (initialPointers plan) ptrs →
  ci ∈ expandCycleItems c0 plan →
  itemExhausted plan userAttempts ptrs ci = true.
Proof.
  intros Hgrow Hci.
  apply (itemExhausted_mono plan userAttempts (initialPointers plan));
    [exact Hgrow|].
  unfold isCycleExhausted in Hexhausted. rewrite Hcycles in Hexhausted.
  simpl in Hexhausted. rewrite forallb_forall in Hexhausted.
  by apply Hexhausted, list_elem_of_In.
Qed.

Lemma fromSecond_step dateStr st flow st' :
  FromSecond st → (0 < minutesAvailable st)%Z →
  stepC dateStr st = (flow, st') → FromSecond st'.
Proof.
  apply (step_inv_strict calculateGoalDuration plan completedGoals
           userLevel allSimulados userAttempts FromSecond).
  - intros s c i H _. exact H.
  - intros s H. exact H.
  - intros s x cycle ci [HF HG] _ Hcycle Hci Hsid Hin Hnot _.
    split; [|exact HG]. simpl.
    apply Forall_app. split; [exact HF|]. constructor; [|constructor].
    rewrite Hcycles in Hcycle.
    destruct (currentCycleIndex s) as [|[|n]]; simpl in Hcycle;
      [| |discriminate Hcycle]; injection Hcycle as <-.
    + pose proof (first_cycle_stays_exhausted _ ci HG
                    (list_elem_of_lookup_2 _ _ _ Hci)) as Hex.
      unfold itemExhausted in Hex. rewrite Hsid in Hex. congruence.
    + exists dateStr, ci.
      split; [by apply list_elem_of_lookup_2 in Hci|]. right. by exists x.
  - intros s cycle ci did queue ptr s' sl' [HF HG] _ Hcycle Hci Hnosim
      Hdid Hq Hp Hlt Hv.
    rewrite Hcycles in Hcycle.
    destruct (currentCycleIndex s) as [|[|n]]; simpl in Hcycle;
      [| |discriminate Hcycle]; injection Hcycle as <-.
    + pose proof (first_cycle_stays_exhausted _ ci HG
                    (list_elem_of_lookup_2 _ _ _ Hci)) as Hex.
      unfold itemExhausted in Hex.
      rewrite Hnosim, Hdid, Hp, Hq in Hex. simpl in Hex.
      apply Nat.leb_le in Hex. lia.
    + eapply (visitQueue_inv calculateGoalDuration completedGoals userLevel
                (λ s sl, FromSecond s
                         ∧ disciplinePointers s !! did = Some (pointer sl)))
        in Hv as (s0 & [H0 _] & [->| ->]); try done.
      * intros s1 sl g [[HF1 HG1] Hp1] _ _ _. simpl.
        split; [|by rewrite lookup_insert_eq]. split; [exact HF1|].
        eapply pointersGrow_trans; [exact HG1|].
        by apply pointersGrow_insert.
      * intros s1 sl g [[HF1 HG1] Hp1] _ _ _ _. simpl.
        split; [|by rewrite lookup_insert_eq]. split.
        -- apply Forall_app. split; [exact HF1|].
           constructor; [|constructor]. exists dateStr, ci.
           split; [by apply list_elem_of_lookup_2 in Hci|].
           left. by exists did, g.
        -- eapply pointersGrow_trans; [exact HG1|].
           by apply pointersGrow_insert.
Qed.

Lemma fromSecond_dayLoop dateStr m fuel st :
  PointersGrow (initialPointers plan) (disciplinePointers st) →
  FromSecond (dayLoopC dateStr fuel (startOfDay m st)).
Proof.
  intros HG.
  apply (dayLoop_inv calculateGoalDuration plan completedGoals userLevel
           allSimulados userAttempts FromSecond).
  - intros s flow s' H Hm Hs. by eapply fromSecond_step.
  - split; [constructor|exact HG].
Qed.

(** In either mode every item of the agenda is drawn from the second
    cycle. *)
Lemma agenda_from_second isPaused k items :
  generateSchedule calculateGoalDuration tz (Some plan) routine startDay
    completedGoals userLevel isPaused allSimulados userAttempts !! k
    = Some items →
  Forall (DrawnFrom calculateGoalDuration userLevel plan c1) items.
Proof.
  intros (p & off & [= <-] & _ & _ & _ & _ & ->)%generateSchedule_lookup.
  apply fromSecond_dayLoop.
  apply (pointersGrow_runDays calculateGoalDuration tz plan routine
           startDay completedGoals userLevel allSimulados userAttempts
           0 off). lia.
Qed.

(** Days without minutes leave the run where it started. *)
Lemma runDays_idle off :
  (∀ off', off' < off →
     minutesOf routine (dateOfOffset startDay tz off') = 0%Z) →
  runDaysC off = (initialState plan userAttempts, ∅).
Proof.
  induction off as [|off IH]; intros Hidle; [reflexivity|].
  rewrite runDays_S, IH by (intros off' Hlt; apply Hidle; lia).
  unfold runDay. by rewrite (Hidle off) by lia.
Qed.

(** The second cycle has work left, so in continuous mode the skip at
    the start stops at it. *)
Lemma placeable_not_exhausted ptrs cj :
  placeable plan completedGoals allSimulados userAttempts ptrs cj = true →
  itemExhausted plan userAttempts ptrs cj = false.
Proof.
  unfold placeable, itemExhausted.
  destruct (truthy (CycleItem.simuladoId cj)) as [sid|].
  { intros [H _]%andb_true_iff. by apply negb_true_iff in H. }
  destruct (truthy (CycleItem.disciplineId cj)) as [did|]; [|done].
  destruct (disciplineQueues plan !! did) as [queue|]; [|done].
  destruct (ptrs !! did) as [ptr|]; [|done]. simpl.
  intros [_ H]%andb_true_iff. apply Nat.leb_gt.
  apply existsb_exists in H as (g & Hg & _).
  apply list_elem_of_In, list_elem_of_lookup in Hg as [i Hi].
  apply lookup_lt_Some in Hi. rewrite length_drop in Hi. lia.
Qed.

Lemma initialCycleIndex_continuo j cj :
  cycleSystem plan = continuo →
  expandCycleItems c1 plan !! j = Some cj →
  placeable plan completedGoals allSimulados userAttempts
    (initialPointers plan) cj = true →
  initialCycleIndex plan userAttempts = 1.
Proof.
  intros Hcont Hj Hplace. unfold initialCycleIndex. rewrite Hcont.
  assert (length (StudyPlan.cycles plan) = 2) as Hlen
    by (by rewrite Hcycles).
  rewrite Hlen.
  change (skipExhausted plan userAttempts 2 0)
    with (if (0 <? length (StudyPlan.cycles plan))
             && isCycleExhausted plan userAttempts (initialPointers plan) 0
          then if (1 <? length (StudyPlan.cycles plan))
                  && isCycleExhausted plan userAttempts
                       (initialPointers plan) 1
               then 2 else 1
          else 0).
  rewrite Hlen, Hexhausted. simpl.
  assert (isCycleExhausted plan userAttempts (initialPointers plan) 1
          = false) as ->; [|reflexivity].
  unfold isCycleExhausted. rewrite Hcycles. simpl.
  apply not_true_is_false. rewrite forallb_forall. intros H.
  pose proof (H cj ltac:(by eapply list_elem_of_In, list_elem_of_lookup_2))
    as Hex.
  by rewrite (placeable_not_exhausted _ _ Hplace) in Hex.
Qed.

(** The first day with minutes places something, in either mode. *)
Lemma first_day_places j cj dateStr m :
  Forall (λ d, Discipline.id d ≠ "") (StudyPlan.disciplines plan) →
  expandCycleItems c1 plan !! j = Some cj →
  placeable plan completedGoals allSimulados userAttempts
    (initialPointers plan) cj = true →
  length (expandCycleItems c0 plan) + j + 1 < 500 →
  (0 < m)%Z →
  dayItems
    (dayLoopC dateStr SAFETY_LIMIT
       (startOfDay m (initialState plan userAttempts))) ≠ [].
Proof.
  intros Hids Hj Hplace Hlen Hm.
  assert (Hnamed : ∀ cycle, Forall named (expandCycleItems cycle plan)).
  { intros cycle. apply Forall_forall. intros ci Hci.
    by eapply expandCycleItems_named. }
  assert (Hreach : ∀ n st,
            currentCycleIndex st = 1 → currentItemIndex st = 0 →
            disciplinePointers st = initialPointers plan →
            j < n →
            contentWithin plan completedGoals allSimulados userAttempts n st
            = true).
  { intros n st Hc Hi Hp Hn.
    apply (content_ahead_in_reach plan completedGoals allSimulados
             userAttempts c1 j cj).
    - rewrite Hp. apply covered_initial.
    - rewrite Hc, Hcycles. simpl. lia.
    - by rewrite Hc, Hcycles.
    - apply Hnamed.
    - exact Hj.
    - by rewrite Hp.
    - lia.
    - lia. }
  destruct (cycleSystem plan) eqn:Hsys.
  - apply content_placed; [|reflexivity|exact Hm].
    apply Hreach; [|reflexivity|reflexivity|change SAFETY_LIMIT with 500; lia].
    simpl. by eapply initialCycleIndex_continuo.
  - replace SAFETY_LIMIT
      with (length (expandCycleItems c0 plan) + 1
            + (500 - length (expandCycleItems c0 plan) - 1))
      by (change SAFETY_LIMIT with 500; lia).
    rewrite (walk_past_exhausted calculateGoalDuration plan completedGoals
               userLevel allSimulados userAttempts dateStr c0).
    + apply content_placed; [|reflexivity|exact Hm].
      apply Hreach; [reflexivity..|lia].
    + exact Hsys.
    + by rewrite Hcycles.
    + apply Forall_forall. intros ci Hci. split.
      * apply first_cycle_stays_exhausted; [|exact Hci].
        intros did ptr H. exists ptr. done.
      * by eapply expandCycleItems_named.
    + simpl. unfold initialCycleIndex. by rewrite Hsys.
    + reflexivity.
    + exact Hm.
Qed.

End Second.




(** ** What the agenda holds *)

Lemma flatGoals_from_subjects d q :
  q ∈ flatGoals d →
  ∃ s g, s ∈ Discipline.subjects d ∧ g ∈ Subject.goals s
    ∧ q = QueuedGoal.mk g (Subject.name s) (Discipline.name d).
Proof.
  unfold flatGoals. intros H.
  apply list_elem_of_In, in_flat_map in H as (s & Hs & Hq).
  apply in_map_iff in Hq as (g & <- & Hg).
  apply list_elem_of_In in Hs, Hg.
  rewrite sortBy_perm in Hs. rewrite sortBy_perm in Hg. eauto.
Qed.

(** X1.  An exam item of the agenda is an exam of the catalogue, filed under
    the date of its list, and no attempt of the user is on that exam. *)
Theorem attempted_exam_never_scheduled calc tz plan routine startDay
    completedGoals userLevel isPaused allSimulados userAttempts k items it :
  generateSchedule calc tz plan routine startDay completedGoals userLevel
    isPaused allSimulados userAttempts !! k = Some items →
  it ∈ items →
  isSimuladoItem it = true →
  (∃ s, s ∈ allSimulados ∧ it = simuladoItem k s)
  ∧ ∀ a, a ∈ userAttempts →
      SimuladoAttempt.simuladoId a ≠ ScheduledItem.goalId it.
Proof.
  intros Ha Hin Hexam.
  apply agenda_origin in Ha as (p & ptrs & -> & Ho & _).
  rewrite Forall_forall in Ho. specialize (Ho _ Hin).
  destruct Ho as [|c cycle ci s _ _ _ _ Hs Hdone]; [done|].
  split; [eauto|]. intros a Ha Heq. simpl in Heq.
  assert (isSimuladoCompleted (Simulado.id s) userAttempts = true) as Ht;
    [|congruence].
  apply existsb_exists. exists a. split; [by apply list_elem_of_In|].
  by apply String.eqb_eq.
Qed.

Lemma attempted_exam_never_scheduled_witness :
  ∃ s, s ∈ [Sample.simulado1]
    ∧ simuladoItem "2024-01-01" Sample.simulado1 = simuladoItem "2024-01-01" s.
Proof.
  refine (proj1 (attempted_exam_never_scheduled Sample.rule30 Sample.brasilia
            (Some Sample.plan2) Sample.mondays100 Sample.monday [] iniciante
            false [Sample.simulado1] [] "2024-01-01" Sample.goalThenExam
            (simuladoItem "2024-01-01" Sample.simulado1) _ _ _)).
  - by vm_compute.
  - apply list_elem_of_In. simpl. auto.
  - done.
Defined.

(** X2.  A goal item of the agenda is filed under the date of its list and
    carries a goal of the plan that is not completed, with the names of
    the subject and of the discipline that hold it. *)
Theorem goal_items_come_from_the_plan calc tz plan routine startDay
    completedGoals userLevel isPaused allSimulados userAttempts k items it :
  generateSchedule calc tz plan routine startDay completedGoals userLevel
    isPaused allSimulados userAttempts !! k = Some items →
  it ∈ items →
  isSimuladoItem it = false →
  ScheduledItem.date it = k
  ∧ ∃ p d s g, plan = Some p ∧ d ∈ StudyPlan.disciplines p
      ∧ s ∈ Discipline.subjects d ∧ g ∈ Subject.goals s
      ∧ (Goal.id g ∉ completedGoals)
      ∧ ScheduledItem.goalId it = Goal.id g
      ∧ ScheduledItem.originalGoal it
        = Some (QueuedGoal.mk g (Subject.name s) (Discipline.name d)).
Proof.
  intros Ha Hin Hgoal.
  apply agenda_origin in Ha as (p & ptrs & -> & Ho & _).
  rewrite Forall_forall in Ho. specialize (Ho _ Hin).
  destruct Ho as [c cycle ci did queue i q ptr _ _ _ _ Hqueue Hq Hnc _ _|];
    [|done].
  split; [done|].
  apply disciplineQueues_lookup in Hqueue as (d & Hd & _ & ->).
  apply list_elem_of_lookup_2, flatGoals_from_subjects in Hq
    as (s & g & Hs & Hg & ->).
  apply isCompletedGoal_false in Hnc.
  exists p, d, s, g. done.
Qed.

Lemma goal_items_come_from_the_plan_witness :
  ScheduledItem.date
    (goalItem Sample.rule30 iniciante "2024-01-01" "c2" "d1"
       (Sample.queued Sample.g1))
  = "2024-01-01".
Proof.
  refine (proj1 (goal_items_come_from_the_plan Sample.rule30 Sample.brasilia
            (Some Sample.plan2) Sample.mondays100 Sample.monday [] iniciante
            false [Sample.simulado1] [] "2024-01-01" Sample.goalThenExam
            _ _ _ _)).
  - by vm_compute.
  - apply list_elem_of_In. simpl. auto.
  - done.
Defined.

(** X3.  With a duration rule that is never negative, the goal items of a day
    cost no more than the minutes of the day, unless the day holds a
    single item that alone costs more. *)
Theorem day_within_budget calc tz plan routine startDay completedGoals
    userLevel isPaused allSimulados userAttempts k items :
  (∀ g, 0 ≤ calc g userLevel)%Z →
  generateSchedule calc tz plan routine startDay completedGoals userLevel
    isPaused allSimulados userAttempts !! k = Some items →
  ∃ off, off < MAX_DAYS ∧ k = isoDate (dateOfOffset startDay tz off)
    ∧ ((∃ it, items = [it]
          ∧ (minutesOf routine (dateOfOffset startDay tz off)
             < ScheduledItem.duration it)%Z)
       ∨ (totalDuration (goalItemsOf items)
          ≤ minutesOf routine (dateOfOffset startDay tz off))%Z).
Proof.
  intros Hcalc
    (p & off & -> & Hoff & Hk & _ & Hne & Hitems)%generateSchedule_lookup.
  exists off. split; [done|]. split; [done|].
  rewrite Hitems in Hne.
  pose proof (budget_dayLoop calc p completedGoals userLevel allSimulados
                userAttempts _ _ _ _ Hcalc Hne) as [_ Hb].
  rewrite <- Hitems in Hb.
  destruct Hb as [(it & ? & _ & ? & _)|[? _]]; [left; eauto|by right].
Qed.

Lemma day_within_budget_witness :
  ∃ off, off < MAX_DAYS
    ∧ "2024-01-01" = isoDate (dateOfOffset Sample.monday Sample.brasilia off)
    ∧ ((∃ it, Sample.goalThenExam = [it]
          ∧ (minutesOf Sample.mondays100
               (dateOfOffset Sample.monday Sample.brasilia off)
             < ScheduledItem.duration it)%Z)
       ∨ (totalDuration (goalItemsOf Sample.goalThenExam)
          ≤ minutesOf Sample.mondays100
              (dateOfOffset Sample.monday Sample.brasilia off))%Z).
Proof.
  apply (day_within_budget Sample.rule30 Sample.brasilia (Some Sample.plan2)
           Sample.mondays100 Sample.monday [] iniciante false
           [Sample.simulado1] []).
  - intros g. unfold Sample.rule30. lia.
  - by vm_compute.
Defined.

(** ** The state of the run between days *)

(** X4.  From one day of the run to a later one no pointer goes back, and no
    pointer ever passes the end of its queue. *)
Theorem pointers_never_go_back calc tz plan routine startDay completedGoals
    userLevel allSimulados userAttempts n n' did ptr :
  n ≤ n' →
  disciplinePointers
    (runDays calc tz plan routine startDay completedGoals userLevel
       allSimulados userAttempts n).1 !! did = Some ptr →
  ∃ ptr' queue,
    disciplinePointers
      (runDays calc tz plan routine startDay completedGoals userLevel
         allSimulados userAttempts n').1 !! did = Some ptr'
    ∧ disciplineQueues plan !! did = Some queue
    ∧ ptr ≤ ptr' ≤ length queue.
Proof.
  intros Hle Hp.
  destruct (pointersGrow_runDays calc tz plan routine startDay completedGoals
              userLevel allSimulados userAttempts n n' Hle did ptr Hp)
    as (ptr' & Hp' & Hptr).
  destruct (pointersBounded_runDays calc tz plan routine startDay
              completedGoals userLevel allSimulados userAttempts n' did ptr'
              Hp') as (queue & Hq & Hlen).
  exists ptr', queue. repeat split; try done.
Qed.

Lemma pointers_never_go_back_witness :
  ∃ ptr' queue,
    disciplinePointers
      (runDays Sample.rule30 Sample.brasilia Sample.plan1 Sample.mondays60
         Sample.monday [] iniciante [] [] 8).1 !! "d1" = Some ptr'
    ∧ disciplineQueues Sample.plan1 !! "d1" = Some queue
    ∧ 2 ≤ ptr' ≤ length queue.
Proof.
  apply (pointers_never_go_back Sample.rule30 Sample.brasilia Sample.plan1
           Sample.mondays60 Sample.monday [] iniciante [] [] 1 8 "d1" 2).
  - lia.
  - by vm_compute.
Defined.



(** * The helpers around the scheduler *)

(** ** The stopwatch *)

Lemma allFrom_spec (P : Z → bool) (k : Z) (n : nat) :
  allFrom P k n = true →
  ∀ j, (k ≤ j < k + Z.of_nat n)%Z → P j = true.
Proof.
  revert k. induction n as [|n IH]; intros k H j Hj; [lia|].
  simpl in H. apply andb_true_iff in H as [H1 H2].
  destruct (decide (j = k)) as [->|Hne]; [exact H1|].
  apply (IH (k + 1)%Z H2). lia.
Qed.

Lemma between_bounds (lo hi : Z) (P : Z → bool) :
  allFrom P lo (Z.to_nat (hi - lo)) = true →
  ∀ k, (lo ≤ k < hi)%Z → P k = true.
Proof. intros H k Hk. apply (allFrom_spec P lo _ H). lia. Qed.

Lemma below_100 (P : Z → bool) :
  allFrom P 0 100 = true → ∀ k, (0 ≤ k < 100)%Z → P k = true.
Proof. intros H k Hk. apply (between_bounds 0 100 P H). lia. Qed.

Lemma padStart2_length k :
  (0 ≤ k < 100)%Z → String.length (padStart2 (pretty k)) = 2.
Proof.
  intros Hk.
  apply Nat.eqb_eq.
  apply (below_100 (λ k, String.length (padStart2 (pretty k)) =? 2)); [|exact Hk].
  vm_compute. reflexivity.
Qed.

Lemma padStart2_inj k j :
  (0 ≤ k < 100)%Z → (0 ≤ j < 100)%Z →
  padStart2 (pretty k) = padStart2 (pretty j) → k = j.
Proof.
  intros Hk Hj Heq.
  assert (H : allFrom (λ j, implb (String.eqb (padStart2 (pretty k))
                                     (padStart2 (pretty j)))
                              (k =? j)%Z) 0 100 = true).
  { apply (below_100 (λ k, allFrom (λ j, implb (String.eqb (padStart2 (pretty k))
                                     (padStart2 (pretty j)))
                              (k =? j)%Z) 0 100)); [|exact Hk].
    vm_compute. reflexivity. }
  pose proof (below_100 (λ j, implb (String.eqb (padStart2 (pretty k))
                                       (padStart2 (pretty j)))
                                (k =? j)%Z) H j Hj) as Hj'.
  cbv beta in Hj'.
  rewrite Heq, String.eqb_refl in Hj'. simpl in Hj'. lia.
Qed.

Lemma append_length (a b : string) :
  String.length (a +:+ b) = String.length a + String.length b.
Proof. induction a as [|c a IH]; simpl; [reflexivity|]. by rewrite IH. Qed.

Lemma append_split (a a' x x' : string) :
  String.length a = String.length a' →
  a +:+ x = a' +:+ x' → a = a' ∧ x = x'.
Proof.
  revert a'. induction a as [|c a IH]; intros [|c' a'] Hlen Heq;
    simpl in *; try discriminate.
  - by split.
  - injection Heq as -> Heq. injection Hlen as Hlen.
    destruct (IH a' Hlen Heq) as [-> ->]. by split.
Qed.

(** X6.  Below one hundred hours the stopwatch text has eight characters,
    and two different numbers of seconds never show the same text. *)
Theorem stopwatch_texts_differ (s t : Z) :
  (0 ≤ s < 360000)%Z → (0 ≤ t < 360000)%Z →
  String.length (formatStopwatch s) = 8
  ∧ (formatStopwatch s = formatStopwatch t → s = t).
Proof.
  intros Hs Ht.
  assert (Hparts : ∀ u, (0 ≤ u < 360000)%Z →
            (0 ≤ u / 3600 < 100)%Z ∧ (0 ≤ Z.rem u 3600 / 60 < 100)%Z
            ∧ (0 ≤ Z.rem u 60 < 100)%Z
            ∧ u = (3600 * (u / 3600) + 60 * (Z.rem u 3600 / 60) + Z.rem u 60)%Z).
  { intros u Hu. rewrite !Z.rem_mod_nonneg by lia.
    pose proof (Z.div_mod u 3600 ltac:(lia)) as H1.
    pose proof (Z.mod_pos_bound u 3600 ltac:(lia)) as H2.
    pose proof (Z.div_mod (u `mod` 3600) 60 ltac:(lia)) as H3.
    pose proof (Z.mod_pos_bound (u `mod` 3600) 60 ltac:(lia)) as H4.
    assert (H5 : (u `mod` 60 = (u `mod` 3600) `mod` 60)%Z).
    { symmetry. apply Z.mod_mod_divide. exists 60%Z. reflexivity. }
    split; [split; [apply Z.div_pos; lia | apply Z.div_lt_upper_bound; lia]|].
    split; [split; [apply Z.div_pos; lia | apply Z.div_lt_upper_bound; lia]|].
    split; [pose proof (Z.mod_pos_bound u 60 ltac:(lia)); lia|].
    lia. }
  destruct (Hparts s Hs) as (Hh & Hm & Hsec & Hsum).
  destruct (Hparts t Ht) as (Hh' & Hm' & Hsec' & Hsum').
  unfold formatStopwatch. cbv zeta.
  split.
  - rewrite !append_length, !padStart2_length by assumption. reflexivity.
  - intros Heq.
    apply append_split in Heq as [E1 Heq];
      [|by rewrite !padStart2_length].
    apply (append_split ":" ":") in Heq as [_ Heq]; [|reflexivity].
    apply append_split in Heq as [E2 Heq];
      [|by rewrite !padStart2_length].
    apply (append_split ":" ":") in Heq as [_ E3]; [|reflexivity].
    apply padStart2_inj in E1; [|assumption..].
    apply padStart2_inj in E2; [|assumption..].
    apply padStart2_inj in E3; [|assumption..].
    lia.
Qed.

Lemma stopwatch_texts_differ_witness :
  String.length (formatStopwatch 3661) = 8
  ∧ (formatStopwatch 3661 = formatStopwatch 3661 → 3661 = 3661)%Z.
Proof. apply stopwatch_texts_differ; lia. Defined.

(** ** The week strip *)

Lemma utcDay_of_day (d r : Z) :
  (0 ≤ r < 1440)%Z → utcDay (d * 1440 + r) = d.
Proof.
  intros Hr. unfold utcDay.
  rewrite Z.div_add_l by lia. rewrite Z.div_small by lia. lia.
Qed.

(** X7.  In a zone within twelve hours of UTC the week strip of a date
    holds the seven dates from the Sunday on or before it: entry [i] is
    the date [i] days after that Sunday, its day name is the [i]-th name,
    and the date itself is one of the seven. *)
Theorem week_days_of_base_date (tz baseDay : Z) (i : nat) :
  (-720 ≤ tz < 720)%Z → i < 7 →
  let sunday := (baseDay - (baseDay + 4) `mod` 7)%Z in
  getWeekDays tz baseDay !! i = Some (isoDate (sunday + Z.of_nat i))
  ∧ Some (getDayName (sunday + Z.of_nat i)) = dayMap !! i
  ∧ (sunday ≤ baseDay ≤ sunday + 6)%Z.
Proof.
  intros Htz Hi sunday.
  pose proof (Z.mod_pos_bound (baseDay + 4) 7 ltac:(lia)) as Hday.
  split; [|split].
  - unfold getWeekDays. cbv zeta.
    rewrite list_lookup_fmap, lookup_seq_lt by lia. simpl.
    do 2 f_equal.
    replace (baseDay * 1440 + 720 + tz - (baseDay + 4) `mod` 7 * 1440
             + Z.of_nat i * 1440)%Z
      with ((sunday + Z.of_nat i) * 1440 + (720 + tz))%Z
      by (unfold sunday; lia).
    apply utcDay_of_day. lia.
  - unfold getDayName.
    assert (E : ((sunday + Z.of_nat i + 4) `mod` 7 = Z.of_nat i)%Z).
    { pose proof (Z.div_mod (baseDay + 4) 7 ltac:(lia)) as Hdm.
      replace (sunday + Z.of_nat i + 4)%Z
        with (Z.of_nat i + (baseDay + 4) `div` 7 * 7)%Z
        by (unfold sunday; lia).
      rewrite Z.mod_add by lia. apply Z.mod_small. lia. }
    rewrite E, Nat2Z.id.
    do 7 (destruct i as [|i]; [reflexivity|]). lia.
  - unfold sunday. lia.
Qed.

Lemma week_days_of_base_date_witness :
  getWeekDays 180 19725 !! 3 = Some (isoDate (19722 + 3))
  ∧ Some (getDayName (19722 + 3)) = dayMap !! 3
  ∧ (19722 ≤ 19725 ≤ 19722 + 6)%Z.
Proof. apply (week_days_of_base_date 180 19725 3); lia. Defined.

(** ** The month grid *)

(** The days from 2000-01-01 to 2049-12-31, one by one. *)
Lemma first_of_month (d : Z) :
  (10957 ≤ d < 29220)%Z →
  ∃ y m dd, civilFromDays d = (y, m, dd)
    ∧ civilFromDays (daysFromCivil y m 1) = (y, m, 1%Z)
    ∧ (daysFromCivil y m 1 ≤ d ≤ daysFromCivil y m 1 + 30)%Z.
Proof.
  intros Hd.
  pose (P := λ d : Z,
          let '(y, m, dd) := civilFromDays d in
          let F := daysFromCivil y m 1 in
          let '(y', m', dd') := civilFromDays F in
          (y' =? y)%Z && (m' =? m)%Z && (dd' =? 1)%Z
          && (F <=? d)%Z && (d <=? F + 30)%Z).
  assert (H : P d = true).
  { apply (between_bounds 10957 29220 P); [|lia]. vm_compute. reflexivity. }
  unfold P in H.
  destruct (civilFromDays d) as [[y m] dd]. exists y, m, dd.
  split; [reflexivity|].
  destruct (civilFromDays (daysFromCivil y m 1)) as [[y' m'] dd'].
  rewrite !andb_true_iff in H. destruct H as ((((H1 & H2) & H3) & H4) & H5).
  split; [f_equal; [f_equal|]; lia | lia].
Qed.

Lemma generateMonthGrid_lookup (tzSelected : Z) (tz : Z → Z)
    (selectedDay : Z) (i : nat) :
  i < 42 →
  ∃ y m dd,
    civilFromDays (utcDay (selectedDay * 1440 - tzSelected)) = (y, m, dd)
    ∧ generateMonthGrid tzSelected tz selectedDay !! i
      = Some (isoDate (utcDay
          (localMidnight
             (daysFromCivil y m 1 - (daysFromCivil y m 1 + 4) `mod` 7
              + Z.of_nat i) tz))).
Proof.
  intros Hi. unfold generateMonthGrid.
  destruct (civilFromDays (utcDay (selectedDay * 1440 - tzSelected)))
    as [[y m] dd].
  exists y, m, dd. split; [reflexivity|].
  rewrite list_lookup_fmap, lookup_seq_lt by lia. reflexivity.
Qed.

Lemma generateMonthGrid_length tzSelected tz selectedDay :
  length (generateMonthGrid tzSelected tz selectedDay) = 42.
Proof.
  unfold generateMonthGrid.
  destruct (civilFromDays _) as [[y m] dd].
  by rewrite length_map, length_seq.
Qed.

Lemma utcDay_west (tz : Z → Z) (d : Z) :
  (0 ≤ tz d < 1440)%Z → utcDay (localMidnight d tz) = d.
Proof. intros H. unfold localMidnight. by apply utcDay_of_day. Qed.

Lemma utcDay_east (tz : Z → Z) (d : Z) :
  (-1440 ≤ tz d < 0)%Z → utcDay (localMidnight d tz) = (d - 1)%Z.
Proof.
  intros H. unfold localMidnight.
  replace (d * 1440 + tz d)%Z with ((d - 1) * 1440 + (1440 + tz d))%Z by lia.
  apply utcDay_of_day. lia.
Qed.

(** X8.  On a host at UTC, for a date from 2000 to 2049, the month grid
    holds the 42 dates that follow a Sunday; the first day of the month of
    the selected date is in its first row, and the selected date is in the
    grid. *)
Theorem month_grid_at_utc (selectedDay : Z) :
  (10957 ≤ selectedDay < 29220)%Z →
  ∃ start first y m dd,
    civilFromDays selectedDay = (y, m, dd)
    ∧ civilFromDays first = (y, m, 1%Z)
    ∧ getDayName start = "domingo"
    ∧ (start ≤ first ≤ start + 6)%Z
    ∧ (first ≤ selectedDay < start + 42)%Z
    ∧ ∀ i, i < 42 →
        generateMonthGrid 0 Sample.utc selectedDay !! i
        = Some (isoDate (start + Z.of_nat i)).
Proof.
  intros Hd.
  destruct (first_of_month selectedDay Hd) as (y & m & dd & Hc & Hf & Hr).
  set (F := daysFromCivil y m 1) in *.
  pose proof (Z.mod_pos_bound (F + 4) 7 ltac:(lia)) as Hday.
  exists (F - (F + 4) `mod` 7)%Z, F, y, m, dd.
  split; [exact Hc|]. split; [exact Hf|].
  split.
  { unfold getDayName.
    replace (F - (F + 4) `mod` 7 + 4)%Z with ((F + 4) `div` 7 * 7)%Z
      by (pose proof (Z.div_mod (F + 4) 7 ltac:(lia)); lia).
    rewrite Z.mod_mul by lia. reflexivity. }
  split; [lia|]. split; [lia|].
  intros i Hi.
  destruct (generateMonthGrid_lookup 0 Sample.utc selectedDay i Hi)
    as (y' & m' & dd' & Hc' & ->).
  replace (selectedDay * 1440 - 0)%Z with (selectedDay * 1440 + 0)%Z in Hc'
    by lia.
  rewrite utcDay_of_day in Hc' by lia.
  rewrite Hc in Hc'. injection Hc' as <- <- <-.
  rewrite utcDay_west by (unfold Sample.utc; lia). reflexivity.
Qed.

Lemma month_grid_at_utc_witness :
  ∃ start first y m dd,
    civilFromDays 19783 = (y, m, dd)
    ∧ civilFromDays first = (y, m, 1%Z)
    ∧ getDayName start = "domingo"
    ∧ (start ≤ first ≤ start + 6)%Z
    ∧ (first ≤ 19783 < start + 42)%Z
    ∧ ∀ i, i < 42 →
        generateMonthGrid 0 Sample.utc 19783 !! i
        = Some (isoDate (start + Z.of_nat i)).
Proof. apply month_grid_at_utc. lia. Defined.

(** X9.  On a host west of Greenwich the month grid of a date is the grid
    that a host at UTC shows for the day before: on the first day of a
    month the calendar shows the month that has ended.  The offset may
    change from day to day. *)
Theorem month_grid_west_is_yesterdays (tzSelected : Z) (tz : Z → Z)
    (selectedDay : Z) :
  (0 < tzSelected < 1440)%Z →
  (∀ d, 0 ≤ tz d < 1440)%Z →
  generateMonthGrid tzSelected tz selectedDay
  = generateMonthGrid 0 Sample.utc (selectedDay - 1).
Proof.
  intros Hsel Htz.
  apply list_eq. intros i.
  destruct (decide (i < 42)) as [Hi|Hi].
  - destruct (generateMonthGrid_lookup tzSelected tz selectedDay i Hi)
      as (y & m & dd & Hc & ->).
    destruct (generateMonthGrid_lookup 0 Sample.utc (selectedDay - 1) i Hi)
      as (y' & m' & dd' & Hc' & ->).
    replace (selectedDay * 1440 - tzSelected)%Z
      with ((selectedDay - 1) * 1440 + (1440 - tzSelected))%Z in Hc by lia.
    replace ((selectedDay - 1) * 1440 - 0)%Z
      with ((selectedDay - 1) * 1440 + 0)%Z in Hc' by lia.
    rewrite utcDay_of_day in Hc, Hc' by lia.
    rewrite Hc in Hc'. injection Hc' as <- <- <-.
    rewrite (utcDay_west tz) by apply Htz.
    rewrite (utcDay_west Sample.utc) by (unfold Sample.utc; lia).
    reflexivity.
  - rewrite !lookup_ge_None_2; [reflexivity|..];
      rewrite generateMonthGrid_length; lia.
Qed.

Lemma month_grid_west_is_yesterdays_witness :
  generateMonthGrid 180 Sample.brasilia 19783
  = generateMonthGrid 0 Sample.utc (19783 - 1)
  ∧ generateMonthGrid 180 Sample.brasilia 19783 !! 0 = Some "2024-01-28".
Proof.
  split; [|vm_compute; reflexivity].
  apply month_grid_west_is_yesterdays; [lia|].
  intros d. unfold Sample.brasilia. lia.
Defined.

(** Europe/London, October 2024: the grid crosses the end of summer time.
    Local midnight of 27 October is still in summer time and prints the
    26th, local midnight of the 28th prints the 28th, and no entry is the
    27th. *)
Lemma london_october_grid :
  let grid := generateMonthGrid (-60) SampleZone.london2024 20011 in
  grid !! 28 = Some "2024-10-26" ∧ grid !! 29 = Some "2024-10-28"
  ∧ "2024-10-27" ∉ grid.
Proof.
  split; [vm_compute; reflexivity|]. split; [vm_compute; reflexivity|].
  intros Hin. apply list_elem_of_In in Hin. vm_compute in Hin.
  repeat (destruct Hin as [Hin|Hin]; [discriminate Hin|]). exact Hin.
Qed.

(** X10.  On a host that is east of Greenwich at the selected instant and
    at every local midnight, every date of the month grid sits one place
    later than it sits on a host at UTC, and the grid opens on a
    Saturday.  A host that is at UTC for part of the grid, as London is
    across a change of clocks, is not such a host. *)
Theorem month_grid_east_is_shifted (tzSelected : Z) (tz : Z → Z)
    (selectedDay : Z) (i : nat) :
  (-1440 < tzSelected ≤ 0)%Z →
  (∀ d, -1440 ≤ tz d < 0)%Z →
  i < 41 →
  generateMonthGrid tzSelected tz selectedDay !! (S i)
  = generateMonthGrid 0 Sample.utc selectedDay !! i
  ∧ ∃ start,
      generateMonthGrid tzSelected tz selectedDay !! 0 = Some (isoDate start)
      ∧ getDayName start = "sabado".
Proof.
  intros Hsel Htz Hi.
  assert (Hlocal : utcDay (selectedDay * 1440 - tzSelected) = selectedDay).
  { replace (selectedDay * 1440 - tzSelected)%Z
      with (selectedDay * 1440 + (- tzSelected))%Z by lia.
    apply utcDay_of_day. lia. }
  assert (Hutc : utcDay (selectedDay * 1440 - 0) = selectedDay).
  { replace (selectedDay * 1440 - 0)%Z with (selectedDay * 1440 + 0)%Z by lia.
    apply utcDay_of_day. lia. }
  split.
  - destruct (generateMonthGrid_lookup tzSelected tz selectedDay (S i)
                ltac:(lia)) as (y & m & dd & Hc & ->).
    destruct (generateMonthGrid_lookup 0 Sample.utc selectedDay i ltac:(lia))
      as (y' & m' & dd' & Hc' & ->).
    rewrite Hlocal in Hc. rewrite Hutc in Hc'.
    rewrite Hc in Hc'. injection Hc' as <- <- <-.
    rewrite (utcDay_east tz) by apply Htz.
    rewrite (utcDay_west Sample.utc) by (unfold Sample.utc; lia).
    do 2 f_equal. lia.
  - destruct (generateMonthGrid_lookup tzSelected tz selectedDay 0 ltac:(lia))
      as (y & m & dd & Hc & ->).
    rewrite (utcDay_east tz) by apply Htz.
    set (F := daysFromCivil y m 1).
    eexists. split; [reflexivity|].
    unfold getDayName.
    replace (F - (F + 4) `mod` 7 + Z.of_nat 0 - 1 + 4)%Z
      with (6 + ((F + 4) `div` 7 - 1) * 7)%Z
      by (pose proof (Z.div_mod (F + 4) 7 ltac:(lia)); lia).
    rewrite Z.mod_add by lia. reflexivity.
Qed.

Lemma month_grid_east_is_shifted_witness :
  generateMonthGrid (-120) SampleZone.berlin2024 20011 !! 29
  = generateMonthGrid 0 Sample.utc 20011 !! 28
  ∧ ∃ start,
      generateMonthGrid (-120) SampleZone.berlin2024 20011 !! 0
        = Some (isoDate start)
      ∧ getDayName start = "sabado".
Proof.
  apply (month_grid_east_is_shifted (-120) SampleZone.berlin2024 20011 28);
    [lia| |lia].
  intros d. unfold SampleZone.berlin2024, SampleZone.london2024.
  destruct ((19814 <=? d) && (d <=? 20023))%Z; lia.
Defined.

(** ** The flashcard viewer *)

(** X11.  Presses on next made one at a time, each after the one before
    has taken effect, show card [i + k] modulo the size of the deck after
    [k] presses: the index stays in the deck and every card comes up in
    turn.  Two presses made within the 300 ms of the timer are another
    matter: from the card before the last, the second press still tests
    the old index and adds to the new one, and the index leaves the
    deck. *)
Theorem next_card_cycles (len i k : nat) :
  i < len →
  Nat.iter k (λ j, nextCard j j len) i = (i + k) `mod` len
  ∧ (2 ≤ len →
     nextCard (len - 2) (nextCard (len - 2) (len - 2) len) len = len).
Proof.
  intros Hi. split.
  - induction k as [|k IH].
    + simpl. rewrite Nat.add_0_r. symmetry. by apply Nat.mod_small.
    + simpl. rewrite IH. unfold nextCard.
      pose proof (Nat.div_mod_eq (i + k) len) as Hdm.
      pose proof (Nat.mod_upper_bound (i + k) len ltac:(lia)) as Hr.
      destruct (Nat.ltb_spec ((i + k) `mod` len) (len - 1)) as [Hlt|Hge].
      * apply (Nat.mod_unique _ _ ((i + k) `div` len)); lia.
      * apply (Nat.mod_unique _ _ (S ((i + k) `div` len))); lia.
  - intros Hlen. unfold nextCard.
    destruct (Nat.ltb_spec (len - 2) (len - 1)); lia.
Qed.

Lemma next_card_cycles_witness :
  Nat.iter 5 (λ j, nextCard j j 3) 2 = (2 + 5) `mod` 3
  ∧ (2 ≤ 3 → nextCard (3 - 2) (nextCard (3 - 2) (3 - 2) 3) 3 = 3).
Proof. apply next_card_cycles. lia. Defined.

Lemma prevCard_iter (len i n : nat) :
  0 < i → Nat.iter n (λ j, prevCard j len) i = i + n.
Proof.
  intros Hi. induction n as [|n IH]; simpl; [lia|].
  rewrite IH. unfold prevCard.
  destruct (Nat.ltb_spec 0 (i + n)); lia.
Qed.

(** X12.  Pressing previous never goes back a card: from any card but the
    first it moves one card forward, and from every card of a deck of two
    or more it reaches, within as many presses as the deck has cards, the
    index past the last card. *)
Theorem prev_card_walks_off (len i : nat) :
  2 ≤ len → i < len →
  (0 < i → prevCard i len = i + 1)
  ∧ ∃ k, k ≤ len ∧ Nat.iter k (λ j, prevCard j len) i = len.
Proof.
  intros Hlen Hi. split.
  - intros Hpos. unfold prevCard. destruct (Nat.ltb_spec 0 i); lia.
  - destruct i as [|i].
    + exists 2. split; [lia|]. simpl. unfold prevCard. simpl.
      destruct (Nat.ltb_spec 0 (len - 1)); lia.
    + exists (len - S i). split; [lia|].
      rewrite prevCard_iter by lia. lia.
Qed.

Lemma prev_card_walks_off_witness :
  (0 < 1 → prevCard 1 3 = 1 + 1)
  ∧ ∃ k, k ≤ 3 ∧ Nat.iter k (λ j, prevCard j 3) 1 = 3.
Proof. apply prev_card_walks_off; lia. Defined.

(** ** Grading an exam *)

Lemma pointsOf_app key l1 l2 :
  pointsOf key (l1 ++ l2) = (pointsOf key l1 + pointsOf key l2)%Z.
Proof.
  unfold pointsOf. induction l1 as [|i l1 IH]; simpl; [lia|].
  rewrite IH. lia.
Qed.

Lemma grade_bounds key answers (l : list nat) (score : Z) :
  (∀ i, i ∈ l → 0 ≤ questionValue key i)%Z →
  (score - pointsOf key l
   ≤ foldl (gradeQuestion key answers) score l
   ≤ score + pointsOf key l)%Z.
Proof.
  revert score. induction l as [|i l IH]; intros score Hpos; simpl; [lia|].
  assert (Hi : (0 ≤ questionValue key i)%Z) by (apply Hpos; left).
  assert (Hl : ∀ j, j ∈ l → (0 ≤ questionValue key j)%Z)
    by (intros j Hj; apply Hpos; by right).
  pose proof (IH (gradeQuestion key answers score i) Hl) as IH'.
  assert (Hstep : (score - questionValue key i
                   ≤ gradeQuestion key answers score i
                   ≤ score + questionValue key i)%Z).
  { unfold gradeQuestion. destruct (givenAnswer answers i); [|lia].
    case_bool_decide; [lia|]. destruct (AnswerKey.hasPenalty key); lia. }
  lia.
Qed.

Lemma grade_perfect key answers (l : list nat) (score : Z) :
  (∀ i, i ∈ l → ∃ a, a ≠ "" ∧ answers !! i = Some a
                  ∧ AnswerKey.correctAnswers key !! i = Some a) →
  foldl (gradeQuestion key answers) score l = (score + pointsOf key l)%Z.
Proof.
  revert score. induction l as [|i l IH]; intros score Hall; simpl; [lia|].
  rewrite IH by (intros j Hj; apply Hall; by right).
  destruct (Hall i ltac:(left)) as (a & Ha & Hans & Hkey).
  unfold gradeQuestion, givenAnswer. rewrite Hans. simpl.
  destruct (String.eqb_spec a ""); [done|].
  rewrite bool_decide_eq_true_2 by exact Hkey. lia.
Qed.

Lemma sum_values_perm (l1 l2 : list (nat * Z)) :
  l1 ≡ₚ l2 →
  foldr (λ kv acc, (kv.2 + acc)%Z) 0%Z l1
  = foldr (λ kv acc, (kv.2 + acc)%Z) 0%Z l2.
Proof. induction 1; simpl; lia. Qed.

Lemma sum_values_seq (m : gmap nat Z) (n : nat) :
  (∀ i, is_Some (m !! i) → 1 ≤ i ≤ n) →
  foldr (λ kv acc, (kv.2 + acc)%Z) 0%Z (map_to_list m)
  = foldr (λ i acc, (default 0%Z (m !! i) + acc)%Z) 0%Z (seq 1 n).
Proof.
  revert m. induction n as [|n IH]; intros m Hdom.
  - assert (m = ∅) as ->.
    { apply map_empty. intros i. destruct (m !! i) eqn:E; [|done].
      specialize (Hdom i ltac:(by eexists)). lia. }
    by rewrite map_to_list_empty.
  - rewrite seq_S, foldr_app. simpl.
    assert (Hshift : ∀ (l : list nat) (z : Z) (f : nat → Z),
              foldr (λ i acc, (f i + acc)%Z) z l
              = (foldr (λ i acc, (f i + acc)%Z) 0%Z l + z)%Z).
    { intros l z f. induction l as [|j l IHl]; simpl; lia. }
    rewrite Hshift.
    destruct (m !! S n) as [v|] eqn:E.
    + rewrite <- (insert_delete_id m (S n) v E) at 1.
      rewrite (sum_values_perm _ _
                 (map_to_list_insert (delete (S n) m) (S n) v
                    (lookup_delete_eq m (S n)))).
      simpl. rewrite (IH (delete (S n) m)).
      * assert (Hsame : ∀ l, (∀ j, j ∈ l → j ≠ S n) →
                  foldr (λ i acc, (default 0%Z (delete (S n) m !! i) + acc)%Z) 0%Z l
                  = foldr (λ i acc, (default 0%Z (m !! i) + acc)%Z) 0%Z l).
        { intros l Hl. induction l as [|j l IHl]; simpl; [done|].
          rewrite lookup_delete_ne
            by (intros <-; apply (Hl (S n)); [left|reflexivity]).
          rewrite IHl; [done|]. intros k Hk. apply Hl. by right. }
        rewrite Hsame; [lia|].
        intros j Hj. apply elem_of_seq in Hj. lia.
      * intros i [w Hw].
        destruct (decide (i = S n)) as [->|Hne];
          [by rewrite lookup_delete_eq in Hw|].
        rewrite lookup_delete_ne in Hw by done.
        specialize (Hdom i ltac:(by eexists)). lia.
    + simpl. rewrite (IH m); [lia|].
      intros i [w Hw].
      destruct (decide (i = S n)) as [->|Hne]; [congruence|].
      specialize (Hdom i ltac:(by eexists)). lia.
Qed.

Lemma pointsOf_nonneg key l :
  (∀ i, i ∈ l → 0 ≤ questionValue key i)%Z → (0 ≤ pointsOf key l)%Z.
Proof.
  unfold pointsOf. induction l as [|i l IH]; intros H; simpl; [lia|].
  pose proof (H i ltac:(left)).
  assert (0 ≤ foldr (λ i acc, questionValue key i + acc) 0%Z l)%Z
    by (apply IH; intros j Hj; apply H; by right).
  lia.
Qed.

Lemma pointsOf_pos key i l :
  (∀ j, j ∈ l → 0 < questionValue key j)%Z → i ∈ l →
  (0 < pointsOf key l)%Z.
Proof.
  intros Hpos Hi.
  apply list_elem_of_split in Hi as (l1 & l2 & ->).
  rewrite pointsOf_app.
  assert (0 ≤ pointsOf key l1)%Z.
  { apply pointsOf_nonneg. intros j Hj.
    apply Z.lt_le_incl, Hpos, elem_of_app. by left. }
  assert (0 ≤ pointsOf key l2)%Z.
  { apply pointsOf_nonneg. intros j Hj.
    apply Z.lt_le_incl, Hpos, elem_of_app. right. by right. }
  assert (0 < questionValue key i)%Z.
  { apply Hpos, elem_of_app. right. left. }
  change (pointsOf key (i :: l2))
    with (questionValue key i + pointsOf key l2)%Z. lia.
Qed.

Lemma questionValue_complete key i :
  CompleteKey key → 1 ≤ i ≤ AnswerKey.totalQuestions key →
  ∃ v, AnswerKey.questionValues key !! i = Some v ∧ (0 < v)%Z
    ∧ questionValue key i = v.
Proof.
  intros [Hdom Hpos] Hi. destruct (proj2 (Hdom i) Hi) as [v Hv].
  exists v. split; [exact Hv|]. split; [by eapply Hpos|].
  unfold questionValue. rewrite Hv.
  pose proof (Hpos i v Hv). destruct (Z.eqb_spec v 0); lia.
Qed.

Lemma totalPoints_complete key :
  CompleteKey key →
  totalPoints key = pointsOf key (seq 1 (AnswerKey.totalQuestions key)).
Proof.
  intros Hkey. unfold totalPoints.
  rewrite (sum_values_seq _ (AnswerKey.totalQuestions key))
    by (intros i Hi; by apply Hkey).
  assert (Hsame : ∀ l, (∀ j, j ∈ l → 1 ≤ j ≤ AnswerKey.totalQuestions key) →
            foldr (λ i acc,
                     (default 0%Z (AnswerKey.questionValues key !! i) + acc)%Z)
              0%Z l
            = pointsOf key l).
  { intros l Hl. unfold pointsOf.
    induction l as [|j l IHl]; simpl; [done|].
    destruct (questionValue_complete key j Hkey (Hl j ltac:(left)))
      as (v & Hv & _ & ->).
    rewrite Hv. simpl. rewrite IHl; [done|]. intros k Hk. apply Hl. by right. }
  rewrite Hsame by (intros j Hj; apply elem_of_seq in Hj; lia).
  destruct (AnswerKey.totalQuestions key) as [|n] eqn:En; [reflexivity|].
  assert (0 < pointsOf key (seq 1 (S n)))%Z.
  { apply (pointsOf_pos key 1).
    - intros j Hj. apply elem_of_seq in Hj.
      destruct (questionValue_complete key j Hkey ltac:(lia))
        as (v & _ & Hv & ->). exact Hv.
    - apply elem_of_seq. lia. }
  destruct (Z.eqb_spec (pointsOf key (seq 1 (S n))) 0); [lia|reflexivity].
Qed.

Lemma totalPoints_empty key :
  AnswerKey.questionValues key = ∅ →
  totalPoints key = pointsOf key (seq 1 (AnswerKey.totalQuestions key))
  ∧ ∀ i, questionValue key i = 1%Z.
Proof.
  intros Hempty.
  assert (Hone : ∀ i, questionValue key i = 1%Z).
  { intros i. unfold questionValue. by rewrite Hempty, lookup_empty. }
  split; [|exact Hone].
  unfold totalPoints. rewrite Hempty, map_to_list_empty. simpl.
  generalize 1 at 1. unfold pointsOf.
  induction (AnswerKey.totalQuestions key) as [|n IH]; intros k;
    [reflexivity|].
  cbn [seq foldr]. rewrite Hone, <- IH. lia.
Qed.

Lemma table_values_nonneg key :
  CompleteKey key ∨ AnswerKey.questionValues key = ∅ →
  totalPoints key = pointsOf key (seq 1 (AnswerKey.totalQuestions key))
  ∧ ∀ i, i ∈ seq 1 (AnswerKey.totalQuestions key) →
      (0 ≤ questionValue key i)%Z.
Proof.
  intros [Hkey|Hempty].
  - split; [by apply totalPoints_complete|].
    intros i Hi. apply elem_of_seq in Hi.
    destruct (questionValue_complete key i Hkey ltac:(lia))
      as (v & _ & Hv & ->). lia.
  - destruct (totalPoints_empty key Hempty) as [Ht Hone].
    split; [exact Ht|]. intros i _. rewrite Hone. lia.
Qed.

(** X13.  When the value table gives a positive value to exactly the
    questions of the exam, or is empty, the score of any answer sheet lies
    between zero and the total of points, with or without penalty. *)
Theorem score_within_total key answers :
  CompleteKey key ∨ AnswerKey.questionValues key = ∅ →
  (0 ≤ finishScore key answers ≤ totalPoints key)%Z.
Proof.
  intros Hkey. destruct (table_values_nonneg key Hkey) as [-> Hpos].
  unfold finishScore.
  pose proof (grade_bounds key answers _ 0%Z Hpos) as Hb.
  pose proof (pointsOf_nonneg key _ Hpos) as Hn.
  cbv zeta.
  destruct (Z.ltb_spec
              (foldl (gradeQuestion key answers) 0%Z
                 (seq 1 (AnswerKey.totalQuestions key))) 0); lia.
Qed.

(** X14.  Under the same condition on the value table, a sheet that gives
    the answer of the key to every question scores the total of points. *)
Theorem perfect_sheet_scores_total key answers :
  CompleteKey key ∨ AnswerKey.questionValues key = ∅ →
  PerfectSheet key answers →
  finishScore key answers = totalPoints key.
Proof.
  intros Hkey Hperfect. destruct (table_values_nonneg key Hkey) as [-> Hpos].
  unfold finishScore.
  rewrite grade_perfect
    by (intros i Hi; apply Hperfect; apply elem_of_seq in Hi; lia).
  pose proof (pointsOf_nonneg key _ Hpos) as Hn.
  cbv zeta.
  destruct (Z.ltb_spec
              (0 + pointsOf key (seq 1 (AnswerKey.totalQuestions key))) 0);
    lia.
Qed.

Lemma sampleKey_complete : CompleteKey SampleExam.key.
Proof.
  split.
  - intros i. unfold SampleExam.key.
    cbn [AnswerKey.questionValues AnswerKey.totalQuestions].
    destruct (decide (i = 1)) as [->|H1]; [split; [lia|by eexists]|].
    destruct (decide (i = 2)) as [->|H2]; [split; [lia|by eexists]|].
    rewrite lookup_insert_ne, lookup_singleton_ne by done.
    split; [intros [? ?]; done | lia].
  - intros i v. unfold SampleExam.key.
    cbn [AnswerKey.questionValues AnswerKey.totalQuestions].
    destruct (decide (i = 1)) as [->|H1];
      [rewrite lookup_insert_eq; intros [= <-]; lia|].
    destruct (decide (i = 2)) as [->|H2];
      [rewrite lookup_insert_ne, lookup_singleton_eq by done;
       intros [= <-]; lia|].
    rewrite lookup_insert_ne, lookup_singleton_ne by done. done.
Qed.

Lemma allRight_perfect key :
  AnswerKey.totalQuestions key = 2 →
  AnswerKey.correctAnswers key = {[ 1 := "A"; 2 := "B" ]} →
  PerfectSheet key SampleExam.allRight.
Proof.
  intros Hn Hc i Hi. rewrite Hn in Hi. rewrite Hc.
  destruct (decide (i = 1)) as [->|H1]; [by exists "A"|].
  assert (i = 2) as -> by lia. by exists "B".
Qed.

Lemma score_within_total_witness :
  (0 ≤ finishScore SampleExam.key SampleExam.oneWrong
   ≤ totalPoints SampleExam.key)%Z.
Proof. apply score_within_total. left. exact sampleKey_complete. Defined.

Lemma perfect_sheet_scores_total_witness :
  finishScore SampleExam.key SampleExam.allRight
  = totalPoints SampleExam.key.
Proof.
  apply perfect_sheet_scores_total.
  - left. exact sampleKey_complete.
  - by apply allRight_perfect.
Defined.

Lemma table_sum_below_points key (l : list nat) :
  (∀ i v, AnswerKey.questionValues key !! i = Some v → (0 < v)%Z) →
  (foldr (λ i acc, (default 0%Z (AnswerKey.questionValues key !! i) + acc)%Z)
     0%Z l
   ≤ pointsOf key l)%Z.
Proof.
  intros Hpos. unfold pointsOf.
  induction l as [|i l IH]; simpl; [lia|].
  unfold questionValue at 1.
  destruct (AnswerKey.questionValues key !! i) as [v|] eqn:E; simpl.
  - pose proof (Hpos i v E). destruct (Z.eqb_spec v 0); lia.
  - lia.
Qed.

Lemma table_sum_app (m : gmap nat Z) (l1 l2 : list nat) :
  foldr (λ i acc, (default 0%Z (m !! i) + acc)%Z) 0%Z (l1 ++ l2)
  = (foldr (λ i acc, (default 0%Z (m !! i) + acc)%Z) 0%Z l1
     + foldr (λ i acc, (default 0%Z (m !! i) + acc)%Z) 0%Z l2)%Z.
Proof. induction l1 as [|i l1 IH]; simpl; [lia|]. rewrite IH. lia. Qed.



(** ** The ranking of an exam *)

Lemma updateBest_fresh best a :
  Attempt.userId a ∉ map fst best →
  updateBest best a = (best ++ [(Attempt.userId a, a)])%list.
Proof.
  induction best as [|[u e] best IH]; intros Hnew; simpl; [reflexivity|].
  simpl in Hnew. apply not_elem_of_cons in Hnew as [Hne Hnew].
  destruct (String.eqb_spec u (Attempt.userId a)) as [->|_]; [done|].
  by rewrite IH.
Qed.

Lemma updateBest_keys best a :
  Attempt.userId a ∈ map fst best →
  map fst (updateBest best a) = map fst best.
Proof.
  induction best as [|[u e] best IH]; intros Hin; simpl.
  - by apply elem_of_nil in Hin.
  - destruct (String.eqb_spec u (Attempt.userId a)) as [->|Hne].
    + by destruct (Attempt.score e <? Attempt.score a)%Z.
    + simpl. f_equal. apply IH.
      simpl in Hin. apply elem_of_cons in Hin as [Heq|Hin]; [done|exact Hin].
Qed.

Lemma updateBest_elem best a u e :
  (u, e) ∈ updateBest best a →
  (u, e) ∈ best ∨ (u = Attempt.userId a ∧ e = a).
Proof.
  induction best as [|[u0 e0] best IH]; simpl.
  - intros Hin. apply list_elem_of_singleton in Hin as [= -> ->]. by right.
  - destruct (String.eqb_spec u0 (Attempt.userId a)) as [->|Hne].
    + destruct (Attempt.score e0 <? Attempt.score a)%Z; [|by left].
      intros Hin. apply elem_of_cons in Hin as [[= -> ->]|Hin];
        [by right | left; by right].
    + intros Hin. apply elem_of_cons in Hin as [[= -> ->]|Hin];
        [left; left|].
      destruct (IH Hin) as [H|H]; [left; by right | by right].
Qed.

Lemma updateBest_other best a u e :
  (u, e) ∈ best → u ≠ Attempt.userId a → (u, e) ∈ updateBest best a.
Proof.
  induction best as [|[u0 e0] best IH]; intros Hin Hne; simpl.
  - by apply elem_of_nil in Hin.
  - apply elem_of_cons in Hin as [[= <- <-]|Hin].
    + destruct (String.eqb_spec u (Attempt.userId a)); [done|left].
    + destruct (String.eqb_spec u0 (Attempt.userId a)) as [->|_].
      * destruct (Attempt.score e0 <? Attempt.score a)%Z; by right.
      * right. by apply IH.
Qed.

Lemma updateBest_same best a e :
  NoDup (map fst best) →
  (Attempt.userId a, e) ∈ best →
  ∃ e', (Attempt.userId a, e') ∈ updateBest best a
    ∧ (Attempt.score e ≤ Attempt.score e')%Z
    ∧ (Attempt.score a ≤ Attempt.score e')%Z.
Proof.
  induction best as [|[u0 e0] best IH]; intros Hnd Hin; simpl.
  - by apply elem_of_nil in Hin.
  - simpl in Hnd. apply NoDup_cons in Hnd as [Hfresh Hnd].
    destruct (String.eqb_spec u0 (Attempt.userId a)) as [->|Hne].
    + assert (e = e0) as ->.
      { apply elem_of_cons in Hin as [[= ->]|Hin]; [done|].
        exfalso. apply Hfresh.
        apply (list_elem_of_fmap_2 fst) in Hin. exact Hin. }
      destruct (Z.ltb_spec (Attempt.score e0) (Attempt.score a)).
      * exists a. split; [left|lia].
      * exists e0. split; [left|lia].
    + apply elem_of_cons in Hin as [[= <- _]|Hin]; [done|].
      destruct (IH Hnd Hin) as (e' & He' & Hle).
      exists e'. split; [by right|exact Hle].
Qed.

Lemma bestOf_snoc l best a :
  BestOf l best → BestOf (l ++ [a])%list (updateBest best a).
Proof.
  intros (Hnd & Hown & Hbest).
  destruct (decide (Attempt.userId a ∈ map fst best)) as [Hin|Hnew].
  - split; [by rewrite updateBest_keys|]. split.
    + intros u e He. apply updateBest_elem in He as [He|[-> ->]].
      * destruct (Hown u e He) as [Hu Hl]. split; [exact Hu|].
        apply elem_of_app. by left.
      * split; [reflexivity|]. apply elem_of_app. right. left.
    + apply list_elem_of_fmap in Hin as ([u0 e0] & Hu0 & He0).
      simpl in Hu0. subst u0.
      destruct (updateBest_same best a e0 Hnd He0) as (e' & He' & Hle & Hle').
      intros b Hb. apply elem_of_app in Hb as [Hb|Hb].
      * destruct (Hbest b Hb) as (e & He & Hbe).
        destruct (decide (Attempt.userId b = Attempt.userId a)) as [Heq|Hne].
        -- rewrite Heq in He |- *.
           destruct (updateBest_same best a e Hnd He) as (e2 & He2 & H1 & H2).
           exists e2. split; [exact He2|lia].
        -- exists e. split; [by apply updateBest_other|exact Hbe].
      * apply list_elem_of_singleton in Hb as ->.
        exists e'. split; [exact He'|exact Hle'].
  - rewrite updateBest_fresh by exact Hnew. split; [|split].
    + rewrite map_app. simpl. apply NoDup_app. split; [exact Hnd|].
      split; [|apply NoDup_singleton].
      intros u Hu Hu'. apply list_elem_of_singleton in Hu' as ->. done.
    + intros u e He. apply elem_of_app in He as [He|He].
      * destruct (Hown u e He) as [Hu Hl]. split; [exact Hu|].
        apply elem_of_app. by left.
      * apply list_elem_of_singleton in He as [= -> ->].
        split; [reflexivity|]. apply elem_of_app. right. left.
    + intros b Hb. apply elem_of_app in Hb as [Hb|Hb].
      * destruct (Hbest b Hb) as (e & He & Hbe).
        exists e. split; [apply elem_of_app; by left|exact Hbe].
      * apply list_elem_of_singleton in Hb as ->.
        exists a. split; [apply elem_of_app; right; left|lia].
Qed.

Lemma bestOf_foldl (l0 l : list Attempt.t) best :
  BestOf l0 best → BestOf (l0 ++ l)%list (foldl updateBest best l).
Proof.
  revert l0 best. induction l as [|a l IH]; intros l0 best H; simpl.
  - by rewrite app_nil_r.
  - replace (l0 ++ a :: l)%list with ((l0 ++ [a]) ++ l)%list
      by (by rewrite <- app_assoc).
    apply IH. by apply bestOf_snoc.
Qed.

Lemma bestOf_all (l : list Attempt.t) : BestOf l (foldl updateBest [] l).
Proof.
  apply (bestOf_foldl [] l []).
  split; [apply NoDup_nil_2|]. split.
  - intros u e H. by apply elem_of_nil in H.
  - intros a H. by apply elem_of_nil in H.
Qed.

Lemma insertBy_sorted {A} (key : A → Z) (x : A) (l : list A) :
  Ascending key l → Ascending key (insertBy key x l).
Proof.
  induction l as [|y l IH]; simpl.
  - intros _. split; [constructor|exact I].
  - intros [Hy Hs]. destruct (Z.ltb_spec (key y) (key x)).
    + split; [|by apply IH].
      rewrite (insertBy_perm key x l). constructor; [lia|exact Hy].
    + split; [|by split].
      constructor; [lia|].
      eapply Forall_impl; [exact Hy|]. intros z Hz. simpl in Hz. lia.
Qed.

Lemma sortBy_sorted {A} (key : A → Z) (l : list A) :
  Ascending key (sortBy key l).
Proof.
  unfold sortBy. induction l as [|x l IH]; simpl; [exact I|].
  by apply insertBy_sorted.
Qed.

Lemma sorted_lookup {A} (key : A → Z) (l : list A) i j a b :
  Ascending key l → i < j → l !! i = Some a → l !! j = Some b →
  (key a ≤ key b)%Z.
Proof.
  revert i j. induction l as [|x l IH]; intros i j Hs Hij Hi Hj.
  - by rewrite lookup_nil in Hi.
  - destruct Hs as [Hx Hs].
    destruct j as [|j]; [lia|]. simpl in Hj.
    destruct i as [|i].
    + simpl in Hi. injection Hi as ->.
      rewrite Forall_forall in Hx. apply Hx.
      by apply list_elem_of_lookup_2 in Hj.
    + simpl in Hi. apply (IH i j); [done|lia|done..].
Qed.

Lemma ranking_lookup allAttempts simuladoId attempt userId allUsersMap i r :
  ranking true allAttempts simuladoId attempt userId allUsersMap !! i
    = Some r →
  ∃ a,
    sortBy (λ a, (- Attempt.score a)%Z)
      (map snd (foldl updateBest []
                  (finalAttempts allAttempts simuladoId attempt))) !! i
      = Some a
    ∧ r = RankRow.mk (i + 1) (Attempt.userId a)
            (displayName allUsersMap (Attempt.userId a)) (Attempt.score a)
            (String.eqb (Attempt.userId a) userId).
Proof.
  unfold ranking. simpl. rewrite list_lookup_imap.
  destruct (sortBy _ _ !! i) as [a|]; simpl; [|done].
  intros [= <-]. by exists a.
Qed.

Lemma ranking_users allAttempts simuladoId attempt userId allUsersMap :
  map RankRow.userId
    (ranking true allAttempts simuladoId attempt userId allUsersMap)
  = map Attempt.userId
      (sortBy (λ a, (- Attempt.score a)%Z)
         (map snd (foldl updateBest []
                     (finalAttempts allAttempts simuladoId attempt)))).
Proof.
  unfold ranking. simpl.
  generalize (sortBy (λ a, (- Attempt.score a)%Z)
                (map snd (foldl updateBest []
                            (finalAttempts allAttempts simuladoId attempt)))).
  intros l. apply list_eq. intros i.
  rewrite !list_lookup_fmap, list_lookup_imap.
  by destruct (l !! i).
Qed.


(** X17.  The rows of the ranking are numbered from one in the order of
    the list, and no row has a higher score than a row before it. *)
Theorem ranking_is_ordered allAttempts simuladoId attempt userId allUsersMap
    (i j : nat) r r' :
  i ≤ j →
  ranking true allAttempts simuladoId attempt userId allUsersMap !! i
    = Some r →
  ranking true allAttempts simuladoId attempt userId allUsersMap !! j
    = Some r' →
  RankRow.rank r = i + 1 ∧ RankRow.rank r' = j + 1
  ∧ (RankRow.score r' ≤ RankRow.score r)%Z.
Proof.
  intros Hij Hi Hj.
  apply ranking_lookup in Hi as (a & Ha & ->).
  apply ranking_lookup in Hj as (b & Hb & ->). simpl.
  split; [reflexivity|]. split; [reflexivity|].
  destruct (decide (i = j)) as [->|Hne].
  - rewrite Ha in Hb. injection Hb as ->. lia.
  - pose proof (sorted_lookup _ _ i j a b
                  (sortBy_sorted (λ a, (- Attempt.score a)%Z) _)
                  ltac:(lia) Ha Hb) as H.
    simpl in H. lia.
Qed.

Lemma ranking_is_ordered_witness :
  ∃ r r', RankRow.rank r = 0 + 1 ∧ RankRow.rank r' = 1 + 1
    ∧ (RankRow.score r' ≤ RankRow.score r)%Z
    ∧ RankRow.userId r = "bia" ∧ RankRow.userId r' = "ana".
Proof.
  eexists _, _.
  pose proof (ranking_is_ordered SampleRanking.allAttempts "s1"
                (Some SampleRanking.a3) "ana" SampleRanking.users 0 1 _ _
                ltac:(lia) eq_refl eq_refl) as (H1 & H2 & H3).
  split; [exact H1|]. split; [exact H2|]. split; [exact H3|].
  split; reflexivity.
Defined.

(** * Progress and plan handlers *)

(** ** The list of completed goals *)

Lemma includes_spec (gid : string) (l : list string) :
  existsb (String.eqb gid) l = true ↔ gid ∈ l.
Proof.
  rewrite existsb_exists. split.
  - intros (x & Hx & Heq). apply String.eqb_eq in Heq as ->.
    by apply list_elem_of_In.
  - intros Hin. exists gid. split; [by apply list_elem_of_In|].
    apply String.eqb_refl.
Qed.

Lemma without_spec (gid other : string) (l : list string) :
  other ∈ List.filter (λ id, negb (String.eqb id gid)) l
  ↔ other ∈ l ∧ other ≠ gid.
Proof.
  rewrite !list_elem_of_In, filter_In, negb_true_iff.
  split; intros [H1 H2]; (split; [exact H1|]).
  - intros ->. by rewrite String.eqb_refl in H2.
  - by apply String.eqb_neq.
Qed.

Lemma without_NoDup (gid : string) (l : list string) :
  NoDup l → NoDup (List.filter (λ id, negb (String.eqb id gid)) l).
Proof.
  induction 1 as [|x l Hx Hnd IH]; simpl; [constructor|].
  destruct (negb (String.eqb x gid)); [|exact IH].
  constructor; [|exact IH].
  intros Hin. apply without_spec in Hin as [Hin _]. done.
Qed.

Lemma snoc_NoDup (gid : string) (l : list string) :
  NoDup l → gid ∉ l → NoDup (l ++ [gid])%list.
Proof.
  intros Hnd Hnew. apply NoDup_app. split; [exact Hnd|].
  split; [|apply NoDup_singleton].
  intros x Hx Hx'. apply list_elem_of_singleton in Hx' as ->. done.
Qed.

(** X18.  A confirmed toggle flips the goal: it is in the new list exactly
    when it was not in the old one, and all its earlier entries are gone.
    Every other id keeps its place in or out of the list. *)
Theorem toggle_flips_one_goal (completedGoalIds : list string)
    (gid other : string) (confirmed : bool) :
  other ≠ gid →
  (gid ∈ toggleGoalComplete completedGoalIds gid true
   ↔ gid ∉ completedGoalIds)
  ∧ (other ∈ toggleGoalComplete completedGoalIds gid confirmed
     ↔ other ∈ completedGoalIds).
Proof.
  intros Hne. unfold toggleGoalComplete.
  destruct (existsb (String.eqb gid) completedGoalIds) eqn:E.
  - apply includes_spec in E. split.
    + rewrite without_spec. split; [by intros [_ ?]|done].
    + rewrite without_spec. split; [by intros [? _]|done].
  - assert (Hout : gid ∉ completedGoalIds).
    { intros Hin. apply includes_spec in Hin. congruence. }
    split.
    + split; [done|]. intros _. apply elem_of_app. right. left.
    + destruct confirmed; [|done].
      rewrite elem_of_app, list_elem_of_singleton. split; [|by left].
      intros [H|H]; done.
Qed.

Lemma toggle_flips_one_goal_witness :
  ("g1" ∈ toggleGoalComplete ["g1"; "g2"; "g1"] "g1" true
   ↔ "g1" ∉ ["g1"; "g2"; "g1"])
  ∧ ("g2" ∈ toggleGoalComplete ["g1"; "g2"; "g1"] "g1" false
     ↔ "g2" ∈ ["g1"; "g2"; "g1"]).
Proof. apply toggle_flips_one_goal. done. Defined.

(** X19.  None of the handlers that write the list of completed goals
    (the toggle, the end of a study session, the plan actions) makes an id
    occur twice in it. *)
Theorem completed_ids_stay_distinct (progress : Progress.t)
    (gid : string) (confirmed : bool) (timerSeconds : Z)
    (currentPlanId activeGoalId : option string) (comp : bool)
    (today : Z) (action : PlanAction)
    (planConfigs : gmap string PlanConfig.t) :
  NoDup (Progress.completedGoalIds progress) →
  NoDup (toggleGoalComplete (Progress.completedGoalIds progress) gid confirmed)
  ∧ NoDup (Progress.completedGoalIds
             (saveStudyTime progress timerSeconds currentPlanId activeGoalId
                comp))
  ∧ NoDup (handlePlanAction today currentPlanId action planConfigs
             (Progress.completedGoalIds progress)).2.
Proof.
  intros Hnd. split; [|split].
  - unfold toggleGoalComplete.
    destruct (existsb _ _) eqn:E; [by apply without_NoDup|].
    destruct confirmed; [|exact Hnd].
    apply snoc_NoDup; [exact Hnd|].
    intros Hin. apply includes_spec in Hin. congruence.
  - unfold saveStudyTime. simpl.
    destruct (truthy activeGoalId) as [g|]; [|exact Hnd].
    destruct comp; simpl; [|exact Hnd].
    destruct (existsb _ _) eqn:E; simpl; [exact Hnd|].
    apply snoc_NoDup; [exact Hnd|].
    intros Hin. apply includes_spec in Hin. congruence.
  - unfold handlePlanAction.
    destruct currentPlanId as [id|]; [|exact Hnd].
    destruct action; simpl; [exact Hnd..|constructor].
Qed.

Lemma completed_ids_stay_distinct_witness :
  NoDup (toggleGoalComplete ["g1"; "g2"] "g3" true)
  ∧ NoDup (Progress.completedGoalIds
             (saveStudyTime (Progress.mk ["g1"; "g2"] 100 ∅) 60 (Some "p1")
                (Some "g2") true))
  ∧ NoDup (handlePlanAction Sample.monday (Some "p1") pause ∅
             ["g1"; "g2"]).2.
Proof.
  apply (completed_ids_stay_distinct (Progress.mk ["g1"; "g2"] 100 ∅)).
  simpl. apply NoDup_cons. split; [|apply NoDup_singleton].
  intros H. by apply list_elem_of_singleton in H.
Defined.

(** X20.  Once a goal is marked as completed through the toggle, the
    agenda that the dashboard computes holds no goal item of that goal. *)
Theorem marked_goal_leaves_agenda calc tz today currentPlan routine
    planConfigs completedGoalIds level simuladoClasses attempts gid k items
    it :
  gid ∉ completedGoalIds →
  dashboardSchedule calc tz today currentPlan routine planConfigs
    (toggleGoalComplete completedGoalIds gid true) level simuladoClasses
    attempts !! k = Some items →
  it ∈ items →
  isSimuladoItem it = false →
  ScheduledItem.goalId it ≠ gid.
Proof.
  intros Hout Ha Hin Hgoal.
  unfold dashboardSchedule in Ha.
  destruct currentPlan as [[id plan]|]; [|by rewrite lookup_empty in Ha].
  destruct (hasAvailability routine); [|by rewrite lookup_empty in Ha].
  cbv zeta in Ha.
  apply agenda_origin in Ha as (p & ptrs & _ & Ho & _).
  rewrite Forall_forall in Ho. specialize (Ho _ Hin).
  destruct Ho as [c cycle ci did queue i q ptr _ _ _ _ _ _ Hnc _ _|];
    [|done].
  apply isCompletedGoal_false in Hnc. simpl. intros Heq. apply Hnc.
  rewrite Heq.
  unfold toggleGoalComplete.
  destruct (existsb _ _) eqn:E.
  - apply includes_spec in E. done.
  - apply elem_of_app. right. left.
Qed.

Lemma marked_goal_leaves_agenda_witness :
  ScheduledItem.goalId
    (goalItem Sample.rule30 iniciante "2024-01-01" "c1" "d1"
       (Sample.queued Sample.g2))
  ≠ "g1".
Proof.
  refine (marked_goal_leaves_agenda Sample.rule30 Sample.brasilia
            Sample.monday (Some ("p1", Sample.plan1)) Sample.mondays60
            SampleDashboard.configs [] None [] [] "g1" "2024-01-01"
            [goalItem Sample.rule30 iniciante "2024-01-01" "c1" "d1"
               (Sample.queued Sample.g2);
             goalItem Sample.rule30 iniciante "2024-01-01" "c1" "d1"
               (Sample.queued Sample.g3)] _ _ _ _ _).
  - apply not_elem_of_nil.
  - vm_compute. reflexivity.
  - left.
  - reflexivity.
Defined.

(** ** Pausing, switching and restarting plans *)

(** X21.  Pausing a plan that is running empties the agenda of the
    dashboard, and a second press on the same day brings back the agenda
    that was there before the first. *)
Theorem pause_and_resume calc tz today id plan routine planConfigs
    completedGoalIds level simuladoClasses attempts :
  let agendaWith configs :=
    dashboardSchedule calc tz today (Some (id, plan)) routine configs
      completedGoalIds level simuladoClasses attempts in
  let once :=
    (handlePlanAction today (Some id) pause planConfigs completedGoalIds).1 in
  let twice :=
    (handlePlanAction today (Some id) pause once completedGoalIds).1 in
  ((∀ c, planConfigs !! id = Some c → PlanConfig.isPaused c = false) →
   agendaWith once = ∅)
  ∧ agendaWith twice = agendaWith planConfigs.
Proof.
  intros agendaWith once twice. split.
  - intros Hrun. unfold agendaWith, dashboardSchedule, once, handlePlanAction.
    destruct (hasAvailability routine); [|reflexivity].
    cbn [fst]. rewrite lookup_insert_eq. simpl.
    destruct (planConfigs !! id) as [c|] eqn:E; simpl;
      [rewrite (Hrun c eq_refl)|]; reflexivity.
  - unfold agendaWith, dashboardSchedule, twice, once, handlePlanAction.
    destruct (hasAvailability routine); [|reflexivity].
    cbn [fst]. rewrite !lookup_insert_eq. simpl.
    destruct (planConfigs !! id) as [[start paused]|] eqn:E; simpl.
    + by rewrite negb_involutive.
    + reflexivity.
Qed.

Lemma pause_and_resume_witness :
  dashboardSchedule Sample.rule30 Sample.brasilia Sample.monday
    (Some ("p1", Sample.plan1)) Sample.mondays60
    (handlePlanAction Sample.monday (Some "p1") pause SampleDashboard.configs
       []).1
    [] None [] [] = ∅.
Proof.
  refine (proj1 (pause_and_resume Sample.rule30 Sample.brasilia Sample.monday
                   "p1" Sample.plan1 Sample.mondays60 SampleDashboard.configs
                   [] None [] []) _).
  intros c. unfold SampleDashboard.configs. rewrite lookup_singleton_eq.
  by intros [= <-].
Defined.



(** ** Late goals *)

Lemma agenda_never_completed calc tz plan routine startDay completedGoals
    userLevel isPaused allSimulados userAttempts k items it :
  generateSchedule calc tz plan routine startDay completedGoals userLevel
    isPaused allSimulados userAttempts !! k = Some items →
  it ∈ items →
  ScheduledItem.completed it = false.
Proof.
  intros Ha Hin.
  apply agenda_origin in Ha as (p & ptrs & _ & Ho & _).
  rewrite Forall_forall in Ho. specialize (Ho _ Hin).
  by destruct Ho.
Qed.

(** X23.  No item of the agenda is ever marked as completed.  So every
    list of the agenda dated before today counts as late in the calendar,
    and the late list of the daily view holds every item of every such
    list. *)
Theorem past_days_are_all_late calc tz plan routine startDay completedGoals
    userLevel isPaused allSimulados userAttempts todayStr k items it :
  let agenda :=
    generateSchedule calc tz plan routine startDay completedGoals userLevel
      isPaused allSimulados userAttempts in
  agenda !! k = Some items →
  (∀ i, i ∈ items → ScheduledItem.completed i = false)
  ∧ hasLateGoals k todayStr items = String.ltb k todayStr
  ∧ (it ∈ lateItems (map_to_list agenda) todayStr
     ↔ ∃ k' items', agenda !! k' = Some items'
         ∧ String.ltb k' todayStr = true ∧ it ∈ items').
Proof.
  intros agenda Ha.
  assert (Hnone : ∀ k' items' i, agenda !! k' = Some items' → i ∈ items' →
            ScheduledItem.completed i = false).
  { intros k' items' i Hk Hi. by eapply agenda_never_completed. }
  split; [intros i Hi; by eapply Hnone|]. split.
  - unfold hasLateGoals.
    destruct (String.ltb k todayStr); [|reflexivity]. simpl.
    pose proof Ha as Hne.
    apply generateSchedule_lookup in Hne as (_ & _ & _ & _ & _ & _ & Hne & _).
    destruct items as [|i items]; [done|]. simpl.
    by rewrite (Hnone k _ i Ha ltac:(left)).
  - unfold lateItems. rewrite list_elem_of_In, in_flat_map. split.
    + intros ([k' items'] & Hin & Hit). simpl in Hit.
      apply filter_In in Hin as [Hin Hlt]. simpl in Hlt.
      apply filter_In in Hit as [Hit _].
      apply list_elem_of_In, elem_of_map_to_list in Hin.
      exists k', items'. split; [exact Hin|]. split; [exact Hlt|].
      by apply list_elem_of_In.
    + intros (k' & items' & Hk & Hlt & Hit).
      exists (k', items'). split.
      * apply filter_In. split; [|exact Hlt].
        by apply list_elem_of_In, elem_of_map_to_list.
      * apply filter_In. split; [by apply list_elem_of_In|].
        simpl. by rewrite (Hnone k' items' it Hk Hit).
Qed.

Lemma past_days_are_all_late_witness :
  hasLateGoals "2024-01-01" "2024-01-02" Sample.goalThenExam = true.
Proof.
  refine (proj1 (proj2 (past_days_are_all_late Sample.rule30 Sample.brasilia
            (Some Sample.plan2) Sample.mondays100 Sample.monday [] iniciante
            false [Sample.simulado1] [] "2024-01-02" "2024-01-01"
            Sample.goalThenExam
            (goalItem Sample.rule30 iniciante "2024-01-01" "c2" "d1"
               (Sample.queued Sample.g1)) _))).
  vm_compute. reflexivity.
Defined.

(** ** Expanding the folders of a cycle *)

Lemma flat_map_id {A} (f : A → list A) (l : list A) :
  (∀ x, x ∈ l → f x = [x]) → flat_map f l = l.
Proof.
  induction l as [|x l IH]; intros H; simpl; [reflexivity|].
  rewrite (H x ltac:(left)), IH; [reflexivity|].
  intros y Hy. apply H. by right.
Qed.

(** X24.  Expanding a cycle leaves nothing to expand: when no discipline
    of the plan has an empty id, no item of the expansion names a folder,
    each names a discipline or an exam, and expanding the expansion gives
    the same list again. *)
Theorem expansion_is_flat (cycle : Cycle.t) (plan : StudyPlan.t) :
  (∀ d, d ∈ StudyPlan.disciplines plan → Discipline.id d ≠ "") →
  (∀ ci, ci ∈ expandCycleItems cycle plan →
     truthy (CycleItem.folderId ci) = None
     ∧ (is_Some (truthy (CycleItem.disciplineId ci))
        ∨ is_Some (truthy (CycleItem.simuladoId ci))))
  ∧ expandCycleItems (Cycle.mk (Cycle.id cycle) (expandCycleItems cycle plan))
      plan
    = expandCycleItems cycle plan.
Proof.
  intros Hids.
  assert (Hflat : ∀ ci, ci ∈ expandCycleItems cycle plan →
            truthy (CycleItem.folderId ci) = None
            ∧ (is_Some (truthy (CycleItem.disciplineId ci))
               ∨ is_Some (truthy (CycleItem.simuladoId ci)))).
  { intros ci Hci. unfold expandCycleItems in Hci.
    apply list_elem_of_In, in_flat_map in Hci as (item & _ & Hci).
    destruct (truthy (CycleItem.folderId item)) as [f|] eqn:Ef.
    - apply in_map_iff in Hci as (d & <- & Hd). simpl.
      split; [reflexivity|]. left.
      apply list_elem_of_In in Hd. rewrite sortBy_perm in Hd.
      apply list_elem_of_In, filter_In in Hd as [Hd _].
      apply list_elem_of_In, Hids in Hd.
      destruct (String.eqb_spec (Discipline.id d) ""); [done|by eexists].
    - destruct (truthy (CycleItem.disciplineId item)) as [did|] eqn:Ed.
      + destruct Hci as [<-|[]]. split; [exact Ef|]. left.
        rewrite Ed. by eexists.
      + destruct (truthy (CycleItem.simuladoId item)) as [sid|] eqn:Es;
          [|destruct Hci].
        destruct Hci as [<-|[]]. split; [exact Ef|]. right.
        rewrite Es. by eexists. }
  split; [exact Hflat|].
  unfold expandCycleItems at 1. cbn [Cycle.items].
  apply flat_map_id. intros ci Hci.
  destruct (Hflat ci Hci) as [-> [[did ->]|[sid Hsid]]]; [reflexivity|].
  rewrite Hsid. by destruct (truthy (CycleItem.disciplineId ci)).
Qed.

Lemma expansion_is_flat_witness :
  expandCycleItems
    (Cycle.mk "c1" (expandCycleItems SampleFolder.cycle SampleFolder.plan))
    SampleFolder.plan
  = [CycleItem.mk None (Some "d3") None 2;
     CycleItem.mk None (Some "d2") None 2;
     CycleItem.mk None None (Some "s1") 0].
Proof.
  refine (eq_trans
            (proj2 (expansion_is_flat SampleFolder.cycle SampleFolder.plan _))
            _).
  - intros d Hd. apply list_elem_of_In in Hd.
    destruct Hd as [<-|[<-|[]]]; done.
  - vm_compute. reflexivity.
Defined.

(** * The dates of the agenda *)

(** X25.  On a host that is at UTC or west of Greenwich at local midnight
    of the start date, and less than a day from UTC on every day, whatever
    its changes of clocks, every key of the agenda is the date of a day
    from the start date up to 89 days later, the weekday of that day has a
    positive number of minutes in the routine, and the list filed under
    the key is not empty. *)
Theorem agenda_dates_west calc tz plan routine startDay completedGoals
    userLevel isPaused allSimulados userAttempts k items :
  (0 ≤ tz startDay < 1440)%Z →
  (∀ d, -1440 ≤ tz d < 1440)%Z →
  generateSchedule calc tz plan routine startDay completedGoals userLevel
    isPaused allSimulados userAttempts !! k = Some items →
  ∃ day, (startDay ≤ day < startDay + 90)%Z ∧ k = isoDate day
    ∧ (0 < minutesOf routine day)%Z ∧ items ≠ [].
Proof.
  intros Hstart Htz
    (p & off & _ & Hoff & Hk & _ & Hne & Hitems)%generateSchedule_lookup.
  cbv zeta in Hk, Hitems.
  set (day := dateOfOffset startDay tz off) in *.
  exists day. unfold MAX_DAYS in Hoff.
  split; [|split; [exact Hk|split; [|exact Hne]]].
  - unfold day, dateOfOffset, utcDay, localMidnight.
    pose proof (Htz (startDay + Z.of_nat off)%Z) as Hd.
    pose proof (Z.div_mod ((startDay + Z.of_nat off) * 1440
                           + tz (startDay + Z.of_nat off))%Z 1440%Z
                  ltac:(lia)) as Hdm.
    pose proof (Z.mod_pos_bound ((startDay + Z.of_nat off) * 1440
                                 + tz (startDay + Z.of_nat off))%Z 1440%Z
                  ltac:(lia)) as Hr.
    destruct off as [|off].
    + replace (startDay + Z.of_nat 0)%Z with startDay in * by lia. lia.
    + lia.
  - destruct (Z.ltb_spec 0 (minutesOf routine day)) as [Hpos|Hle];
      [exact Hpos|].
    exfalso. apply Hne. rewrite Hitems.
    rewrite dayLoop_no_minutes by exact Hle. reflexivity.
Qed.

Lemma agenda_dates_west_witness :
  ∃ day, (Sample.monday ≤ day < Sample.monday + 90)%Z
    ∧ "2024-01-01" = isoDate day
    ∧ (0 < minutesOf Sample.mondays100 day)%Z
    ∧ Sample.goalThenExam ≠ [].
Proof.
  apply (agenda_dates_west Sample.rule30 Sample.brasilia (Some Sample.plan2)
           Sample.mondays100 Sample.monday [] iniciante false
           [Sample.simulado1] [] "2024-01-01" Sample.goalThenExam).
  - unfold Sample.brasilia. lia.
  - intros d. unfold Sample.brasilia. lia.
  - vm_compute. reflexivity.
Defined.

(** Europe/London (and Lisbon), spring 2024.  Local midnight of 31 March
    is before the change of clocks and prints the 31st; local midnight of
    1 April is in summer time and prints the 31st too: two days of the run
    are filed under one key.  In October local midnight of the 27th
    prints the 26th and that of the 28th prints the 28th: no day is filed
    under the 27th. *)
Lemma lisbon_spring_shares_a_key :
  isoDate (dateOfOffset 19810 SampleZone.london2024 3) = "2024-03-31"
  ∧ isoDate (dateOfOffset 19810 SampleZone.london2024 4) = "2024-03-31"
  ∧ isoDate (dateOfOffset 20020 SampleZone.london2024 3) = "2024-10-26"
  ∧ isoDate (dateOfOffset 20020 SampleZone.london2024 4) = "2024-10-28".
Proof. repeat split; vm_compute; reflexivity. Qed.

Lemma runDays_east calc tz plan routine startDay completedGoals userLevel
    allSimulados userAttempts n :
  (∀ d, -1440 ≤ tz d < 0)%Z →
  runDays calc tz plan routine startDay completedGoals userLevel allSimulados
    userAttempts n
  = runDays calc Sample.utc plan routine (startDay - 1) completedGoals
      userLevel allSimulados userAttempts n.
Proof.
  intros Htz. induction n as [|n IH]; [done|].
  rewrite !runDays_S, IH. unfold runDay.
  rewrite dateOfOffset_east by exact Htz.
  rewrite dateOfOffset_west by (intros d; unfold Sample.utc; lia).
  replace (startDay - 1 + Z.of_nat n)%Z with (startDay + Z.of_nat n - 1)%Z
    by lia.
  reflexivity.
Qed.

(** X26.  On a host that is east of Greenwich at every local midnight of
    the run, the agenda is, key by key and item by item, the agenda that a
    start one day earlier gives on a host at UTC.  A host that is at UTC
    on some of the days, as Lisbon and London are in winter, is not such a
    host: see [lisbon_spring_shares_a_key]. *)
Theorem east_agenda_is_a_day_early calc tz plan routine startDay
    completedGoals userLevel isPaused allSimulados userAttempts :
  (∀ d, -1440 ≤ tz d < 0)%Z →
  generateSchedule calc tz plan routine startDay completedGoals userLevel
    isPaused allSimulados userAttempts
  = generateSchedule calc Sample.utc plan routine (startDay - 1)
      completedGoals userLevel isPaused allSimulados userAttempts.
Proof.
  intros Htz. unfold generateSchedule, scheduleDays.
  destruct isPaused; [reflexivity|]. destruct plan as [p|]; [|reflexivity].
  destruct (length (StudyPlan.cycles p) =? 0); [reflexivity|].
  destruct (negb (hasAvailability routine)); [reflexivity|].
  rewrite runDays_east by exact Htz. reflexivity.
Qed.

Lemma east_agenda_is_a_day_early_witness :
  generateSchedule Sample.rule30 SampleZone.berlin2024 (Some Sample.plan1)
    Sample.sundays60 20000 [] iniciante false [] []
  = generateSchedule Sample.rule30 Sample.utc (Some Sample.plan1)
      Sample.sundays60 (20000 - 1) [] iniciante false [] [].
Proof.
  apply east_agenda_is_a_day_early.
  intros d. unfold SampleZone.berlin2024, SampleZone.london2024.
  destruct ((19814 <=? d) && (d <=? 20023))%Z; lia.
Defined.

(** * No goal is scheduled twice *)

Lemma flat_map_NoDup_piece {A B} (f : A → list B) (l : list A) x :
  NoDup (flat_map f l) → x ∈ l → NoDup (f x).
Proof.
  induction l as [|a l IH]; intros Hnd Hx; [by apply elem_of_nil in Hx|].
  simpl in Hnd. apply NoDup_app in Hnd as (Ha & _ & Hl).
  apply elem_of_cons in Hx as [->|Hx]; [exact Ha|by apply IH].
Qed.

Lemma flat_map_NoDup_inj {A B} (f : A → list B) (l : list A) x y b :
  NoDup (flat_map f l) → x ∈ l → y ∈ l → b ∈ f x → b ∈ f y → x = y.
Proof.
  induction l as [|a l IH]; intros Hnd Hx Hy Hbx Hby;
    [by apply elem_of_nil in Hx|].
  simpl in Hnd. apply NoDup_app in Hnd as (Ha & Hdisj & Hl).
  assert (Hin : ∀ z, z ∈ l → b ∈ f z → b ∈ flat_map f l).
  { intros z Hz Hb. apply list_elem_of_In, in_flat_map. exists z.
    split; by apply list_elem_of_In. }
  apply elem_of_cons in Hx as [->|Hx]; apply elem_of_cons in Hy as [->|Hy].
  - reflexivity.
  - exfalso. apply (Hdisj b Hbx). by apply (Hin y).
  - exfalso. apply (Hdisj b Hby). by apply (Hin x).
  - by apply IH.
Qed.

Lemma map_flat_map {A B C} (g : B → C) (f : A → list B) (l : list A) :
  map g (flat_map f l) = flat_map (λ x, map g (f x)) l.
Proof.
  induction l as [|a l IH]; simpl; [reflexivity|].
  by rewrite map_app, IH.
Qed.

Lemma Forall2_NoDup_map {A B C} (R : A → B → Prop) (f : A → C)
    (l : list A) (ws : list B) :
  Forall2 R l ws → NoDup ws →
  (∀ a a' w w', R a w → R a' w' → f a = f a' → w = w') →
  NoDup (map f l).
Proof.
  intros HR Hnd Hinj. induction HR as [|a w l ws Ha Hl IH]; simpl;
    [constructor|].
  apply NoDup_cons in Hnd as [Hw Hnd].
  constructor; [|by apply IH].
  intros Hin. apply list_elem_of_fmap in Hin as (a' & Hf & Ha').
  apply list_elem_of_lookup in Ha' as [i Hi].
  destruct (Forall2_lookup_l _ _ _ _ _ Hl Hi) as (w' & Hw' & HR').
  apply Hw. rewrite (Hinj a a' w w' Ha HR' Hf).
  by apply list_elem_of_lookup_2 in Hw'.
Qed.

(** In a plan without a repeated goal id, a goal id names one position of
    one queue. *)
Lemma queue_positions_distinct plan did did' queue queue' p p' q q' :
  DistinctGoalIds plan →
  disciplineQueues plan !! did = Some queue →
  disciplineQueues plan !! did' = Some queue' →
  queue !! p = Some q → queue' !! p' = Some q' →
  Goal.id (QueuedGoal.goal q) = Goal.id (QueuedGoal.goal q') →
  did = did' ∧ p = p'.
Proof.
  unfold DistinctGoalIds. rewrite map_flat_map.
  intros Hnd (d & Hd & <- & ->)%disciplineQueues_lookup
    (d' & Hd' & <- & ->)%disciplineQueues_lookup Hq Hq' Heq.
  set (ids := λ d, map Goal.id (flat_map Subject.goals (Discipline.subjects d)))
    in *.
  assert (Hin : ∀ e i g, flatGoals e !! i = Some g →
            Goal.id (QueuedGoal.goal g) ∈ ids e).
  { intros e i g Hg. unfold ids. rewrite <- flatGoals_ids.
    apply list_elem_of_fmap. exists g. split; [done|].
    by apply list_elem_of_lookup_2 in Hg. }
  assert (d = d') as <-.
  { apply (flat_map_NoDup_inj ids _ d d' (Goal.id (QueuedGoal.goal q)) Hnd
             Hd Hd'); [by eapply Hin|].
    rewrite Heq. by eapply Hin. }
  split; [reflexivity|].
  pose proof (flat_map_NoDup_piece ids _ d Hnd Hd) as Hpiece.
  unfold ids in Hpiece. rewrite <- flatGoals_ids in Hpiece.
  apply (NoDup_lookup _ p p' (Goal.id (QueuedGoal.goal q)) Hpiece).
  - by rewrite list_lookup_fmap, Hq.
  - by rewrite list_lookup_fmap, Hq', Heq.
Qed.

Section Once.

Context (calculateGoalDuration : Goal.t → UserLevel → Z) (tz : Z → Z)
  (plan : StudyPlan.t) (routine : Routine.t) (startDay : Z)
  (completedGoals : list string) (userLevel : UserLevel)
  (allSimulados : list Simulado.t) (userAttempts : list SimuladoAttempt.t).

Local Abbreviation stepC :=
  (step calculateGoalDuration plan completedGoals userLevel allSimulados
     userAttempts).
Local Abbreviation dayLoopC :=
  (dayLoop calculateGoalDuration plan completedGoals userLevel allSimulados
     userAttempts).
Local Abbreviation runDaysC :=
  (runDays calculateGoalDuration tz plan routine startDay completedGoals
     userLevel allSimulados userAttempts).
Local Abbreviation PlacedTodayC :=
  (PlacedToday calculateGoalDuration userLevel plan).

Lemma placed_advance dateStr ptrs0 did st (sl : SlotState) :
  PlacedTodayC dateStr ptrs0 st →
  disciplinePointers st !! did = Some (pointer sl) →
  PlacedTodayC dateStr ptrs0 (advancePointer did st sl).
Proof.
  intros (Hfrom & ws & Hws & Hnd & Hb) Hp. split.
  - intros did' ptr'. simpl. rewrite lookup_insert. case_decide.
    + intros [= <-]. subst. destruct (Hfrom _ _ Hp) as (ptr0 & H0 & Hle).
      exists ptr0. split; [done|lia].
    + apply Hfrom.
  - exists ws. split; [exact Hws|]. split; [exact Hnd|].
    intros did' p Hin. destruct (Hb did' p Hin) as (ptr0 & ptr & H0 & H1 & Hr).
    simpl. rewrite lookup_insert. case_decide.
    + subst. exists ptr0, (S (pointer sl)). split; [done|].
      split; [done|]. rewrite Hp in H1. injection H1 as <-. lia.
    + exists ptr0, ptr. done.
Qed.

Lemma placed_place dateStr ptrs0 cid did queue g st (sl : SlotState) :
  PlacedTodayC dateStr ptrs0 st →
  disciplineQueues plan !! did = Some queue →
  queue !! pointer sl = Some g →
  disciplinePointers st !! did = Some (pointer sl) →
  PlacedTodayC dateStr ptrs0
    (placeGoal calculateGoalDuration userLevel dateStr cid did g st sl).
Proof.
  intros (Hfrom & ws & Hws & Hnd & Hb) Hq Hg Hp.
  destruct (Hfrom _ _ Hp) as (ptr0 & H0 & Hle).
  split.
  - intros did' ptr'. simpl. rewrite lookup_insert. case_decide.
    + intros [= <-]. subst. exists ptr0. split; [done|lia].
    + apply Hfrom.
  - exists (ws ++ [(did, pointer sl)])%list. split; [|split].
    + simpl. rewrite goalItemsOf_snoc_goal by done.
      apply Forall2_app; [exact Hws|].
      constructor; [|constructor]. exists queue, g, cid. done.
    + apply NoDup_app. split; [exact Hnd|]. split; [|apply NoDup_singleton].
      intros w Hw Hw'. apply list_elem_of_singleton in Hw' as ->.
      destruct (Hb _ _ Hw) as (? & ptr & _ & H1 & Hr).
      rewrite Hp in H1. injection H1 as <-. lia.
    + intros did' p Hin. simpl. apply elem_of_app in Hin as [Hin|Hin].
      * destruct (Hb did' p Hin) as (ptr0' & ptr & H0' & H1 & Hr).
        rewrite lookup_insert. case_decide.
        -- subst. exists ptr0', (S (pointer sl)). split; [done|].
           split; [done|]. rewrite Hp in H1. injection H1 as <-. lia.
        -- exists ptr0', ptr. done.
      * apply list_elem_of_singleton in Hin as [= -> ->].
        exists ptr0, (S (pointer sl)). split; [done|]. split; [|lia].
        by rewrite lookup_insert_eq.
Qed.

Lemma placed_step dateStr ptrs0 st flow st' :
  PlacedTodayC dateStr ptrs0 st → (0 < minutesAvailable st)%Z →
  stepC dateStr st = (flow, st') → PlacedTodayC dateStr ptrs0 st'.
Proof.
  apply (step_inv calculateGoalDuration plan completedGoals userLevel
           allSimulados userAttempts (PlacedTodayC dateStr ptrs0)).
  - intros s c i H _. exact H.
  - intros s H. exact H.
  - intros s x cycle ci (Hfrom & ws & Hws & Hnd & Hb) _ _ _ _ _ _ _.
    split; [exact Hfrom|]. exists ws. split; [|split; [exact Hnd|exact Hb]].
    simpl. by rewrite goalItemsOf_snoc_simulado.
  - intros s cycle ci did queue ptr s' sl' HP _ _ _ _ Hq Hp _ Hv.
    eapply (visitQueue_inv calculateGoalDuration completedGoals userLevel
              (λ s sl, PlacedTodayC dateStr ptrs0 s
                       ∧ disciplinePointers s !! did = Some (pointer sl)))
      in Hv as (s0 & [H0 _] & [->| ->]); try done.
    + intros s1 sl g [HP1 Hp1] _ _ _. split.
      * by apply placed_advance.
      * simpl. by rewrite lookup_insert_eq.
    + intros s1 sl g [HP1 Hp1] Hlook _ _ _. split.
      * by eapply placed_place.
      * simpl. by rewrite lookup_insert_eq.
Qed.

Lemma placed_dayLoop dateStr m fuel st :
  PlacedTodayC dateStr (disciplinePointers st)
    (dayLoopC dateStr fuel (startOfDay m st)).
Proof.
  apply (dayLoop_inv calculateGoalDuration plan completedGoals userLevel
           allSimulados userAttempts
           (PlacedTodayC dateStr (disciplinePointers st))).
  - intros s flow s' H Hm Hs. by eapply placed_step.
  - split.
    + intros did ptr H. exists ptr. done.
    + exists []. split; [constructor|]. split; [constructor|].
      intros did p H. by apply elem_of_nil in H.
Qed.

(** What the run has reached after a day with minutes. *)
Lemma runDays_S_state off :
  minutesOf routine (dateOfOffset startDay tz off) ≠ 0%Z →
  (runDaysC (S off)).1
  = dayLoopC (isoDate (dateOfOffset startDay tz off)) SAFETY_LIMIT
      (startOfDay (minutesOf routine (dateOfOffset startDay tz off))
         (runDaysC off).1).
Proof.
  intros Hm. rewrite runDays_S. unfold runDay.
  destruct (Z.eqb_spec (minutesOf routine (dateOfOffset startDay tz off)) 0);
    [done|].
  reflexivity.
Qed.


(** The goal items of the list of a day, with their places. *)
Lemma placed_agenda isPaused k items :
  generateSchedule calculateGoalDuration tz (Some plan) routine startDay
    completedGoals userLevel isPaused allSimulados userAttempts !! k
    = Some items →
  ∃ off ws, off < MAX_DAYS
    ∧ k = isoDate (dateOfOffset startDay tz off)
    ∧ Forall2 (PlacedAt calculateGoalDuration userLevel plan k)
        (goalItemsOf items) ws
    ∧ NoDup ws
    ∧ ∀ did p, (did, p) ∈ ws →
        ∃ ptr0 ptr,
          disciplinePointers (runDaysC off).1 !! did = Some ptr0
          ∧ disciplinePointers (runDaysC (S off)).1 !! did = Some ptr
          ∧ ptr0 ≤ p < ptr.
Proof.
  intros (p & off & [= <-] & Hoff & Hk & Hm & _ & Hitems)%generateSchedule_lookup.
  cbv zeta in Hk, Hm, Hitems.
  pose proof (placed_dayLoop k
                (minutesOf routine (dateOfOffset startDay tz off))
                SAFETY_LIMIT (runDaysC off).1) as (_ & ws & Hws & Hnd & Hb).
  exists off, ws. split; [exact Hoff|]. split; [exact Hk|].
  rewrite Hitems. split; [exact Hws|]. split; [exact Hnd|].
  rewrite (runDays_S_state off Hm), <- Hk. exact Hb.
Qed.

Lemma placed_goal_ids w w' k k' it it' :
  DistinctGoalIds plan →
  PlacedAt calculateGoalDuration userLevel plan k it w →
  PlacedAt calculateGoalDuration userLevel plan k' it' w' →
  ScheduledItem.goalId it = ScheduledItem.goalId it' → w = w'.
Proof.
  intros Hdistinct (queue & q & cid & Hq & Hp & ->)
    (queue' & q' & cid' & Hq' & Hp' & ->) Heq. simpl in Heq.
  destruct w as [did p], w' as [did' p']. simpl in *.
  destruct (queue_positions_distinct plan did did' queue queue' p p' q q'
              Hdistinct Hq Hq' Hp Hp' Heq) as [-> ->].
  reflexivity.
Qed.

(** A place taken on one day is below every place taken on a later
    day. *)
Lemma placed_later off off' did p p' ptr ptr0' :
  off < off' →
  disciplinePointers (runDaysC (S off)).1 !! did = Some ptr → p < ptr →
  disciplinePointers (runDaysC off').1 !! did = Some ptr0' → ptr0' ≤ p' →
  p < p'.
Proof.
  intros Hlt Hptr Hp Hptr0 Hp'.
  destruct (pointersGrow_runDays calculateGoalDuration tz plan routine
              startDay completedGoals userLevel allSimulados userAttempts
              (S off) off' ltac:(lia) did ptr Hptr) as (ptr' & H' & Hle).
  rewrite Hptr0 in H'. injection H' as <-. lia.
Qed.

End Once.

(** X27.  In a plan where no two goals share an id, no goal is scheduled
    twice: the goal items of a day have different goal ids, and a goal
    item of one date never has the goal id of a goal item of another
    date. *)
Theorem no_goal_scheduled_twice calc tz plan routine startDay completedGoals
    userLevel isPaused allSimulados userAttempts :
  DistinctGoalIds plan →
  let agenda :=
    generateSchedule calc tz (Some plan) routine startDay completedGoals
      userLevel isPaused allSimulados userAttempts in
  (∀ k items, agenda !! k = Some items →
     NoDup (map ScheduledItem.goalId (goalItemsOf items)))
  ∧ ∀ k k' items items' it it',
      agenda !! k = Some items → agenda !! k' = Some items' → k ≠ k' →
      it ∈ items → it' ∈ items' →
      isSimuladoItem it = false → isSimuladoItem it' = false →
      ScheduledItem.goalId it ≠ ScheduledItem.goalId it'.
Proof.
  intros Hdistinct agenda. split.
  - intros k items Ha.
    apply placed_agenda in Ha as (off & ws & _ & _ & Hws & Hnd & _).
    apply (Forall2_NoDup_map _ _ _ _ Hws Hnd).
    intros a a' w w' Hw Hw'. by eapply placed_goal_ids.
  - intros k k' items items' it it' Ha Ha' Hk Hit Hit' Hg Hg' Heq.
    apply placed_agenda in Ha as (off & ws & _ & Hoff & Hws & _ & Hb).
    apply placed_agenda in Ha' as (off' & ws' & _ & Hoff' & Hws' & _ & Hb').
    assert (Hfind : ∀ (l : list ScheduledItem.t) i,
              i ∈ l → isSimuladoItem i = false → i ∈ goalItemsOf l).
    { intros l i Hi Hs. unfold goalItemsOf.
      apply list_elem_of_In, filter_In. split; [by apply list_elem_of_In|].
      by rewrite Hs. }
    apply Hfind, list_elem_of_lookup in Hit as [i Hi]; [|exact Hg].
    apply Hfind, list_elem_of_lookup in Hit' as [i' Hi']; [|exact Hg'].
    destruct (Forall2_lookup_l _ _ _ _ _ Hws Hi) as (w & Hw & HP).
    destruct (Forall2_lookup_l _ _ _ _ _ Hws' Hi') as (w' & Hw' & HP').
    pose proof (placed_goal_ids calc plan userLevel w w' k k' it it'
                  Hdistinct HP HP' Heq) as <-.
    destruct w as [did p].
    apply list_elem_of_lookup_2 in Hw, Hw'.
    destruct (Hb did p Hw) as (ptr0 & ptr & H0 & H1 & Hr).
    destruct (Hb' did p Hw') as (ptr0' & ptr' & H0' & H1' & Hr').
    destruct (Nat.lt_trichotomy off off') as [Hlt|[->|Hlt]].
    + pose proof (placed_later calc tz plan routine startDay completedGoals
                    userLevel allSimulados userAttempts off off' did p p
                    ptr ptr0' Hlt H1 ltac:(lia) H0' ltac:(lia)). lia.
    + apply Hk. by rewrite Hoff, Hoff'.
    + pose proof (placed_later calc tz plan routine startDay completedGoals
                    userLevel allSimulados userAttempts off' off did p p
                    ptr' ptr0 Hlt H1' ltac:(lia) H0 ltac:(lia)). lia.
Qed.

Lemma no_goal_scheduled_twice_witness :
  NoDup (map ScheduledItem.goalId
           (goalItemsOf
              [goalItem Sample.rule30 iniciante "2024-01-01" "c1" "d1"
                 (Sample.queued Sample.g1);
               goalItem Sample.rule30 iniciante "2024-01-01" "c1" "d1"
                 (Sample.queued Sample.g2)])).
Proof.
  refine (proj1 (no_goal_scheduled_twice Sample.rule30 Sample.brasilia
                   Sample.plan1 Sample.mondays60 Sample.monday [] iniciante
                   false [] [] _) "2024-01-01" _ _).
  - unfold DistinctGoalIds. simpl.
    repeat (apply NoDup_cons; split;
            [rewrite ?elem_of_cons, elem_of_nil; intuition discriminate|]).
    apply NoDup_nil_2.
  - vm_compute. reflexivity.
Defined.

(** X28.  In a plan where no two goals share an id, the order of a queue
    is kept: a goal is never scheduled on an earlier day of the run than a
    goal that stands before it in the queue of the same discipline. *)
Theorem queue_order_is_kept calc tz plan routine startDay completedGoals
    userLevel isPaused allSimulados userAttempts k k' items items' it it'
    did queue (p p' : nat) q q' :
  DistinctGoalIds plan →
  let agenda :=
    generateSchedule calc tz (Some plan) routine startDay completedGoals
      userLevel isPaused allSimulados userAttempts in
  agenda !! k = Some items → agenda !! k' = Some items' →
  it ∈ items → it' ∈ items' →
  isSimuladoItem it = false → isSimuladoItem it' = false →
  disciplineQueues plan !! did = Some queue →
  queue !! p = Some q → queue !! p' = Some q' →
  ScheduledItem.goalId it = Goal.id (QueuedGoal.goal q) →
  ScheduledItem.goalId it' = Goal.id (QueuedGoal.goal q') →
  p < p' →
  ∃ off off', off ≤ off' ∧ off' < MAX_DAYS
    ∧ k = isoDate (dateOfOffset startDay tz off)
    ∧ k' = isoDate (dateOfOffset startDay tz off').
Proof.
  intros Hdistinct agenda Ha Ha' Hit Hit' Hg Hg' Hqueue Hq Hq' Hid Hid' Hlt.
  apply placed_agenda in Ha as (off & ws & _ & Hoff & Hws & _ & Hb).
  apply placed_agenda in Ha' as (off' & ws' & Hmax & Hoff' & Hws' & _ & Hb').
  assert (Hfind : ∀ (l : list ScheduledItem.t) i,
            i ∈ l → isSimuladoItem i = false → i ∈ goalItemsOf l).
  { intros l i Hi Hs. unfold goalItemsOf.
    apply list_elem_of_In, filter_In. split; [by apply list_elem_of_In|].
    by rewrite Hs. }
  assert (Hplace : ∀ kk i w r (pos : nat),
            PlacedAt calc userLevel plan kk i w →
            queue !! pos = Some r →
            ScheduledItem.goalId i = Goal.id (QueuedGoal.goal r) →
            w = (did, pos)).
  { intros kk i [wd wp] r pos (qu & g & cid & Hqu & Hgp & ->) Hr Heq.
    simpl in *.
    destruct (queue_positions_distinct plan wd did qu queue wp pos g r
                Hdistinct Hqu Hqueue Hgp Hr Heq) as [-> ->].
    reflexivity. }
  apply Hfind, list_elem_of_lookup in Hit as [i Hi]; [|exact Hg].
  apply Hfind, list_elem_of_lookup in Hit' as [i' Hi']; [|exact Hg'].
  destruct (Forall2_lookup_l _ _ _ _ _ Hws Hi) as (w & Hw & HP).
  destruct (Forall2_lookup_l _ _ _ _ _ Hws' Hi') as (w' & Hw' & HP').
  pose proof (Hplace _ _ _ _ _ HP Hq Hid) as ->.
  pose proof (Hplace _ _ _ _ _ HP' Hq' Hid') as ->.
  apply list_elem_of_lookup_2 in Hw, Hw'.
  destruct (Hb did p Hw) as (ptr0 & ptr & H0 & H1 & Hr).
  destruct (Hb' did p' Hw') as (ptr0' & ptr' & H0' & H1' & Hr').
  exists off, off'. split; [|done].
  destruct (Nat.le_gt_cases off off') as [Hle|Hgt]; [exact Hle|].
  pose proof (placed_later calc tz plan routine startDay completedGoals
                userLevel allSimulados userAttempts off' off did p' p
                ptr' ptr0 Hgt H1' ltac:(lia) H0 ltac:(lia)). lia.
Qed.

Lemma distinct_plan1 : DistinctGoalIds Sample.plan1.
Proof.
  unfold DistinctGoalIds. simpl.
  repeat (apply NoDup_cons; split;
          [rewrite ?elem_of_cons, elem_of_nil; intuition discriminate|]).
  apply NoDup_nil_2.
Qed.

Lemma queue_order_is_kept_witness :
  ∃ off off', off ≤ off' ∧ off' < MAX_DAYS
    ∧ "2024-01-01" = isoDate (dateOfOffset Sample.monday Sample.brasilia off)
    ∧ "2024-01-08" = isoDate (dateOfOffset Sample.monday Sample.brasilia off').
Proof.
  apply (queue_order_is_kept Sample.rule30 Sample.brasilia Sample.plan1
           Sample.mondays60 Sample.monday [] iniciante false [] []
           "2024-01-01" "2024-01-08"
           [goalItem Sample.rule30 iniciante "2024-01-01" "c1" "d1"
              (Sample.queued Sample.g1);
            goalItem Sample.rule30 iniciante "2024-01-01" "c1" "d1"
              (Sample.queued Sample.g2)]
           [goalItem Sample.rule30 iniciante "2024-01-08" "c1" "d1"
              (Sample.queued Sample.g3)]
           (goalItem Sample.rule30 iniciante "2024-01-01" "c1" "d1"
              (Sample.queued Sample.g1))
           (goalItem Sample.rule30 iniciante "2024-01-08" "c1" "d1"
              (Sample.queued Sample.g3))
           "d1"
           [Sample.queued Sample.g1; Sample.queued Sample.g2;
            Sample.queued Sample.g3]
           0 2 (Sample.queued Sample.g1) (Sample.queued Sample.g3)).
  - exact distinct_plan1.
  - vm_compute. reflexivity.
  - vm_compute. reflexivity.
  - left.
  - left.
  - reflexivity.
  - reflexivity.
  - vm_compute. reflexivity.
  - reflexivity.
  - reflexivity.
  - reflexivity.
  - reflexivity.
  - lia.
Defined.

(** * Flashcards from a PDF *)

Lemma toFlashcards_spec uuid rawCards n :
  (toFlashcards uuid rawCards n).2 = n + length rawCards
  ∧ length (toFlashcards uuid rawCards n).1 = length rawCards
  ∧ ∀ i card, rawCards !! i = Some card →
      (toFlashcards uuid rawCards n).1 !! i
      = Some (Flashcard.mk (uuid (n + i)) (RawCard.question card)
                (RawCard.answer card)).
Proof.
  revert n. induction rawCards as [|c rest IH]; intros n; simpl.
  - split; [lia|]. split; [reflexivity|]. intros i card H.
    by rewrite lookup_nil in H.
  - destruct (IH (S n)) as (H1 & H2 & H3).
    destruct (toFlashcards uuid rest (S n)) as [cards n'] eqn:E. simpl in *.
    split; [lia|]. split; [by rewrite H2|].
    intros [|i] card Hc; simpl in *.
    + injection Hc as <-. by rewrite Nat.add_0_r.
    + rewrite (H3 i card Hc). do 3 f_equal. lia.
Qed.

(** X29.  When the call succeeds the reply was a non-empty text that
    parsed into cards, and the flashcards are those cards in the same
    order, each with its question and its answer, with the ids that
    [uuid()] handed out in turn; when ids are never handed out twice, no
    two flashcards share an id. *)
Theorem flashcards_mirror_the_reply generateContent parseCards uuid
    base64Pdf n cards n' :
  generateFlashcardsFromPDF generateContent parseCards uuid base64Pdf n
    = inr (cards, n') →
  ∃ jsonText rawCards,
    generateContent (cleanBase64 base64Pdf) = inr (Some jsonText)
    ∧ jsonText ≠ ""
    ∧ parseCards jsonText = inr rawCards
    ∧ n' = n + length rawCards
    ∧ length cards = length rawCards
    ∧ (∀ i card, rawCards !! i = Some card →
         cards !! i
         = Some (Flashcard.mk (uuid (n + i)) (RawCard.question card)
                   (RawCard.answer card)))
    ∧ ((∀ a b, uuid a = uuid b → a = b) → NoDup (map Flashcard.id cards)).
Proof.
  unfold generateFlashcardsFromPDF, requestFlashcards.
  destruct (generateContent (cleanBase64 base64Pdf)) as [e|response];
    [done|].
  destruct response as [text|]; simpl; [|done].
  destruct (String.eqb_spec text "") as [->|Hne]; [done|].
  destruct (parseCards text) as [e|rawCards] eqn:Hparse; [done|].
  intros [= Hcards].
  destruct (toFlashcards_spec uuid rawCards n) as (H1 & H2 & H3).
  rewrite Hcards in H1, H2, H3. simpl in *.
  exists text, rawCards. repeat (split; [done|]).
  intros Hinj. apply NoDup_alt. intros i j id Hi Hj.
  rewrite list_lookup_fmap in Hi, Hj.
  destruct (rawCards !! i) as [ci|] eqn:Ei.
  - destruct (rawCards !! j) as [cj|] eqn:Ej.
    + rewrite (H3 i ci Ei) in Hi. rewrite (H3 j cj Ej) in Hj. simpl in *.
      injection Hi as <-. injection Hj as Hj. apply Hinj in Hj. lia.
    + apply lookup_ge_None in Ej. rewrite <- H2 in Ej.
      apply lookup_ge_None in Ej. by rewrite Ej in Hj.
  - apply lookup_ge_None in Ei. rewrite <- H2 in Ei.
    apply lookup_ge_None in Ei. by rewrite Ei in Hi.
Qed.

Lemma flashcards_mirror_the_reply_witness :
  ∃ jsonText rawCards,
    SampleReply.generateContent (cleanBase64 "data:application/pdf;base64,QQ==")
      = inr (Some jsonText)
    ∧ jsonText ≠ ""
    ∧ SampleReply.parseCards jsonText = inr rawCards
    ∧ 7 = 5 + length rawCards
    ∧ length
        [Flashcard.mk "id5" "Prazo?" "30 dias";
         Flashcard.mk "id6" "Regra?" "Geral"] = length rawCards
    ∧ (∀ i card, rawCards !! i = Some card →
         [Flashcard.mk "id5" "Prazo?" "30 dias";
          Flashcard.mk "id6" "Regra?" "Geral"] !! i
         = Some (Flashcard.mk (SampleReply.uuid (5 + i))
                   (RawCard.question card) (RawCard.answer card)))
    ∧ ((∀ a b, SampleReply.uuid a = SampleReply.uuid b → a = b) →
       NoDup (map Flashcard.id
                [Flashcard.mk "id5" "Prazo?" "30 dias";
                 Flashcard.mk "id6" "Regra?" "Geral"])).
Proof.
  apply (flashcards_mirror_the_reply SampleReply.generateContent
           SampleReply.parseCards SampleReply.uuid
           "data:application/pdf;base64,QQ==" 5).
  vm_compute. reflexivity.
Defined.

(** X30.  The call fails exactly when the model call is rejected, the
    reply has no text, or the text does not parse; whatever the cause, the
    caller gets the one general message, never the one for the empty
    reply, and no id has been handed out. *)
Theorem flashcards_failure generateContent parseCards uuid base64Pdf n :
  let reply := generateContent (cleanBase64 base64Pdf) in
  (∃ e, reply = inl e) ∨ reply = inr None ∨ reply = inr (Some "")
  ∨ (∃ jsonText e, reply = inr (Some jsonText) ∧ parseCards jsonText = inl e)
  ↔ generateFlashcardsFromPDF generateContent parseCards uuid base64Pdf n
    = inl failureMessage.
Proof.
  intros reply. unfold generateFlashcardsFromPDF, requestFlashcards.
  fold reply. split.
  - intros [[e ->]|[->|[->|(text & e & -> & Hp)]]]; try reflexivity.
    simpl. destruct (String.eqb text ""); [reflexivity|]. by rewrite Hp.
  - destruct reply as [e|[text|]]; simpl.
    + intros _. left. by exists e.
    + destruct (String.eqb_spec text "") as [->|Hne].
      * intros _. right. right. by left.
      * destruct (parseCards text) as [e|rawCards] eqn:Hp; [|done].
        intros _. right. right. right. by exists text, e.
    + intros _. right. by left.
Qed.
